(** * The referral tracker of app.py

    A shallow embedding of the store adapter ([load_data], [append_data],
    [update_cell_by_referral_id]) and of the two workflows of the script
    (the referral form of the primary health care role, the dashboard and the
    acknowledgement form of the hospital role), followed by the properties
    of the referral record lifecycle.

    The script talks to three collaborators that are not part of it: the
    worksheet (through gspread), the Streamlit runtime (widgets, messages,
    the data cache, [st.stop] and [st.rerun]) and the wall clock / uuid
    generator.  They appear here as the state [World] the script runs in and
    as the inputs of one run of the script.  Of what the page shows, the
    messages, the written lines and the tables are kept; titles, rules,
    spinners and the page configuration are left out. *)

From Stdlib Require Import String Ascii List Arith Bool Lia ZArith NArith.
From Stdlib Require Import DecimalString.
Import ListNotations.
Open Scope string_scope.
Open Scope list_scope.
Open Scope nat_scope.

Set Implicit Arguments.

(** ** Python values used by the script *)

(** What the script holds of a cell once the table is read: a [str], or the
    [int] or [float] that [get_all_records] makes of a text that reads as a
    number.  A float is kept as the text it was read from.  A text counts as
    a value wherever one is expected. *)
Inductive value :=
| VStr (s : string)
| VInt (z : Z)
| VFloat (text : string).

Coercion VStr : string >-> value.
Arguments Some {A} & a.
Arguments cons {A} & a l.
Arguments pair {A B} & a b.

(** Truth value of a Python [str]: only the empty text is falsy. *)
Definition truthy (s : string) : bool := negb (s =? "")%string.

(** [all([...])] on a list of truth values. *)
Definition all (l : list bool) : bool := forallb (fun b => b) l.

(** [v == s] for a text [s]: a number equals no text. *)
Definition eq_text (v : value) (s : string) : bool :=
  match v with
  | VStr x => (x =? s)%string
  | VInt _ | VFloat _ => false
  end.

(** [x in l] for a list of texts. *)
Definition contains (x : value) (l : list string) : bool :=
  existsb (eq_text x) l.

(** [l.index(x)]: the position of the first element equal to [x]; [None]
    stands for Python's [ValueError]. *)
Fixpoint index (x : value) (l : list string) : option nat :=
  match l with
  | [] => None
  | y :: t => if eq_text x y then Some 0
              else match index x t with
                   | Some i => Some (S i)
                   | None => None
                   end
  end.

(** *** Texts that read as numbers *)

(** The characters that matter to [int()] and [float()], and to gspread
    before it calls them.  Texts are byte strings: a numeral is one written
    with the ASCII digits. *)
Inductive letter := LA | LF | LI | LN | LT | LY.

Inductive charkind :=
| KDigit (d : nat)
| KPlus
| KMinus
| KDot
| KExp
| KSpace
| KComma
| KUnderscore
| KLetter (l : letter)
| KOther.

Definition kind (c : ascii) : charkind :=
  match c with
  | "0" => KDigit 0 | "1" => KDigit 1 | "2" => KDigit 2 | "3" => KDigit 3
  | "4" => KDigit 4 | "5" => KDigit 5 | "6" => KDigit 6 | "7" => KDigit 7
  | "8" => KDigit 8 | "9" => KDigit 9
  | "+" => KPlus
  | "-" => KMinus
  | "." => KDot
  | "e" | "E" => KExp
  | " " | "009" | "010" | "011" | "012" | "013"
  | "028" | "029" | "030" | "031" => KSpace
  | "," => KComma
  | "_" => KUnderscore
  | "a" | "A" => KLetter LA
  | "f" | "F" => KLetter LF
  | "i" | "I" => KLetter LI
  | "n" | "N" => KLetter LN
  | "t" | "T" => KLetter LT
  | "y" | "Y" => KLetter LY
  | _ => KOther
  end%char.

Definition kinds (s : string) : list charkind :=
  map kind (list_ascii_of_string s).

(** [int(text)]: blanks around, one sign, then digits and nothing else. *)
Inductive int_state := I0 | ISigned | IDigits | ITrail | IDead.

Definition int_step (s : int_state) (k : charkind) : int_state :=
  match s, k with
  | I0, KSpace => I0
  | I0, (KPlus | KMinus) => ISigned
  | (I0 | ISigned | IDigits), KDigit _ => IDigits
  | (IDigits | ITrail), KSpace => ITrail
  | _, _ => IDead
  end.

Definition int_accepting (s : int_state) : bool :=
  match s with
  | IDigits | ITrail => true
  | _ => false
  end.

Definition is_int (l : list charkind) : bool :=
  int_accepting (fold_left int_step l I0).

Definition int_value (l : list charkind) : Z :=
  let n := fold_left (fun acc k => match k with
                                   | KDigit d => (10 * acc + Z.of_nat d)%Z
                                   | _ => acc
                                   end) l 0%Z in
  if existsb (fun k => match k with KMinus => true | _ => false end) l
  then (- n)%Z else n.

(** [float(text)]: blanks around, one sign, then [inf], [infinity] or [nan]
    in either case, or digits with at most one point and at least one digit,
    and after them an exponent: [e], a sign if any, digits. *)
Inductive float_state :=
| F0 | FSigned | FInt | FDot | FFrac | FE | FESigned | FExp
| FN1 | FN2 | FNan
| FI1 | FI2 | FInf | FI4 | FI5 | FI6 | FI7 | FInfinity
| FTrail | FDead.

Definition float_step (s : float_state) (k : charkind) : float_state :=
  match s, k with
  | F0, KSpace => F0
  | F0, (KPlus | KMinus) => FSigned
  | (F0 | FSigned | FInt), KDigit _ => FInt
  | (F0 | FSigned), KDot => FDot
  | (F0 | FSigned), KLetter LN => FN1
  | (F0 | FSigned), KLetter LI => FI1
  | FInt, KDot => FFrac
  | (FDot | FFrac), KDigit _ => FFrac
  | (FInt | FFrac), KExp => FE
  | FE, (KPlus | KMinus) => FESigned
  | (FE | FESigned | FExp), KDigit _ => FExp
  | FN1, KLetter LA => FN2
  | FN2, KLetter LN => FNan
  | FI1, KLetter LN => FI2
  | FI2, KLetter LF => FInf
  | FInf, KLetter LI => FI4
  | FI4, KLetter LN => FI5
  | FI5, KLetter LI => FI6
  | FI6, KLetter LT => FI7
  | FI7, KLetter LY => FInfinity
  | (FInt | FFrac | FExp | FNan | FInf | FInfinity | FTrail), KSpace => FTrail
  | _, _ => FDead
  end.

Definition float_accepting (s : float_state) : bool :=
  match s with
  | FInt | FFrac | FExp | FNan | FInf | FInfinity | FTrail => true
  | _ => false
  end.

Definition is_float (l : list charkind) : bool :=
  float_accepting (fold_left float_step l F0).

Definition is_underscore (k : charkind) : bool :=
  match k with KUnderscore => true | _ => false end.
Definition is_comma (k : charkind) : bool :=
  match k with KComma => true | _ => false end.

(** gspread's [numericise] with the defaults of [get_all_records]: a text
    with an underscore stays as it is; otherwise the commas are taken out
    and what is left is given to [int()], then to [float()]; a text that
    neither accepts stays as it is. *)
Definition numericise (s : string) : value :=
  if existsb is_underscore (kinds s) then VStr s
  else
    let cleaned := filter (fun k => negb (is_comma k)) (kinds s) in
    if is_int cleaned then VInt (int_value cleaned)
    else if is_float cleaned then VFloat s
    else VStr s.

(** The float read from [text] is a NaN, an infinity, below zero. *)
Definition has_letter (l : letter) (text : string) : bool :=
  existsb (fun k => match k, l with
                    | KLetter LA, LA | KLetter LF, LF => true
                    | _, _ => false
                    end) (kinds text).
Definition is_nan (text : string) : bool := has_letter LA text.
Definition is_inf (text : string) : bool := has_letter LF text.
Definition is_negative (text : string) : bool :=
  match filter (fun k => match k with KSpace => false | _ => true end)
               (kinds text) with
  | KMinus :: _ => true
  | _ => false
  end.

(** [a == b].  A text equals the same text and no number; two whole numbers
    are equal as numbers; a NaN equals nothing, itself included.  Two floats
    are compared by the texts they were read from and a float equals no
    whole number here: Python compares the numbers, so 1.50 and 1.5, or 2.0
    and 2, which are equal there, are not told to be equal by this
    definition. *)
Definition value_eqb (a b : value) : bool :=
  match a, b with
  | VStr x, VStr y => (x =? y)%string
  | VInt x, VInt y => (x =? y)%Z
  | VFloat x, VFloat y => (x =? y)%string && negb (is_nan x)
  | _, _ => false
  end.

Definition strip_blanks (text : string) : string :=
  let not_blank c := match kind c with KSpace | KComma => false | _ => true end in
  string_of_list_ascii (filter not_blank (list_ascii_of_string text)).

(** [str(v)], as an f-string shows a value: a text as it is, a whole number
    in decimal without sign [+] or leading zeros.  For a float other than a
    NaN or an infinity the text it was read from stands in for the decimal
    form Python prints (the same for a text like 1.5, not for 1.50 or
    1e3). *)
Definition str_value (v : value) : string :=
  match v with
  | VStr s => s
  | VInt z => NilZero.string_of_int (Z.to_int z)
  | VFloat text =>
      if is_nan text then "nan"
      else if is_inf text then (if is_negative text then "-inf" else "inf")
      else strip_blanks text
  end.

(** [repr(v)]. *)
Definition repr_value (v : value) : string :=
  match v with
  | VStr s => ("'" ++ s ++ "'")%string
  | _ => str_value v
  end.

(** A [dict] from texts to values, in insertion order.  Assigning to a key
    that is present replaces its value in place; a new key goes last. *)
Definition dict := list (string * value).

Fixpoint dict_get (k : string) (d : dict) : option value :=
  match d with
  | [] => None
  | (k', v) :: t => if (k =? k')%string then Some v else dict_get k t
  end.

Fixpoint dict_set (k : string) (v : value) (d : dict) : dict :=
  match d with
  | [] => [(k, v)]
  | (k', v') :: t => if (k =? k')%string then (k', v) :: t else (k', v') :: dict_set k v t
  end.

(** [dict(zip(keys, values))]. *)
Definition dict_zip (keys : list string) (values : list value) : dict :=
  fold_left (fun d kv => dict_set (fst kv) (snd kv) d) (combine keys values) [].

Definition dict_keys (d : dict) : list string := map fst d.

(** ** Dates and [strftime] *)

(** A [datetime.date] and a [datetime.datetime]; Python keeps the year in
    1..9999, the month in 1..12, the day within the month, and the time of
    day in range.  [strftime] is taken to write the year with four digits,
    which is what it does from the year 1000 on. *)
Record date := mkDate { year : nat; month : nat; day : nat }.
Record datetime :=
  mkDatetime { dt_date : date; hour : nat; minute : nat; second : nat }.

Definition digit (n : nat) : ascii := ascii_of_nat (48 + n mod 10).

Definition pad2 (n : nat) : string :=
  String (digit (n / 10)) (String (digit n) "").

Definition pad4 (n : nat) : string :=
  String (digit (n / 1000)) (String (digit (n / 100)) (pad2 n)).

(** [d.strftime("%Y-%m-%d")]. *)
Definition strftime_ymd (d : date) : string :=
  (pad4 (year d) ++ "-" ++ pad2 (month d) ++ "-" ++ pad2 (day d))%string.

(** [t.strftime("%Y-%m-%d %H:%M:%S")]. *)
Definition strftime_ymdhms (t : datetime) : string :=
  (strftime_ymd (dt_date t) ++ " " ++ pad2 (hour t) ++ ":" ++ pad2 (minute t)
     ++ ":" ++ pad2 (second t))%string.




(** ** The worksheet *)

(** The worksheet is held as the list of its rows from the top, each row the
    list of the texts of its cells from the left; the first row is the header
    row.  A cell that a short row does not reach reads as the empty text.
    Cells are kept as the texts that were written; [col_values] and
    [row_values] give them back as such. *)
Definition row := list string.
Definition grid := list row.

Definition cell (g : grid) (r c : nat) : string := nth c (nth r g []) "".

(** [worksheet.col_values(col)], [col] counted from 1: one text per row. *)
Definition col_values (col : nat) (g : grid) : list string :=
  map (fun r => nth (pred col) r "") g.

(** [worksheet.row_values(row)], [row] counted from 1. *)
Definition row_values (r : nat) (g : grid) : list string := nth (pred r) g [].

(** Writing position [n] of a list, filling with [d] up to it when the list
    is shorter. *)
Fixpoint set_nth {A : Type} (d : A) (n : nat) (x : A) (l : list A) : list A :=
  match n, l with
  | 0, [] => [x]
  | 0, _ :: t => x :: t
  | S n', [] => d :: set_nth d n' x []
  | S n', h :: t => h :: set_nth d n' x t
  end.

(** [worksheet.update_cell(row, col, value)], both counted from 1. *)
Definition update_cell (r c : nat) (v : string) (g : grid) : grid :=
  set_nth [] (pred r) (set_nth "" (pred c) v (nth (pred r) g [])) g.

(** [worksheet.append_row(values)]: a new last row. *)
Definition append_row (values : row) (g : grid) : grid := g ++ [values].

Fixpoint pad_to (n : nat) (r : row) : row :=
  match n with
  | 0 => []
  | S n' => match r with
            | [] => "" :: pad_to n' []
            | x :: t => x :: pad_to n' t
            end
  end.

(** [worksheet.get_all_records()]: the first row gives the keys, every
    further row one dictionary of its cells, each as [numericise] reads it;
    a row shorter than the header row is filled up with empty texts.  This
    is gspread on a worksheet whose header labels are distinct and whose
    rows are no wider than the header row, as the rows the script appends
    are; on other worksheets gspread widens the header row by empty labels
    and refuses a header row that holds a label twice. *)
Definition get_all_records (g : grid) : list dict :=
  match g with
  | [] => []
  | keys :: values =>
      map (fun r => dict_zip keys (map numericise (pad_to (length keys) r)))
          values
  end.

(** ** Data frames *)

(** A [pandas.DataFrame] built from a list of dictionaries: its column
    labels and its rows, each under its index label, the values as the
    dictionaries hold them.  A key a row lacks is a missing value ([None]
    of [dict_get]), a NaN. *)
Record DataFrame := mkDataFrame {
  df_columns : list string;
  df_rows : list (nat * dict)
}.

Definition add_label (acc : list string) (k : string) : list string :=
  if contains k acc then acc else acc ++ [k].

(** [pd.DataFrame(data)]: the columns are the keys in order of first
    appearance, the index is 0, 1, 2, ...  The values are kept as the
    dictionaries hold them; pandas does the same for a column that holds a
    text or whole numbers only, and turns the whole numbers of a column of
    numbers with a float among them into floats. *)
Definition pd_DataFrame (data : list dict) : DataFrame :=
  {| df_columns :=
       fold_left (fun acc d => fold_left add_label (dict_keys d) acc) data [];
     df_rows := combine (seq 0 (length data)) data |}.

(** [df.empty]: no row or no column. *)
Definition df_empty (df : DataFrame) : bool :=
  match df_columns df, df_rows df with
  | [], _ => true
  | _, [] => true
  | _, _ => false
  end.

(** The rows kept by the mask [df[col] == v]. *)
Definition mask_eq (col : string) (v : value) (rows : list (nat * dict))
  : list (nat * dict) :=
  filter (fun r => match dict_get col (snd r) with
                   | Some x => value_eqb x v
                   | None => false
                   end) rows.

(** The value of a cell of a row; a missing value is a NaN. *)
Definition cell_value (col : string) (d : dict) : value :=
  match dict_get col d with
  | Some x => x
  | None => VFloat "nan"
  end.

(** The text shown for a cell. *)
Definition cell_text (col : string) (d : dict) : string :=
  str_value (cell_value col d).

(** ** The world the script runs in *)

(** Exceptions the script can meet.  [SpreadsheetNotFound],
    [WorksheetNotFound] and [APIError] come from gspread, the others from
    Python and pandas; all of them are caught by [except Exception]. *)
Inductive exn_kind :=
| SpreadsheetNotFound
| WorksheetNotFound
| APIError
| KeyError
| IndexError
| ValueError
| TypeError
| AttributeError.

(** An exception with the text of [str(e)]. *)
Record exn := mkExn { exn_kind_of : exn_kind; exn_text : string }.

(** What the page shows. *)
Inductive output :=
| st_error_out (text : string)
| st_info_out (text : string)
| st_success_out (text : string)
| st_warning_out (text : string)
| st_write_out (text : string)
| st_balloons_out
| st_dataframe_out (sort_by : string) (df : DataFrame).

(** The calls made to the two writing operations of the adapter, with what
    each returned. *)
Inductive call :=
| CallAppend (row_data : list string) (result : bool)
| CallUpdate (referral_id : value) (column_name new_value : string)
    (result : bool).

(** - [sheet]: the worksheet "Sheet1" of "KosofeReferral";
    - [faults]: what the coming requests to the worksheet service meet, in
      order: [Some e] makes the request raise [e], [None] lets it through;
      once the list is used up every request goes through;
    - [credentials]: [None] when the service account loads, [Some e] when
      loading it raises [e];
    - [client]: the entry of [st.cache_resource] for
      [get_google_sheet_client]: whether an earlier run has made the client;
    - [cache]: the entry of [st.cache_data] for [load_data], with the time
      it was stored;
    - [clock]: the time, in seconds;
    - [ui]: the messages shown so far;
    - [calls]: the adapter calls made so far. *)
Record World := mkWorld {
  sheet : grid;
  faults : list (option exn);
  credentials : option exn;
  client : bool;
  cache : option (nat * DataFrame);
  clock : nat;
  ui : list output;
  calls : list call
}.

Definition set_sheet (g : grid) (w : World) : World :=
  mkWorld g (faults w) (credentials w) (client w) (cache w) (clock w) (ui w)
          (calls w).
Definition set_faults (f : list (option exn)) (w : World) : World :=
  mkWorld (sheet w) f (credentials w) (client w) (cache w) (clock w) (ui w)
          (calls w).
Definition set_client (c : bool) (w : World) : World :=
  mkWorld (sheet w) (faults w) (credentials w) c (cache w) (clock w) (ui w)
          (calls w).
Definition set_cache (c : option (nat * DataFrame)) (w : World) : World :=
  mkWorld (sheet w) (faults w) (credentials w) (client w) c (clock w) (ui w)
          (calls w).
Definition set_clock (t : nat) (w : World) : World :=
  mkWorld (sheet w) (faults w) (credentials w) (client w) (cache w) t (ui w)
          (calls w).
Definition show (o : output) (w : World) : World :=
  mkWorld (sheet w) (faults w) (credentials w) (client w) (cache w) (clock w)
          (ui w ++ [o]) (calls w).
Definition record_call (c : call) (w : World) : World :=
  mkWorld (sheet w) (faults w) (credentials w) (client w) (cache w) (clock w)
          (ui w) (calls w ++ [c]).

(** How a piece of the script ends: with a value, with an exception, with
    [st.stop()] or with [st.rerun()].  The last two are not [Exception]s and
    pass through [except Exception]. *)
Inductive outcome (A : Type) :=
| Ret (a : A)
| Raise (e : exn)
| Stop
| Rerun.
Arguments Ret {A} & a.
Arguments Raise {A} e.
Arguments Stop {A}.
Arguments Rerun {A}.

Definition M (A : Type) := World -> outcome A * World.

Definition ret {A} (a : A) : M A := fun w => (Ret a, w).

Definition bind {A B} (m : M A) (k : A -> M B) : M B :=
  fun w => match m w with
           | (Ret a, w') => k a w'
           | (Raise e, w') => (Raise e, w')
           | (Stop, w') => (Stop, w')
           | (Rerun, w') => (Rerun, w')
           end.

Notation "x <- m ;; k" := (bind m (fun x => k))
  (at level 61, m at next level, right associativity).
Notation "m ;; k" := (bind m (fun _ => k))
  (at level 61, right associativity).

Definition raise {A} (e : exn) : M A := fun w => (Raise e, w).
Definition st_stop {A} : M A := fun w => (Stop, w).
Definition st_rerun {A} : M A := fun w => (Rerun, w).

(** [try: body except Exception as e: handler]. *)
Definition try_except {A} (body : M A) (handler : exn -> M A) : M A :=
  fun w => match body w with
           | (Raise e, w') => handler e w'
           | r => r
           end.

Definition say (o : output) : M unit := fun w => (Ret tt, show o w).
Definition st_error (s : string) : M unit := say (st_error_out s).
Definition st_info (s : string) : M unit := say (st_info_out s).
Definition st_success (s : string) : M unit := say (st_success_out s).
Definition st_warning (s : string) : M unit := say (st_warning_out s).
Definition st_write (s : string) : M unit := say (st_write_out s).
Definition st_balloons : M unit := say st_balloons_out.

(** [st.cache_data.clear()]. *)
Definition st_cache_data_clear : M unit :=
  fun w => (Ret tt, set_cache None w).

(** One request to the worksheet service: it meets the next fault, or goes
    through and does [f] to the worksheet. *)
Definition request {A} (f : grid -> A * grid) : M A :=
  fun w => match faults w with
           | Some e :: rest => (Raise e, set_faults rest w)
           | _ => (Ret (fst (f (sheet w))),
                   set_sheet (snd (f (sheet w))) (set_faults (tl (faults w)) w))
           end.

Definition reading {A} (f : grid -> A) : grid -> A * grid :=
  fun g => (f g, g).
Definition writing (f : grid -> grid) : grid -> unit * grid :=
  fun g => (tt, f g).

Definition GOOGLE_SHEET_NAME : string := "KosofeReferral".
Definition WORKSHEET_NAME : string := "Sheet1".

(** [gc.open(name)] and [spreadsheet.worksheet(name)]: each one request that
    hands back the handle of the one worksheet of the model. *)
Definition gc_open (name : string) : M unit := request (reading (fun _ => tt)).
Definition spreadsheet_worksheet (name : string) : M unit :=
  request (reading (fun _ => tt)).

(** ** The store adapter *)

Definition msg_connect (e : exn) : string :=
  ("Error connecting to Google Sheets: " ++ exn_text e)%string.
Definition msg_connect_hint : string :=
  "Please ensure 'credentials.json' (or st.secrets) is set up correctly and has the right permissions (Editor access to your Google Sheet).".

(** [@st.cache_resource]: the client an earlier run has made is handed
    back without running the body; otherwise the body runs and, when it
    returns, what it made is kept for the runs to come. *)
Definition st_cache_resource (body : M unit) : M unit :=
  fun w => if client w then (Ret tt, w)
           else match body w with
                | (Ret a, w') => (Ret a, set_client true w')
                | r => r
                end.

(** [get_google_sheet_client]: loading the service account needs no request
    to the worksheet service. *)
Definition get_google_sheet_client : M unit :=
  st_cache_resource
    (try_except
       (fun w => match credentials w with
                 | None => (Ret tt, w)
                 | Some e => (Raise e, w)
                 end)
       (fun e => st_error (msg_connect e) ;; st_info msg_connect_hint ;;
                 st_stop)).

Definition msg_sheet_not_found : string :=
  ("Google Sheet '" ++ GOOGLE_SHEET_NAME
     ++ "' not found. Please check the name and sharing permissions.")%string.
Definition msg_worksheet_not_found : string :=
  ("Worksheet '" ++ WORKSHEET_NAME ++ "' not found in '" ++ GOOGLE_SHEET_NAME
     ++ "'. Please check the name.")%string.
Definition msg_load (e : exn) : string :=
  ("Error loading data from Google Sheet: " ++ exn_text e)%string.

(** The body of [load_data]. *)
Definition load_data_body : M DataFrame :=
  try_except
    (gc_open GOOGLE_SHEET_NAME ;;
     spreadsheet_worksheet WORKSHEET_NAME ;;
     data <- request (reading get_all_records) ;;
     ret (pd_DataFrame data))
    (fun e => match exn_kind_of e with
              | SpreadsheetNotFound => st_error msg_sheet_not_found ;; st_stop
              | WorksheetNotFound => st_error msg_worksheet_not_found ;; st_stop
              | _ => st_error (msg_load e) ;; st_stop
              end).

Definition TTL : nat := 60.

(** [@st.cache_data(ttl=60)]: an entry younger than [TTL] is returned as it
    is; otherwise the body runs and, when it returns, its value is stored. *)
Definition st_cache_data (body : M DataFrame) : M DataFrame :=
  fun w => match cache w with
           | Some (t, df) =>
               if clock w <? t + TTL then (Ret df, w)
               else match body w with
                    | (Ret df', w') => (Ret df', set_cache (Some (clock w', df')) w')
                    | r => r
                    end
           | None => match body w with
                     | (Ret df', w') => (Ret df', set_cache (Some (clock w', df')) w')
                     | r => r
                     end
           end.

Definition load_data : M DataFrame := st_cache_data load_data_body.

(** The adapter call is entered in [calls] with its result when it
    returns. *)
Definition recorded (c : bool -> call) (m : M bool) : M bool :=
  fun w => match m w with
           | (Ret b, w') => (Ret b, record_call (c b) w')
           | r => r
           end.

Definition msg_append (e : exn) : string :=
  ("Error appending data: " ++ exn_text e)%string.

Definition append_data (row_data : list string) : M bool :=
  recorded (CallAppend row_data)
    (try_except
       (gc_open GOOGLE_SHEET_NAME ;;
        spreadsheet_worksheet WORKSHEET_NAME ;;
        request (writing (append_row row_data)) ;;
        st_cache_data_clear ;;
        ret true)
       (fun e => st_error (msg_append e) ;; ret false)).

Definition msg_record_not_found (referral_id : value) : string :=
  ("Referral ID '" ++ str_value referral_id
     ++ "' not found in the sheet. This might indicate a data sync issue or an invalid ID.")%string.
Definition msg_field_not_found (column_name : string) : string :=
  ("Column '" ++ column_name
     ++ "' not found in sheet headers. Please check your Google Sheet headers.")%string.
Definition msg_update (e : exn) : string :=
  ("Error updating data: " ++ exn_text e)%string.

(** [l.index(x) + 1]. *)
Definition index_plus_1 (x : value) (l : list string) : M nat :=
  match index x l with
  | Some i => ret (i + 1)
  | None => raise (mkExn ValueError (repr_value x ++ " is not in list"))
  end.

Definition update_cell_by_referral_id
  (referral_id : value) (column_name new_value : string) : M bool :=
  recorded (CallUpdate referral_id column_name new_value)
    (try_except
       (gc_open GOOGLE_SHEET_NAME ;;
        spreadsheet_worksheet WORKSHEET_NAME ;;
        referral_ids <- request (reading (col_values 1)) ;;
        if negb (contains referral_id referral_ids) then
          st_error (msg_record_not_found referral_id) ;; ret false
        else
          row_index <- index_plus_1 referral_id referral_ids ;;
          headers <- request (reading (row_values 1)) ;;
          if negb (contains column_name headers) then
            st_error (msg_field_not_found column_name) ;; ret false
          else
            col_index <- index_plus_1 column_name headers ;;
            request (writing (update_cell row_index col_index new_value)) ;;
            st_cache_data_clear ;;
            ret true)
       (fun e => st_error (msg_update e) ;; ret false)).

(** ** One run of the script *)

(** The two answers of the role radio button. *)
Inductive Role := PrimaryHealthCare | GbagadaGeneralHospital.

(** The options of the gender select box. *)
Inductive Gender := GenderSelect | GenderMale | GenderFemale | GenderOther.

Definition gender_text (g : Gender) : string :=
  match g with
  | GenderSelect => "Select"
  | GenderMale => "Male"
  | GenderFemale => "Female"
  | GenderOther => "Other"
  end.

(** What the widgets hold in one run.  [referral_choice] is the position
    chosen in the select box of the pending referrals (0 is its first
    entry, the placeholder). *)
Record Inputs := mkInputs {
  user_role : Role;
  patient_name : string;
  patient_dob : option date;
  patient_gender : Gender;
  patient_contact : string;
  referring_phc : string;
  referring_doctor : string;
  diagnosis : string;
  submitted : bool;
  referral_choice : nat;
  time_of_presentation : string;
  acknowledged_by : string;
  gbagada_notes : string;
  ack_submitted : bool
}.

(** What the run draws from outside: [datetime.now()] and the 128-bit
    integer of [uuid.uuid4()]. *)
Record Env := mkEnv { now : datetime; uuid_int : N }.

Definition hex_digit (k : N) : ascii :=
  match k with
  | 0 => "0" | 1 => "1" | 2 => "2" | 3 => "3" | 4 => "4" | 5 => "5"
  | 6 => "6" | 7 => "7" | 8 => "8" | 9 => "9" | 10 => "a" | 11 => "b"
  | 12 => "c" | 13 => "d" | 14 => "e" | _ => "f"
  end%N%char.

(** The [len] hexadecimal digits of [n] from position [hi] down. *)
Fixpoint hex_run (n : N) (hi len : nat) : list ascii :=
  match len with
  | 0 => []
  | S len' =>
      hex_digit ((n / 16 ^ N.of_nat hi) mod 16)%N :: hex_run n (pred hi) len'
  end.

(** [str(u)] for a UUID of integer [n]: its 32 hexadecimal digits in groups
    of 8, 4, 4, 4 and 12. *)
Definition str_uuid (n : N) : string :=
  string_of_list_ascii
    (hex_run n 31 8 ++ "-"%char :: hex_run n 23 4 ++ "-"%char ::
     hex_run n 19 4 ++ "-"%char :: hex_run n 15 4 ++ "-"%char ::
     hex_run n 11 12).

(** [str(uuid.uuid4())]. *)
Definition uuid4 (env : Env) : string := str_uuid (uuid_int env).

Definition COL_ID : string := "Referral ID".
Definition COL_NAME : string := "Patient Name".
Definition COL_PHC : string := "Referring PHC".
Definition COL_REFERRAL_TIME : string := "Date/Time of Referral".
Definition COL_DIAGNOSIS : string := "Diagnosis/Reason for Referral".
Definition COL_ACK : string := "Gbagada Acknowledged".
Definition COL_PRESENTATION : string := "Date/Time of Presentation".
Definition COL_ACK_BY : string := "Acknowledged By".
Definition COL_NOTES : string := "Gbagada Notes".

(** Modelled from the spec: the header row of the worksheet, which the
    script assumes and never writes out (section 6 of the specification
    lists it; the comments of [row_data] name the last four columns). *)
Definition HEADERS : row :=
  [COL_ID; COL_NAME; "Date of Birth"; "Gender"; "Patient Contact"; COL_PHC;
   COL_REFERRAL_TIME; COL_DIAGNOSIS; "Referring Doctor"; COL_ACK;
   COL_PRESENTATION; COL_ACK_BY; COL_NOTES].

(** *** The referral form *)

Definition msg_referral_time (referral_datetime : string) : string :=
  ("📅 **Referral Time (Auto-generated):** " ++ referral_datetime)%string.
Definition msg_required : string :=
  "❗ Please fill in all **required fields** (Patient Name, Date of Birth, Gender, Referring PHC, Diagnosis, Referring Doctor).".
Definition msg_submitted (name phc : string) : string :=
  ("✅ Referral for **" ++ name ++ "** from **" ++ phc
     ++ "** submitted successfully!")%string.
Definition msg_your_id (referral_id : string) : string :=
  ("Your Referral ID is: **" ++ referral_id
     ++ "**. Please note this for future reference.")%string.
Definition msg_submit_failed : string :=
  "❌ Failed to submit referral. Please try again or contact support if the issue persists.".

Definition is_some {A} (o : option A) : bool :=
  match o with Some _ => true | None => false end.

(** The list given to [all] by the validation of the form. *)
Definition required_inputs (inp : Inputs) : list bool :=
  [truthy (patient_name inp);
   is_some (patient_dob inp);
   negb (gender_text (patient_gender inp) =? "Select")%string;
   truthy (referring_phc inp);
   truthy (diagnosis inp);
   truthy (referring_doctor inp)].

Definition row_data_of (env : Env) (inp : Inputs) (dob_text : string)
  : list string :=
  [uuid4 env;
   patient_name inp;
   dob_text;
   gender_text (patient_gender inp);
   patient_contact inp;
   referring_phc inp;
   strftime_ymdhms (now env);
   diagnosis inp;
   referring_doctor inp;
   "No";
   "";
   "";
   ""].

Definition phc_referral_form (env : Env) (inp : Inputs) : M unit :=
  let referral_datetime := strftime_ymdhms (now env) in
  st_info (msg_referral_time referral_datetime) ;;
  if submitted inp then
    if negb (all (required_inputs inp)) then
      st_error msg_required
    else
      let referral_id := uuid4 env in
      dob_text <- match patient_dob inp with
                  | Some d => ret (strftime_ymd d)
                  | None =>
                      raise (mkExn AttributeError
                               "'NoneType' object has no attribute 'strftime'")
                  end ;;
      let row_data := row_data_of env inp dob_text in
      ok <- append_data row_data ;;
      if ok then
        st_success (msg_submitted (patient_name inp) (referring_phc inp)) ;;
        st_info (msg_your_id referral_id) ;;
        st_balloons
      else
        st_error msg_submit_failed
  else ret tt.

(** *** The dashboard *)

Definition require_column (col : string) (df : DataFrame) : M unit :=
  if contains col (df_columns df) then ret tt
  else raise (mkExn KeyError ("'" ++ col ++ "'")).

(** [df[df[col] == v]]. *)
Definition df_where_eq (col : string) (v : value) (df : DataFrame)
  : M DataFrame :=
  require_column col df ;;
  ret {| df_columns := df_columns df; df_rows := mask_eq col v (df_rows df) |}.

(** [df[col].tolist()]. *)
Definition df_tolist (col : string) (df : DataFrame) : M (list value) :=
  require_column col df ;;
  ret (map (fun r => cell_value col (snd r)) (df_rows df)).

(** [df.iloc[0]]. *)
Definition iloc0 (df : DataFrame) : M dict :=
  match df_rows df with
  | [] => raise (mkExn IndexError "single positional indexer is out-of-bounds")
  | r :: _ => ret (snd r)
  end.

(** [series[col]] for a row of [df], as an f-string shows it. *)
Definition series_get (col : string) (df : DataFrame) (d : dict) : M string :=
  require_column col df ;; ret (cell_text col d).

(** [sort_values] sets the NaNs aside and compares the other values of the
    column with [<]: texts with texts, numbers with numbers.  A column that
    holds both a text and a number cannot be sorted, which is a [TypeError]
    (its text names the two types in the order pandas met them, left out
    here). *)
Definition is_text (v : value) : bool :=
  match v with VStr _ => true | VInt _ | VFloat _ => false end.
Definition is_nan_value (v : value) : bool :=
  match v with VFloat text => is_nan text | VStr _ | VInt _ => false end.
Definition sortable (col : string) (df : DataFrame) : bool :=
  let values :=
    filter (fun v => negb (is_nan_value v))
           (map (fun r => cell_value col (snd r)) (df_rows df)) in
  forallb is_text values || forallb (fun v => negb (is_text v)) values.

(** [st.dataframe(df.sort_values(by=..., ascending=False)
    .set_index("Referral ID"))]: the table is handed to the page together
    with the column it is sorted on. *)
Definition st_dataframe_sorted (sort_by : string) (df : DataFrame) : M unit :=
  require_column sort_by df ;;
  (if sortable sort_by df then ret tt
   else raise (mkExn TypeError "'<' not supported between instances")) ;;
  require_column COL_ID df ;;
  say (st_dataframe_out sort_by df).

Definition PLACEHOLDER : string := "Select a Referral".

Definition msg_fill_ack : string :=
  "Please fill in **Time of Presentation** and **Acknowledged By** fields.".
Definition msg_acknowledged (name : string) : string :=
  ("✅ Referral for **" ++ name ++ "** acknowledged successfully!")%string.
Definition msg_ack_failed : string :=
  "❌ Failed to acknowledge referral. Please check logs.".

(** The acknowledgement form for the selected referral. *)
Definition acknowledge_form (referral_to_ack : value) (name : string)
  (inp : Inputs) : M unit :=
  if ack_submitted inp then
    if negb (all [truthy (time_of_presentation inp); truthy (acknowledged_by inp)])
    then st_warning msg_fill_ack
    else
      success1 <- update_cell_by_referral_id referral_to_ack COL_ACK "Yes" ;;
      success2 <- update_cell_by_referral_id referral_to_ack COL_PRESENTATION
                    (time_of_presentation inp) ;;
      success3 <- update_cell_by_referral_id referral_to_ack COL_ACK_BY
                    (acknowledged_by inp) ;;
      success4 <- update_cell_by_referral_id referral_to_ack COL_NOTES
                    (gbagada_notes inp) ;;
      if success1 && success2 && success3 && success4 then
        st_success (msg_acknowledged name) ;; st_rerun
      else
        st_error msg_ack_failed
  else ret tt.

(** The pending and the acknowledged part of the table. *)
Definition unacknowledged_of (data_df : DataFrame) : M DataFrame :=
  df_where_eq COL_ACK "No" data_df.
Definition acknowledged_of (data_df : DataFrame) : M DataFrame :=
  df_where_eq COL_ACK "Yes" data_df.

(** The entries of the select box. *)
Definition options_of (unacknowledged_df : DataFrame) : M (list value) :=
  ids <- df_tolist COL_ID unacknowledged_df ;;
  ret (VStr PLACEHOLDER :: ids).

Definition pending_section (unacknowledged_df : DataFrame) (inp : Inputs)
  : M unit :=
  if df_empty unacknowledged_df then
    st_success "🎉 All referrals have been acknowledged! No pending actions."
  else
    st_dataframe_sorted COL_REFERRAL_TIME unacknowledged_df ;;
    options <- options_of unacknowledged_df ;;
    let referral_to_ack := nth (referral_choice inp) options PLACEHOLDER in
    if negb (eq_text referral_to_ack PLACEHOLDER) then
      matching <- df_where_eq COL_ID referral_to_ack unacknowledged_df ;;
      selected_referral_details <- iloc0 matching ;;
      st_write "---" ;;
      name <- series_get COL_NAME matching selected_referral_details ;;
      st_write ("**Patient Name:** " ++ name)%string ;;
      phc <- series_get COL_PHC matching selected_referral_details ;;
      st_write ("**Referring PHC:** " ++ phc)%string ;;
      diag <- series_get COL_DIAGNOSIS matching selected_referral_details ;;
      st_write ("**Diagnosis:** " ++ diag)%string ;;
      st_write "---" ;;
      acknowledge_form referral_to_ack name inp
    else
      st_info "Select a pending referral from the dropdown above to acknowledge its arrival.".

Definition acknowledged_section (acknowledged_df : DataFrame) : M unit :=
  if df_empty acknowledged_df then
    st_info "No referrals have been acknowledged yet."
  else
    st_dataframe_sorted COL_PRESENTATION acknowledged_df.

(** What the dashboard does with the table it loaded. *)
Definition dashboard_body (data_df : DataFrame) (inp : Inputs) : M unit :=
  if df_empty data_df then
    st_info "ℹ️ No referrals found yet."
  else
    unacknowledged_df <- unacknowledged_of data_df ;;
    acknowledged_df <- acknowledged_of data_df ;;
    pending_section unacknowledged_df inp ;;
    acknowledged_section acknowledged_df.

Definition gbagada_dashboard (inp : Inputs) : M unit :=
  data_df <- load_data ;;
  dashboard_body data_df inp.

(** The whole script, top to bottom. *)
Definition app (env : Env) (inp : Inputs) : M unit :=
  get_google_sheet_client ;;
  match user_role inp with
  | PrimaryHealthCare => phc_referral_form env inp
  | GbagadaGeneralHospital => gbagada_dashboard inp
  end.

(** ** Vocabulary of the properties *)

(** The next [n] requests to the worksheet service go through. *)
Definition goes_through (n : nat) (w : World) : bool :=
  forallb (fun f => negb (is_some f)) (firstn n (faults w)).

(** Time passes and the worksheet service changes its mood: the world a
    later run of the script starts in. *)
Definition later (t : nat) (f : list (option exn)) (w : World) : World :=
  set_clock (clock w + t) (set_faults f w).

(** The table a fresh read of the worksheet gives. *)
Definition table_of (g : grid) : DataFrame := pd_DataFrame (get_all_records g).

(** A text that [get_all_records] hands back as a number. *)
Definition number_like (s : string) : bool :=
  match numericise s with
  | VStr _ => false
  | VInt _ | VFloat _ => true
  end.

Definition is_number (v : value) : bool :=
  match v with
  | VStr _ => false
  | VInt _ | VFloat _ => true
  end.







(** The signs of a text, and the kinds of character a hexadecimal digit can
    be. *)
Definition is_sign (k : charkind) : bool :=
  match k with KPlus | KMinus => true | _ => false end.

Definition count_signs (l : list charkind) : nat := length (filter is_sign l).

Definition hex_kind (k : charkind) : bool :=
  match k with
  | KDigit _ | KExp | KLetter LA | KLetter LF | KOther => true
  | _ => false
  end.

(** How many more signs [int()] and [float()] can take from a state on. *)
Definition int_budget (s : int_state) : nat :=
  match s with I0 => 1 | _ => 0 end.

Definition float_budget (s : float_state) : nat :=
  match s with
  | F0 => 2
  | FSigned | FInt | FDot | FFrac | FE => 1
  | _ => 0
  end.

(** [label] occurs in [text]. *)
Fixpoint mentions (label text : string) : bool :=
  match text with
  | EmptyString => prefix label text
  | String _ rest => prefix label text || mentions label rest
  end.

(** The names under which the form's error message speaks of the required
    inputs, in the order of [required_inputs]. *)
Definition REQUIRED_LABELS : list string :=
  ["Patient Name"; "Date of Birth"; "Gender"; "Referring PHC"; "Diagnosis";
   "Referring Doctor"].

(** The required inputs that a submission lacks, by label. *)
Definition missing_inputs (inp : Inputs) : list string :=
  map fst (filter (fun p => negb (snd p))
                  (combine REQUIRED_LABELS (required_inputs inp))).

(** A message lists which inputs are missing when it names those and no
    other required input. *)
Definition lists_missing (inp : Inputs) (message : string) : Prop :=
  forall label, In label REQUIRED_LABELS ->
    (mentions label message = true <-> In label (missing_inputs inp)).

(** The acknowledged field of the [i]-th record of the table, as a read of
    the worksheet gives it. *)
Definition ack_of (g : grid) (i : nat) : option value :=
  match nth_error (get_all_records g) i with
  | Some d => dict_get COL_ACK d
  | None => None
  end.

(** The identifier and the acknowledged cell of a data row. *)
Definition id_cell (r : row) : string := nth 0 r "".
Definition ack_cell (r : row) : string := nth 9 r "".

(** The cache, when it holds something, holds the table as it stands. *)
Definition cache_coherent (w : World) : Prop :=
  match cache w with
  | Some (_, df) => df = table_of (sheet w)
  | None => True
  end.

(** A worksheet kept according to the contract of the table: the header row
    is in place, every record's acknowledged cell is "No" or "Yes", and no
    record carries the label of the identifier column as its identifier. *)
Definition well_kept (w : World) : Prop :=
  hd [] (sheet w) = HEADERS
  /\ Forall (fun r => id_cell r <> COL_ID
                      /\ (ack_cell r = "No" \/ ack_cell r = "Yes"))
            (tl (sheet w))
  /\ cache_coherent w.

(** One step of the system: a run of the script on some inputs (the text of
    a [uuid4] has 36 characters), or the passing of time with a change in
    the reachability of the worksheet service. *)
Inductive step : World -> World -> Prop :=
| step_run env inp w :
    String.length (uuid4 env) = 36 ->
    step w (snd (app env inp w))
| step_wait t f w :
    step w (later t f w).

Inductive steps : World -> World -> Prop :=
| steps_refl w : steps w w
| steps_next w1 w2 w3 : steps w1 w2 -> step w2 w3 -> steps w1 w3.

(** The acknowledged field moves from [a] to [b] only by staying or by
    going from "No" to "Yes". *)
Definition ack_moves (a b : value) : Prop :=
  b = a \/ (a = "No" /\ b = "Yes").

Definition call_result (c : call) : bool :=
  match c with
  | CallAppend _ b => b
  | CallUpdate _ _ _ b => b
  end.

(** In a sequence of adapter calls, nothing follows a call that failed. *)
Fixpoint stops_at_first_failure (cs : list call) : bool :=
  match cs with
  | [] => true
  | c :: rest =>
      if call_result c then stops_at_first_failure rest
      else match rest with [] => true | _ :: _ => false end
  end.

(** Whenever the script next loads the table, however long after and
    whatever the worksheet service does then, a table it gets is the one of
    the worksheet as it stands in [w]; and it gets one when the service
    answers. *)
Definition reads_afresh (w : World) : Prop :=
  forall t f,
    (forall df w', load_data (later t f w) = (Ret df, w') ->
                   df = table_of (sheet w))
    /\ (goes_through 3 (later t f w) = true ->
        exists w', load_data (later t f w) = (Ret (table_of (sheet w)), w')).

(** The record a read of the worksheet makes of a data row. *)
Definition record_of (r : row) : dict :=
  dict_zip HEADERS (map numericise (pad_to (length HEADERS) r)).

(** Between [w] and [w'] nothing but "Yes" was sent to the acknowledged
    column. *)
Definition only_yes_written (w w' : World) : Prop :=
  forall rid v b,
    In (CallUpdate rid COL_ACK v b) (calls w') ->
    In (CallUpdate rid COL_ACK v b) (calls w) \/ v = "Yes".

(** Every record of [g] is still in [g'], its acknowledged field unchanged
    or gone from "No" to "Yes". *)
Definition acks_move (g g' : grid) : Prop :=
  forall i a, ack_of g i = Some a ->
    exists b, ack_of g' i = Some b /\ ack_moves a b.

(** What every piece of the script keeps to; [P] stands for what is known
    of the table the dashboard has loaded. *)
Definition keeps_if (P : Prop) (w w' : World) : Prop :=
  only_yes_written w w'
  /\ (P -> well_kept w -> well_kept w' /\ acks_move (sheet w) (sheet w')).

Definition respects {A} (R : World -> World -> Prop) (m : M A) : Prop :=
  forall w out w', m w = (out, w') -> R w w'.

(** Only the page changed. *)
Definition ui_only (w w' : World) : Prop :=
  sheet w' = sheet w /\ cache w' = cache w /\ calls w' = calls w.

(** ** Further vocabulary *)

(** The first fault the next [n] requests meet, if any. *)
Fixpoint first_fault (n : nat) (fs : list (option exn)) : option exn :=
  match n, fs with
  | S _, Some e :: _ => Some e
  | S n', None :: rest => first_fault n' rest
  | _, _ => None
  end.

(** [load_data] has nothing to serve: no entry, or one that has reached
    [TTL]. *)
Definition cache_misses (w : World) : bool :=
  match cache w with
  | Some (t, _) => negb (clock w <? t + TTL)
  | None => true
  end.

(** The message [load_data] shows for an exception. *)
Definition load_error_message (e : exn) : string :=
  match exn_kind_of e with
  | SpreadsheetNotFound => msg_sheet_not_found
  | WorksheetNotFound => msg_worksheet_not_found
  | _ => msg_load e
  end.

(** The worksheet and the log of adapter calls are as they were. *)
Definition quiet (w w' : World) : Prop :=
  sheet w' = sheet w /\ calls w' = calls w.

(** The log of adapter calls grew by calls that all satisfy [Q]. *)
Definition calls_grow_by (Q : call -> Prop) (w w' : World) : Prop :=
  exists new, calls w' = calls w ++ new /\ Forall Q new.

Definition is_append (c : call) : Prop :=
  match c with CallAppend _ _ => True | CallUpdate _ _ _ _ => False end.
Definition is_update (c : call) : Prop :=
  match c with CallAppend _ _ => False | CallUpdate _ _ _ _ => True end.

(** The identifiers of the records of a table whose acknowledged field is
    "No", in the order of the table. *)
Definition pending_ids (df : DataFrame) : list value :=
  map (fun r => cell_value COL_ID (snd r)) (mask_eq COL_ACK "No" (df_rows df)).

(** The columns the acknowledgement form writes. *)
Definition ACK_COLUMNS : list string :=
  [COL_ACK; COL_PRESENTATION; COL_ACK_BY; COL_NOTES].

(** An update call for one of the identifiers [ids] and one of the columns
    of the acknowledgement form. *)
Definition acknowledges (ids : list value) (c : call) : Prop :=
  match c with
  | CallAppend _ _ => False
  | CallUpdate rid col _ _ => In rid ids /\ In col ACK_COLUMNS
  end.

(** A data row after the four cells of an acknowledgement were written. *)
Definition acknowledged_row (inp : Inputs) (r : row) : row :=
  set_nth "" 12 (gbagada_notes inp)
    (set_nth "" 11 (acknowledged_by inp)
       (set_nth "" 10 (time_of_presentation inp)
          (set_nth "" 9 "Yes" r))).

(** The six required inputs of the referral form are there. *)
Definition complete (inp : Inputs) : Prop :=
  patient_name inp <> "" /\ patient_dob inp <> None
  /\ patient_gender inp <> GenderSelect /\ referring_phc inp <> ""
  /\ diagnosis inp <> "" /\ referring_doctor inp <> "".

(** The referral the select box stands on, given the identifiers it
    offers after the placeholder. *)
Definition selected (inp : Inputs) (ids : list value) : value :=
  nth (referral_choice inp) (VStr PLACEHOLDER :: ids) PLACEHOLDER.

(** The four calls of an acknowledgement, with what each returned. *)
Definition acknowledgement_calls (rid : value) (inp : Inputs)
  (b1 b2 b3 b4 : bool) : list call :=
  [CallUpdate rid COL_ACK "Yes" b1;
   CallUpdate rid COL_PRESENTATION (time_of_presentation inp) b2;
   CallUpdate rid COL_ACK_BY (acknowledged_by inp) b3;
   CallUpdate rid COL_NOTES (gbagada_notes inp) b4].

(** What a run of the dashboard on the table [df] can have done between [w]
    and [w']: nothing to the worksheet and the call log, or the four calls
    of one acknowledgement, submitted with a time and a name for the pending
    referral the select box stands on. *)
Definition acknowledgement_made (df : DataFrame) (inp : Inputs)
  (w w' : World) : Prop :=
  quiet w w'
  \/ (ack_submitted inp = true
      /\ time_of_presentation inp <> "" /\ acknowledged_by inp <> ""
      /\ selected inp (pending_ids df) <> PLACEHOLDER
      /\ In (selected inp (pending_ids df)) (pending_ids df)
      /\ exists b1 b2 b3 b4,
           calls w' = calls w ++
             acknowledgement_calls (selected inp (pending_ids df)) inp
               b1 b2 b3 b4).

(** The record has [rid] in its referral id field. *)
Definition has_id (rid : value) (r : nat * dict) : bool :=
  match dict_get COL_ID (snd r) with
  | Some x => value_eqb x rid
  | None => false
  end.

(** The columns the pending section reads. *)
Definition PENDING_COLUMNS : list string :=
  [COL_REFERRAL_TIME; COL_ID; COL_NAME; COL_PHC; COL_DIAGNOSIS].

(** Position [j] of a row after an update that returned [b]. *)
Definition written (b : bool) (j : nat) (v : string) (r : row) : row :=
  if b then set_nth "" j v r else r.

(** A data row after an acknowledgement whose first update went through
    and whose other three returned [b2], [b3] and [b4]. *)
Definition partly_acknowledged_row (inp : Inputs) (b2 b3 b4 : bool) (r : row)
  : row :=
  written b4 12 (gbagada_notes inp)
    (written b3 11 (acknowledged_by inp)
       (written b2 10 (time_of_presentation inp)
          (set_nth "" 9 "Yes" r))).

(** The worksheet has its header row and its data row [k] is [r]. *)
Definition holds_row (k : nat) (r : row) (w : World) : Prop :=
  hd [] (sheet w) = HEADERS /\ nth_error (tl (sheet w)) k = Some r.

(** A change of the world that leaves such a row where and as it is. *)
Definition leaves_row (k : nat) (r : row) (w w' : World) : Prop :=
  holds_row k r w -> holds_row k r w'.

(** ** Sample tables and runs *)

Definition jane_row : row :=
  ["abc-123"; "Jane Doe"; "1990-01-01"; "Female"; "0800 000 0001"; "Ojota PHC";
   "2024-01-01 09:00:00"; "Fever"; "Dr Ade"; "No"; ""; ""; ""].

Definition john_row : row :=
  ["def-456"; "John Obi"; "1985-06-15"; "Male"; "0800 000 0002"; "Ketu PHC";
   "2023-12-30 16:20:00"; "Fracture"; "Dr Bello"; "Yes"; "2023-12-31 08:05:00";
   "Nurse B"; "Admitted"].

(** A second row under Jane's identifier. *)
Definition jane_again_row : row :=
  ["abc-123"; "Jane Doe"; "1990-01-01"; "Female"; "0800 000 0001"; "Ojota PHC";
   "2024-01-02 11:30:00"; "Fever, second visit"; "Dr Ade"; "No"; ""; ""; ""].

Definition world_of (g : grid) : World :=
  mkWorld g [] None false None 0 [] [].

Definition demo_world : World := world_of [HEADERS; jane_row; john_row].

Definition demo_env : Env :=
  mkEnv (mkDatetime (mkDate 2024 1 5) 9 3 7)
        0x3f2b8c1e5d4a4e6f9a7b0c1d2e3f4a5b%N.

(** Jane Doe's referral, filled in and submitted. *)
Definition jane_submission : Inputs :=
  mkInputs PrimaryHealthCare "Jane Doe" (Some (mkDate 1990 1 1)) GenderFemale
           "0800 000 0001" "Ojota PHC" "Dr Ade" "Fever" true 0 "" "" "" false.

(** The same form with the diagnosis left empty, and with the name left
    empty. *)
Definition no_diagnosis_submission : Inputs :=
  mkInputs PrimaryHealthCare "Jane Doe" (Some (mkDate 1990 1 1)) GenderFemale
           "0800 000 0001" "Ojota PHC" "Dr Ade" "" true 0 "" "" "" false.
Definition no_name_submission : Inputs :=
  mkInputs PrimaryHealthCare "" (Some (mkDate 1990 1 1)) GenderFemale
           "0800 000 0001" "Ojota PHC" "Dr Ade" "Fever" true 0 "" "" "" false.

(** Nurse A acknowledges the first pending referral of the select box. *)
Definition nurse_acknowledges : Inputs :=
  mkInputs GbagadaGeneralHospital "" None GenderSelect "" "" "" "" false
           1 "2024-01-01 10:00:00" "Nurse A" "Stable on arrival" true.

(** The worksheet service answers the three requests of [load_data] and
    fails the one after. *)
Definition quota_error : exn := mkExn APIError "Quota exceeded".
Definition flaky_world : World :=
  mkWorld [HEADERS; jane_row; john_row] [None; None; None; Some quota_error]
          None false None 0 [] [].

(** The dashboard was loaded thirty seconds ago, when only John's referral
    was in the table; Jane's has been typed into the sheet since. *)
Definition cached_world : World :=
  mkWorld [HEADERS; john_row; jane_row] [] None false
          (Some (100, table_of [HEADERS; john_row])) 130 [] [].

(** Nurse C, whose page still shows the referral as pending, submits the
    acknowledgement form for the first entry of the select box with another
    time and no notes. *)
Definition nurse_corrects : Inputs :=
  mkInputs GbagadaGeneralHospital "" None GenderSelect "" "" "" "" false
           1 "2024-01-01 10:45:00" "Nurse C" "" true.

(** A nurse looks at the second entry of the select box without submitting
    the form. *)
Definition nurse_browses : Inputs :=
  mkInputs GbagadaGeneralHospital "" None GenderSelect "" "" "" "" false
           2 "2024-01-01 10:00:00" "" "" false.

(** The pending part of a table with two records under Jane's identifier. *)
Definition two_janes_pending : DataFrame :=
  {| df_columns := HEADERS;
     df_rows := mask_eq COL_ACK "No"
                  (df_rows (table_of [HEADERS; jane_row; john_row;
                                      jane_again_row])) |}.

(** The worksheet service answers the five requests of the first update and
    the first four of the second, and fails the write of the second. *)
Definition interrupted_world : World :=
  mkWorld [HEADERS; jane_row; john_row]
          [None; None; None; None; None; None; None; None; None;
           Some quota_error]
          None false None 0 [] [].


(** A referral typed into the sheet by hand under a running number. *)
Definition numbered_row : row :=
  ["20240017"; "Mary Eze"; "2001-03-09"; "Female"; "0800 000 0003";
   "Ogudu PHC"; "2024-01-03 10:00:00"; "Malaria"; "Dr Cole"; "No"; ""; "";
   ""].

(** * Properties *)

(** ** Lists *)

Lemma contains_In (x : string) l : contains x l = true <-> In x l.
Proof.
  unfold contains. rewrite existsb_exists. cbn [eq_text]. split.
  - intros (y & Hy & E). apply String.eqb_eq in E. now subst.
  - intros H. exists x. split; [assumption | apply String.eqb_refl].
Qed.

Lemma contains_not_In (x : string) l : contains x l = false <-> ~ In x l.
Proof.
  rewrite <- contains_In. destruct (contains x l); split; congruence.
Qed.

Lemma index_first (x : string) l i :
  index x l = Some i ->
  i < length l /\ nth i l "" = x /\ forall k, k < i -> nth k l "" <> x.
Proof.
  revert i. induction l as [|y t IH]; simpl; intros i H; [discriminate|].
  destruct (String.eqb_spec x y) as [->|Hxy].
  - injection H as <-. repeat split; [lia | intros k Hk; lia].
  - destruct (index x t) as [j|]; [|discriminate]. injection H as <-.
    destruct (IH j eq_refl) as (Hlt & Hn & Hf).
    repeat split; [lia | assumption |].
    intros [|k] Hk; [congruence | apply Hf; lia].
Qed.

Lemma index_In (x : string) l : In x l -> exists i, index x l = Some i.
Proof.
  induction l as [|y t IH]; simpl; [tauto|].
  intros H. destruct (String.eqb_spec x y) as [->|Hxy]; [now exists 0|].
  destruct H as [H|H]; [congruence|].
  destruct (IH H) as (i & ->). now exists (S i).
Qed.

Lemma contains_index (x : value) l :
  contains x l = true -> index x l = None -> False.
Proof.
  induction l as [|y t IH]; cbn [contains existsb index]; [discriminate|].
  destruct (eq_text x y); [discriminate|]. cbn [orb]. intros H.
  destruct (index x t); [discriminate | auto].
Qed.

(** A number is in no list of texts. *)
Lemma contains_number (x : value) l :
  contains x l = true -> exists s, x = VStr s.
Proof.
  destruct x as [s|z|t]; [eauto| |];
    (induction l as [|y l IH]; cbn; [discriminate | exact IH]).
Qed.

Lemma nth_set_nth_same {A} (d d' x : A) n l : nth n (set_nth d n x l) d' = x.
Proof.
  revert l. induction n as [|n IH]; intros [|h t]; simpl; auto.
Qed.

Lemma nth_set_nth_other {A} (d x : A) n k l :
  k <> n -> nth k (set_nth d n x l) d = nth k l d.
Proof.
  revert k l. induction n as [|n IH]; intros [|k] [|h t] Hk; simpl;
    try congruence; try reflexivity.
  - now destruct k.
  - rewrite IH by congruence. now destruct k.
  - apply IH. congruence.
Qed.

Lemma col_values_nth g k : nth k (col_values 1 g) "" = cell g k 0.
Proof.
  exact (map_nth (fun r : row => nth 0 r "") g [] k).
Qed.

Lemma truthy_true s : s <> "" -> truthy s = true.
Proof.
  unfold truthy. intros H.
  destruct (String.eqb_spec s ""); [congruence | reflexivity].
Qed.

Lemma truthy_false s : truthy s = false <-> s = "".
Proof.
  unfold truthy. destruct (String.eqb_spec s ""); split; simpl; congruence.
Qed.

(** ** The adapter, case by case *)

Ltac world_simpl :=
  cbn [sheet faults credentials client cache clock ui calls set_sheet
       set_faults set_client set_cache set_clock show record_call later fst
       snd tl reading writing firstn forallb is_some negb andb] in *.

Ltac crunch :=
  repeat (world_simpl;
          match goal with
          | |- context [match ?l with [] => _ | _ :: _ => _ end] =>
              is_var l; destruct l as [|[?|] ?]
          | |- context [match faults ?w with _ => _ end] =>
              is_var w; let E := fresh "Ef" in
              destruct (faults w) as [|[?|] ?] eqn:E
          | |- context [negb (contains ?x ?l)] =>
              let E := fresh "Ec" in destruct (contains x l) eqn:E; cbn [negb]
          | |- context [match index ?x ?l with _ => _ end] =>
              let E := fresh "Ei" in destruct (index x l) eqn:E
          end).

Ltac unfold_adapter :=
  unfold update_cell_by_referral_id, append_data, load_data_body, recorded,
    try_except, bind, gc_open, spreadsheet_worksheet, request, index_plus_1,
    st_error, st_stop, say, ret, raise, st_cache_data_clear.

(** [update_cell_by_referral_id] always returns; when it returns [False] the
    worksheet and the cache are as before, when it returns [True] one cell
    was written and the cache is empty. *)
Lemma update_spec rid col v w :
  exists b w',
    update_cell_by_referral_id rid col v w = (Ret b, w')
    /\ calls w' = calls w ++ [CallUpdate rid col v b]
    /\ clock w' = clock w /\ credentials w' = credentials w
    /\ ((b = false /\ sheet w' = sheet w /\ cache w' = cache w)
        \/ (b = true /\ cache w' = None
            /\ exists i j, index rid (col_values 1 (sheet w)) = Some i
                 /\ index col (row_values 1 (sheet w)) = Some j
                 /\ sheet w' = update_cell (i + 1) (j + 1) v (sheet w))).
Proof.
  unfold_adapter. crunch;
    try (exfalso; eapply contains_index; eassumption);
    (eexists _, _; split; [reflexivity|]; world_simpl;
     repeat split;
     first [ left; repeat split; reflexivity
           | right; repeat split; eexists _, _; repeat split; reflexivity ]).
Qed.

(** The same for [append_data]. *)
Lemma append_spec row_data w :
  exists b w',
    append_data row_data w = (Ret b, w')
    /\ calls w' = calls w ++ [CallAppend row_data b]
    /\ clock w' = clock w /\ credentials w' = credentials w
    /\ ((b = false /\ sheet w' = sheet w /\ cache w' = cache w)
        \/ (b = true /\ cache w' = None
            /\ sheet w' = append_row row_data (sheet w)))
    /\ (goes_through 3 w = true ->
        b = true /\ ui w' = ui w /\ faults w' = skipn 3 (faults w)).
Proof.
  unfold_adapter. unfold goes_through. crunch;
    (eexists _, _; split; [reflexivity|]; world_simpl;
     repeat split; try discriminate;
     first [ left; repeat split; reflexivity
           | right; repeat split; reflexivity ]).
Qed.

(** [load_data_body] stops the script or returns the table as it stands. *)
Lemma load_data_body_spec w :
  exists out w',
    load_data_body w = (out, w')
    /\ sheet w' = sheet w /\ cache w' = cache w /\ calls w' = calls w
    /\ clock w' = clock w /\ credentials w' = credentials w
    /\ (out = Stop \/ out = Ret (table_of (sheet w)))
    /\ (goes_through 3 w = true ->
        out = Ret (table_of (sheet w)) /\ ui w' = ui w
        /\ faults w' = skipn 3 (faults w)).
Proof.
  unfold_adapter. unfold goes_through. crunch;
    repeat match goal with
      | |- context [match exn_kind_of ?e with _ => _ end] =>
          destruct (exn_kind_of e)
      end; world_simpl;
    (eexists _, _; split; [reflexivity|]; world_simpl;
     repeat split; try discriminate; auto).
Qed.

(** [load_data] leaves the worksheet alone; it stops the script, reads the
    table afresh and stores it, or serves an entry younger than [TTL]. *)
Lemma load_data_spec w :
  exists out w',
    load_data w = (out, w')
    /\ sheet w' = sheet w /\ calls w' = calls w
    /\ clock w' = clock w /\ credentials w' = credentials w
    /\ ((out = Stop /\ cache w' = cache w)
        \/ (out = Ret (table_of (sheet w))
            /\ cache w' = Some (clock w, table_of (sheet w)))
        \/ (exists t df, cache w = Some (t, df) /\ clock w < t + TTL
                         /\ out = Ret df /\ w' = w)).
Proof.
  unfold load_data, st_cache_data.
  destruct (load_data_body_spec w)
    as (out & w' & E & Hs & Hc & Hcalls & Hclock & Hcred & Hout & _).
  assert (Hmiss :
    exists out0 w0,
      match load_data_body w with
      | (Ret df', w1) => (Ret df', set_cache (Some (clock w1, df')) w1)
      | r => r
      end = (out0, w0)
      /\ sheet w0 = sheet w /\ calls w0 = calls w
      /\ clock w0 = clock w /\ credentials w0 = credentials w
      /\ ((out0 = Stop /\ cache w0 = cache w)
          \/ (out0 = Ret (table_of (sheet w))
              /\ cache w0 = Some (clock w, table_of (sheet w))))).
  { rewrite E. destruct Hout as [-> | ->].
    - exists Stop, w'. repeat split; auto.
    - eexists _, _. split; [reflexivity|]. world_simpl.
      repeat split; auto. right. split; congruence. }
  destruct (cache w) as [[t df]|] eqn:Ecache.
  - destruct (clock w <? t + TTL) eqn:Efresh.
    + exists (Ret df), w. split; [reflexivity|]. repeat split.
      right. right. exists t, df. apply Nat.ltb_lt in Efresh. auto.
    + destruct Hmiss as (out0 & w0 & E0 & H1 & H2 & H3 & H4 & H5).
      exists out0, w0. repeat split; auto. tauto.
  - destruct Hmiss as (out0 & w0 & E0 & H1 & H2 & H3 & H4 & H5).
    exists out0, w0. repeat split; auto. tauto.
Qed.

(** ** Texts that are never read as numbers *)

Lemma numericise_text s t : numericise s = VStr t -> t = s.
Proof.
  unfold numericise.
  destruct (existsb is_underscore (kinds s)); [congruence|].
  destruct (is_int _); [discriminate|].
  destruct (is_float _); [discriminate | congruence].
Qed.

Lemma number_like_false s : number_like s = false <-> numericise s = VStr s.
Proof.
  unfold number_like. split.
  - destruct (numericise s) as [t| |] eqn:E; try discriminate.
    intros _. now rewrite (numericise_text _ E).
  - now intros ->.
Qed.


Lemma numericise_eq_text s (t : string) : numericise s = t <-> s = t /\ number_like s = false.
Proof.
  split.
  - intros H. pose proof (numericise_text _ H) as ->. split; [reflexivity|].
    now apply number_like_false.
  - intros (-> & H). now apply number_like_false.
Qed.

Lemma int_dead l : fold_left int_step l IDead = IDead.
Proof. induction l as [|k l IH]; [reflexivity | exact IH]. Qed.

Lemma float_dead l : fold_left float_step l FDead = FDead.
Proof. induction l as [|k l IH]; [reflexivity | exact IH]. Qed.

Lemma int_signs l s :
  int_accepting (fold_left int_step l s) = true -> count_signs l <= int_budget s.
Proof.
  unfold count_signs. revert s. induction l as [|k l IH]; intros s H; [cbn; lia|].
  cbn [fold_left] in H. specialize (IH _ H).
  destruct s, k; cbn [int_step] in *;
    try (rewrite int_dead in H; discriminate H);
    cbn [filter is_sign length int_budget] in *; lia.
Qed.

Lemma float_signs l s :
  float_accepting (fold_left float_step l s) = true ->
  count_signs l <= float_budget s.
Proof.
  unfold count_signs. revert s. induction l as [|k l IH]; intros s H; [cbn; lia|].
  cbn [fold_left] in H. specialize (IH _ H).
  destruct s, k as [ | | | | | | | |[]| ]; cbn [float_step] in *;
    try (rewrite float_dead in H; discriminate H);
    cbn [filter is_sign length float_budget] in *; lia.
Qed.

(** A text with three signs or more, no comma and no underscore is not a
    number. *)
Lemma many_signs_text s :
  existsb is_underscore (kinds s) = false ->
  existsb is_comma (kinds s) = false ->
  3 <= count_signs (kinds s) ->
  numericise s = VStr s.
Proof.
  intros Hu Hc Hs. unfold numericise. rewrite Hu.
  assert (Hf : filter (fun k => negb (is_comma k)) (kinds s) = kinds s).
  { revert Hc. generalize (kinds s) as l.
    induction l as [|k l IH]; [reflexivity|]. cbn [existsb filter].
    intros H. apply orb_false_iff in H. destruct H as (-> & H).
    cbn [negb]. now rewrite IH. }
  rewrite Hf.
  destruct (is_int (kinds s)) eqn:Ei.
  { apply int_signs in Ei. cbn [int_budget] in Ei. lia. }
  destruct (is_float (kinds s)) eqn:Ef; [|reflexivity].
  apply float_signs in Ef. cbn [float_budget] in Ef. lia.
Qed.

Lemma hex_digit_kind k : hex_kind (kind (hex_digit k)) = true.
Proof.
  destruct k as [|p]; [reflexivity|].
  do 4 (destruct p as [p|p|]; try reflexivity).
Qed.

Lemma hex_run_kinds n hi len :
  forallb hex_kind (map kind (hex_run n hi len)) = true.
Proof.
  revert hi. induction len as [|len IH]; intros hi; [reflexivity|].
  cbn [hex_run map forallb]. now rewrite hex_digit_kind, IH.
Qed.

Lemma hex_kinds_plain l :
  forallb hex_kind l = true ->
  existsb is_underscore l = false /\ existsb is_comma l = false
  /\ count_signs l = 0.
Proof.
  unfold count_signs. induction l as [|k l IH]; [auto|].
  cbn [forallb]. intros H. apply andb_true_iff in H. destruct H as (Hk & Hl).
  destruct (IH Hl) as (Hu & Hc & Hs).
  destruct k as [ | | | | | | | |[]| ]; try discriminate Hk;
    cbn [existsb is_underscore is_comma orb filter is_sign]; auto.
Qed.

Lemma length_hex_run n hi len : length (hex_run n hi len) = len.
Proof.
  revert hi. induction len as [|len IH]; intros hi; [reflexivity|].
  cbn [hex_run length]. now rewrite IH.
Qed.

Lemma length_string_of_list_ascii l :
  String.length (string_of_list_ascii l) = length l.
Proof. induction l as [|c l IH]; [reflexivity | cbn; now rewrite IH]. Qed.

(** The text of a UUID has 36 characters and four hyphens: it is read back
    as the text it is. *)
Lemma uuid4_length env : String.length (uuid4 env) = 36.
Proof.
  unfold uuid4, str_uuid. rewrite length_string_of_list_ascii.
  repeat (rewrite length_app || cbn [length] || rewrite length_hex_run).
  reflexivity.
Qed.

Lemma uuid4_text env : numericise (uuid4 env) = VStr (uuid4 env).
Proof.
  unfold uuid4, str_uuid. set (n := uuid_int env).
  pose proof (hex_kinds_plain _ (hex_run_kinds n 31 8)) as (U1 & C1 & S1).
  pose proof (hex_kinds_plain _ (hex_run_kinds n 23 4)) as (U2 & C2 & S2).
  pose proof (hex_kinds_plain _ (hex_run_kinds n 19 4)) as (U3 & C3 & S3).
  pose proof (hex_kinds_plain _ (hex_run_kinds n 15 4)) as (U4 & C4 & S4).
  pose proof (hex_kinds_plain _ (hex_run_kinds n 11 12)) as (U5 & C5 & S5).
  unfold count_signs in *.
  apply many_signs_text; unfold kinds, count_signs;
    rewrite list_ascii_of_string_of_list_ascii;
    repeat (rewrite map_app || cbn [map] || rewrite existsb_app
            || cbn [existsb] || rewrite filter_app || cbn [filter]
            || rewrite length_app || cbn [length]);
    change (kind "-") with KMinus;
    cbn [is_underscore is_comma is_sign orb filter length existsb];
    repeat (rewrite filter_app || cbn [filter] || rewrite length_app
            || cbn [length] || rewrite existsb_app || cbn [existsb]);
    cbn [is_underscore is_comma is_sign orb];
    rewrite ?U1, ?U2, ?U3, ?U4, ?U5, ?C1, ?C2, ?C3, ?C4, ?C5,
      ?S1, ?S2, ?S3, ?S4, ?S5; try reflexivity; cbn; lia.
Qed.

Lemma uuid4_not_label env : uuid4 env <> COL_ID.
Proof.
  intros H. pose proof (uuid4_length env) as L. rewrite H in L. discriminate.
Qed.





(** ** The adapter's point update *)

(** C5: for a referral id that is not in the identifier column,
    [update_cell_by_referral_id] returns [False] and leaves every cell of the
    worksheet as it was; when the worksheet service answers its requests the
    failure shown is the one that says the record was not found. *)
Theorem update_unknown_id_fails rid col v w :
  ~ In rid (col_values 1 (sheet w)) ->
  exists w',
    update_cell_by_referral_id rid col v w = (Ret false, w')
    /\ sheet w' = sheet w
    /\ (goes_through 3 w = true ->
        ui w' = ui w ++ [st_error_out (msg_record_not_found rid)]).
Proof.
  intros Habsent. apply contains_not_In in Habsent.
  unfold_adapter. unfold goes_through.
  crunch; try congruence;
    (eexists; split; [reflexivity|]; world_simpl; split;
     [reflexivity | intros; first [discriminate | reflexivity]]).
Qed.

Lemma update_unknown_id_fails_witness :
  exists w',
    update_cell_by_referral_id "no-such-id" COL_ACK "Yes" demo_world
      = (Ret false, w')
    /\ sheet w' = sheet demo_world
    /\ ui w' = [st_error_out (msg_record_not_found "no-such-id")].
Proof.
  destruct (update_unknown_id_fails "no-such-id" COL_ACK "Yes" demo_world)
    as (w' & E & Hs & Hui).
  - simpl. intros [H|[H|[H|[]]]]; discriminate.
  - exists w'. split; [exact E|]. split; [exact Hs|].
    apply Hui. reflexivity.
Defined.

(** C10: the row is found by scanning the whole first column from the top,
    header row included: the cell written lies in the first row whose first
    cell equals the referral id, every other row stays as it was even when
    it carries the same id, and an id equal to the label of the identifier
    column makes the header row the target. *)
Theorem update_writes_first_match rid col v w :
  goes_through 5 w = true ->
  In rid (col_values 1 (sheet w)) ->
  In col (row_values 1 (sheet w)) ->
  exists i j w',
    index rid (col_values 1 (sheet w)) = Some i
    /\ index col (row_values 1 (sheet w)) = Some j
    /\ update_cell_by_referral_id rid col v w = (Ret true, w')
    /\ sheet w' = update_cell (i + 1) (j + 1) v (sheet w)
    /\ cell (sheet w) i 0 = rid
    /\ (forall k, k < i -> cell (sheet w) k 0 <> rid)
    /\ cell (sheet w') i j = v
    /\ (forall k, k <> i -> nth k (sheet w') [] = nth k (sheet w) [])
    /\ (rid = cell (sheet w) 0 0 -> i = 0).
Proof.
  intros Hgo Hrid Hcol.
  destruct (index_In _ _ Hrid) as (i & Ei).
  destruct (index_In _ _ Hcol) as (j & Ej).
  apply contains_In in Hrid. apply contains_In in Hcol.
  destruct (index_first _ _ Ei) as (_ & Hat & Hbefore).
  rewrite col_values_nth in Hat.
  assert (Hrun : exists w',
             update_cell_by_referral_id rid col v w = (Ret true, w')
             /\ sheet w' = update_cell (i + 1) (j + 1) v (sheet w)).
  { revert Hgo. unfold_adapter. unfold goes_through.
    crunch; intros Hgo; try discriminate; try congruence;
      (eexists; split; [reflexivity|]; world_simpl; congruence). }
  destruct Hrun as (w' & Erun & Hsheet).
  exists i, j, w'. repeat split; try assumption.
  - intros k Hk. rewrite <- col_values_nth. now apply Hbefore.
  - rewrite Hsheet. unfold update_cell, cell.
    rewrite !Nat.add_1_r. simpl pred.
    rewrite nth_set_nth_same. apply nth_set_nth_same.
  - intros k Hk. rewrite Hsheet. unfold update_cell.
    rewrite !Nat.add_1_r. simpl pred. now apply nth_set_nth_other.
  - intros Hhead. destruct i as [|i]; [reflexivity|].
    exfalso. apply (Hbefore 0); [lia|]. rewrite col_values_nth. congruence.
Qed.

Lemma update_writes_first_match_witness :
  exists w',
    update_cell_by_referral_id "abc-123" COL_NOTES "Seen"
      (world_of [HEADERS; jane_row; john_row; jane_again_row])
      = (Ret true, w')
    /\ nth 1 (sheet w') [] <> jane_row
    /\ nth 3 (sheet w') [] = jane_again_row.
Proof.
  destruct (update_writes_first_match "abc-123" COL_NOTES "Seen"
              (world_of [HEADERS; jane_row; john_row; jane_again_row]))
    as (i & j & w' & Ei & Ej & E & Hs & _ & _ & Hcell & Hrows & _).
  - reflexivity.
  - simpl. auto.
  - simpl. auto 20.
  - exists w'. split; [exact E|].
    injection Ei as <-. injection Ej as <-. split.
    + intros Hsame. unfold cell in Hcell. rewrite Hsame in Hcell. discriminate.
    + rewrite Hrows by discriminate. reflexivity.
Defined.

(** ** The acknowledgement form *)

Lemma validation_passes inp :
  time_of_presentation inp <> "" -> acknowledged_by inp <> "" ->
  all [truthy (time_of_presentation inp); truthy (acknowledged_by inp)] = true.
Proof.
  intros Ht Hb. simpl. now rewrite (truthy_true Ht), (truthy_true Hb).
Qed.

Ltac four_updates rid inp w :=
  let b1 := fresh "b1" in let b2 := fresh "b2" in
  let b3 := fresh "b3" in let b4 := fresh "b4" in
  let w1 := fresh "w1" in let w2 := fresh "w2" in
  let w3 := fresh "w3" in let w4 := fresh "w4" in
  destruct (update_spec rid COL_ACK "Yes" w)
    as (b1 & w1 & ?E1 & ?C1 & ?K1 & ?R1 & ?S1);
  destruct (update_spec rid COL_PRESENTATION (time_of_presentation inp) w1)
    as (b2 & w2 & ?E2 & ?C2 & ?K2 & ?R2 & ?S2);
  destruct (update_spec rid COL_ACK_BY (acknowledged_by inp) w2)
    as (b3 & w3 & ?E3 & ?C3 & ?K3 & ?R3 & ?S3);
  destruct (update_spec rid COL_NOTES (gbagada_notes inp) w3)
    as (b4 & w4 & ?E4 & ?C4 & ?K4 & ?R4 & ?S4).

(** C3: once the form is submitted with a time of presentation and a name,
    exactly four calls of [update_cell_by_referral_id] are made, all for the
    selected referral id: "Yes" for the acknowledged column, then the time of
    presentation, who acknowledged, and the notes; success is what the form
    reports last (and it then asks for a rerun) exactly when the four calls
    all returned [True]. *)
Theorem acknowledge_makes_four_updates rid name inp w :
  ack_submitted inp = true ->
  time_of_presentation inp <> "" ->
  acknowledged_by inp <> "" ->
  exists b1 b2 b3 b4 out w',
    acknowledge_form rid name inp w = (out, w')
    /\ calls w' = calls w ++
         [CallUpdate rid COL_ACK "Yes" b1;
          CallUpdate rid COL_PRESENTATION (time_of_presentation inp) b2;
          CallUpdate rid COL_ACK_BY (acknowledged_by inp) b3;
          CallUpdate rid COL_NOTES (gbagada_notes inp) b4]
    /\ (last (ui w') st_balloons_out = st_success_out (msg_acknowledged name)
        <-> b1 = true /\ b2 = true /\ b3 = true /\ b4 = true)
    /\ (last (ui w') st_balloons_out = st_error_out msg_ack_failed
        <-> ~ (b1 = true /\ b2 = true /\ b3 = true /\ b4 = true))
    /\ (out = Rerun <-> b1 = true /\ b2 = true /\ b3 = true /\ b4 = true).
Proof.
  intros Hsub Ht Hb. four_updates rid inp w.
  unfold acknowledge_form. rewrite Hsub, (validation_passes _ Ht Hb).
  cbn [negb]. unfold bind. rewrite E1, E2, E3, E4.
  exists b1, b2, b3, b4.
  assert (Hcalls : calls w4 = calls w ++
            [CallUpdate rid COL_ACK "Yes" b1;
             CallUpdate rid COL_PRESENTATION (time_of_presentation inp) b2;
             CallUpdate rid COL_ACK_BY (acknowledged_by inp) b3;
             CallUpdate rid COL_NOTES (gbagada_notes inp) b4]).
  { rewrite C4, C3, C2, C1. now rewrite <- !app_assoc. }
  destruct b1, b2, b3, b4; cbn [andb];
    unfold st_success, st_error, st_rerun, say;
    (eexists _, _; split; [reflexivity|]; world_simpl;
     split; [exact Hcalls|]; rewrite last_last;
     repeat split; intros; try discriminate; try tauto;
     try (intros (? & ? & ? & ?); discriminate);
     try (exfalso; intuition discriminate)).
Qed.

Lemma acknowledge_makes_four_updates_witness :
  exists out w',
    acknowledge_form "abc-123" "Jane Doe" nurse_acknowledges demo_world
      = (out, w')
    /\ calls w' =
         [CallUpdate "abc-123" COL_ACK "Yes" true;
          CallUpdate "abc-123" COL_PRESENTATION "2024-01-01 10:00:00" true;
          CallUpdate "abc-123" COL_ACK_BY "Nurse A" true;
          CallUpdate "abc-123" COL_NOTES "Stable on arrival" true]
    /\ out = Rerun.
Proof.
  destruct (acknowledge_makes_four_updates "abc-123" "Jane Doe"
              nurse_acknowledges demo_world)
    as (b1 & b2 & b3 & b4 & out & w' & E & Hcalls & _ & _ & Hout);
    [reflexivity | discriminate | discriminate |].
  exists out, w'. split; [exact E|].
  assert (Hrun : calls (snd (acknowledge_form "abc-123" "Jane Doe"
                               nurse_acknowledges demo_world)) =
                 [CallUpdate "abc-123" COL_ACK "Yes" true;
                  CallUpdate "abc-123" COL_PRESENTATION "2024-01-01 10:00:00" true;
                  CallUpdate "abc-123" COL_ACK_BY "Nurse A" true;
                  CallUpdate "abc-123" COL_NOTES "Stable on arrival" true])
    by (vm_compute; reflexivity).
  rewrite E in Hrun. simpl in Hrun. split; [exact Hrun|].
  rewrite Hrun in Hcalls. simpl in Hcalls.
  apply Hout. injection Hcalls as <- <- <- <-. auto.
Defined.

(** C4, as stated, fails: the worksheet service fails the first request of
    the first update, that call returns [False], and the three remaining
    calls are made all the same and write their cells: Jane's record ends up
    with a time of presentation, a name and notes, and "No" in the
    acknowledged column. *)
Lemma failed_update_does_not_stop_the_rest :
  let w' := snd (gbagada_dashboard nurse_acknowledges flaky_world) in
  calls w' =
    [CallUpdate "abc-123" COL_ACK "Yes" false;
     CallUpdate "abc-123" COL_PRESENTATION "2024-01-01 10:00:00" true;
     CallUpdate "abc-123" COL_ACK_BY "Nurse A" true;
     CallUpdate "abc-123" COL_NOTES "Stable on arrival" true]
  /\ stops_at_first_failure (calls w') = false
  /\ nth 1 (sheet w') [] =
       ["abc-123"; "Jane Doe"; "1990-01-01"; "Female"; "0800 000 0001";
        "Ojota PHC"; "2024-01-01 09:00:00"; "Fever"; "Dr Ade"; "No";
        "2024-01-01 10:00:00"; "Nurse A"; "Stable on arrival"]
  /\ In (st_error_out msg_ack_failed) (ui w').
Proof. vm_compute. repeat split; auto 10. Qed.

(** C4, amended: the four calls are made one after the other whatever the
    earlier ones returned, each on the world the previous one left; what the
    calls returned only decides the report at the end. *)
Theorem acknowledge_runs_every_update rid name inp w :
  ack_submitted inp = true ->
  time_of_presentation inp <> "" ->
  acknowledged_by inp <> "" ->
  let r1 := update_cell_by_referral_id rid COL_ACK "Yes" w in
  let r2 := update_cell_by_referral_id rid COL_PRESENTATION
              (time_of_presentation inp) (snd r1) in
  let r3 := update_cell_by_referral_id rid COL_ACK_BY
              (acknowledged_by inp) (snd r2) in
  let r4 := update_cell_by_referral_id rid COL_NOTES
              (gbagada_notes inp) (snd r3) in
  exists b1 b2 b3 b4,
    fst r1 = Ret b1 /\ fst r2 = Ret b2 /\ fst r3 = Ret b3 /\ fst r4 = Ret b4
    /\ acknowledge_form rid name inp w =
         if b1 && b2 && b3 && b4
         then (Rerun, show (st_success_out (msg_acknowledged name)) (snd r4))
         else (Ret tt, show (st_error_out msg_ack_failed) (snd r4)).
Proof.
  intros Hsub Ht Hb. four_updates rid inp w.
  cbv zeta. rewrite E1. cbn [snd]. rewrite E2. cbn [snd]. rewrite E3.
  cbn [snd]. rewrite E4. cbn [fst snd].
  exists b1, b2, b3, b4. repeat split.
  unfold acknowledge_form. rewrite Hsub, (validation_passes _ Ht Hb).
  cbn [negb]. unfold bind. rewrite E1, E2, E3, E4.
  destruct (b1 && b2 && b3 && b4); reflexivity.
Qed.

Lemma acknowledge_runs_every_update_witness :
  exists w',
    acknowledge_form "abc-123" "Jane Doe" nurse_acknowledges
      (set_faults [Some quota_error] demo_world) = (Ret tt, w')
    /\ map call_result (calls w') = [false; true; true; true].
Proof.
  destruct (acknowledge_runs_every_update "abc-123" "Jane Doe"
              nurse_acknowledges (set_faults [Some quota_error] demo_world))
    as (b1 & b2 & b3 & b4 & H1 & H2 & H3 & H4 & E);
    [reflexivity | discriminate | discriminate |].
  vm_compute in H1. injection H1 as <-. rewrite E. cbn [andb].
  eexists. split; [reflexivity|]. vm_compute. reflexivity.
Defined.

(** ** The referral form *)

(** C2: a submission that passes the validation makes one call of
    [append_data]; its row has thirteen fields in the order of the header
    row, the tenth is "No" and the last three are empty. *)
Theorem submit_appends_one_row env inp w :
  submitted inp = true ->
  all (required_inputs inp) = true ->
  exists dob ok w',
    patient_dob inp = Some dob
    /\ phc_referral_form env inp w = (Ret tt, w')
    /\ calls w' = calls w ++
         [CallAppend (row_data_of env inp (strftime_ymd dob)) ok]
    /\ length (row_data_of env inp (strftime_ymd dob)) = 13
    /\ combine HEADERS (row_data_of env inp (strftime_ymd dob)) =
         [(COL_ID, uuid4 env);
          (COL_NAME, patient_name inp);
          ("Date of Birth", strftime_ymd dob);
          ("Gender", gender_text (patient_gender inp));
          ("Patient Contact", patient_contact inp);
          (COL_PHC, referring_phc inp);
          (COL_REFERRAL_TIME, strftime_ymdhms (now env));
          (COL_DIAGNOSIS, diagnosis inp);
          ("Referring Doctor", referring_doctor inp);
          (COL_ACK, "No");
          (COL_PRESENTATION, "");
          (COL_ACK_BY, "");
          (COL_NOTES, "")].
Proof.
  intros Hsub Hvalid.
  destruct (patient_dob inp) as [dob|] eqn:Edob.
  2:{ unfold required_inputs in Hvalid. rewrite Edob in Hvalid.
      simpl in Hvalid. rewrite andb_false_r in Hvalid. discriminate. }
  destruct (append_spec (row_data_of env inp (strftime_ymd dob))
              (show (st_info_out (msg_referral_time (strftime_ymdhms (now env)))) w))
    as (ok & w1 & E & Hcalls & _).
  unfold phc_referral_form. rewrite Hsub, Hvalid, Edob. cbn [negb].
  unfold bind, st_info, say, ret at 1. rewrite E.
  exists dob, ok.
  destruct ok; unfold st_success, st_info, st_balloons, st_error, say, bind;
    (eexists; split; [reflexivity|]; split; [reflexivity|]; world_simpl;
     split; [exact Hcalls|]; split; reflexivity).
Qed.

Lemma submit_appends_one_row_witness :
  exists ok w',
    phc_referral_form demo_env jane_submission demo_world = (Ret tt, w')
    /\ calls w' =
         [CallAppend
            ["3f2b8c1e-5d4a-4e6f-9a7b-0c1d2e3f4a5b"; "Jane Doe"; "1990-01-01";
             "Female"; "0800 000 0001"; "Ojota PHC"; "2024-01-05 09:03:07";
             "Fever"; "Dr Ade"; "No"; ""; ""; ""] ok].
Proof.
  destruct (submit_appends_one_row demo_env jane_submission demo_world)
    as (dob & ok & w' & Edob & E & Hcalls & _); [reflexivity | reflexivity |].
  injection Edob as <-. exists ok, w'. split; [exact E | exact Hcalls].
Defined.

(** C6, as stated, fails: with only the diagnosis left empty the form shows
    its one error message, which names all six required inputs, the five
    that were filled in among them; the same message is shown when only the
    name is left empty. *)
Lemma refusal_does_not_say_which_input :
  ui (snd (phc_referral_form demo_env no_diagnosis_submission demo_world)) =
    [st_info_out (msg_referral_time "2024-01-05 09:03:07");
     st_error_out msg_required]
  /\ ui (snd (phc_referral_form demo_env no_name_submission demo_world)) =
       [st_info_out (msg_referral_time "2024-01-05 09:03:07");
        st_error_out msg_required]
  /\ missing_inputs no_diagnosis_submission = ["Diagnosis"]
  /\ missing_inputs no_name_submission = ["Patient Name"]
  /\ ~ lists_missing no_diagnosis_submission msg_required.
Proof.
  repeat split; try (vm_compute; reflexivity).
  intros H. destruct (H "Patient Name") as (Hmention & _).
  - simpl. auto.
  - assert (Hin : In "Patient Name" (missing_inputs no_diagnosis_submission))
      by (apply Hmention; vm_compute; reflexivity).
    vm_compute in Hin. destruct Hin as [Hin|[]]. discriminate.
Qed.

Lemma some_input_missing inp :
  patient_name inp = "" \/ patient_dob inp = None
  \/ patient_gender inp = GenderSelect \/ referring_phc inp = ""
  \/ diagnosis inp = "" \/ referring_doctor inp = "" ->
  all (required_inputs inp) = false.
Proof.
  unfold required_inputs, all.
  intros [H|[H|[H|[H|[H|H]]]]]; rewrite H; cbn [forallb truthy String.eqb
    negb andb is_some gender_text];
    repeat first [reflexivity | rewrite andb_false_r | rewrite andb_false_l].
Qed.

(** C6, amended: a submission that lacks a required input is answered with
    the form's fixed error message, which names the six required inputs
    whichever of them is missing; no call of [append_data] is made and the
    worksheet is as before. *)
Theorem incomplete_submission_is_refused env inp w :
  submitted inp = true ->
  patient_name inp = "" \/ patient_dob inp = None
  \/ patient_gender inp = GenderSelect \/ referring_phc inp = ""
  \/ diagnosis inp = "" \/ referring_doctor inp = "" ->
  exists w',
    phc_referral_form env inp w = (Ret tt, w')
    /\ ui w' = ui w ++
         [st_info_out (msg_referral_time (strftime_ymdhms (now env)));
          st_error_out msg_required]
    /\ calls w' = calls w
    /\ sheet w' = sheet w
    /\ cache w' = cache w
    /\ Forall (fun label => mentions label msg_required = true) REQUIRED_LABELS.
Proof.
  intros Hsub Hmissing. apply some_input_missing in Hmissing.
  unfold phc_referral_form. rewrite Hsub, Hmissing. cbn [negb].
  unfold bind, st_info, st_error, say.
  eexists. split; [reflexivity|]. world_simpl.
  repeat split; [now rewrite <- app_assoc|].
  repeat constructor.
Qed.

Lemma incomplete_submission_is_refused_witness :
  exists w',
    phc_referral_form demo_env no_diagnosis_submission demo_world = (Ret tt, w')
    /\ calls w' = [] /\ sheet w' = sheet demo_world.
Proof.
  destruct (incomplete_submission_is_refused demo_env no_diagnosis_submission
              demo_world) as (w' & E & _ & Hcalls & Hsheet & _).
  - reflexivity.
  - right. right. right. right. left. reflexivity.
  - exists w'. repeat split; assumption.
Defined.

(** ** The cache *)

Lemma uncached_reads_afresh w : cache w = None -> reads_afresh w.
Proof.
  intros Hnone t f. split.
  - intros df w' E.
    destruct (load_data_spec (later t f w))
      as (out & w2 & E2 & _ & _ & _ & _ & Hcases).
    rewrite E in E2. injection E2 as <- <-.
    destruct Hcases as [(H & _) | [(H & _) | (t0 & df0 & Hc & _)]].
    + discriminate.
    + injection H as ->. reflexivity.
    + world_simpl. congruence.
  - intros Hgo.
    destruct (load_data_body_spec (later t f w))
      as (out & w2 & E2 & _ & _ & _ & _ & _ & _ & Hthrough).
    destruct (Hthrough Hgo) as (-> & _).
    unfold load_data, st_cache_data.
    replace (cache (later t f w)) with (@None (nat * DataFrame))
      by (symmetry; exact Hnone).
    rewrite E2. eexists. reflexivity.
Qed.

(** C9: when [append_data] or [update_cell_by_referral_id] returns [True]
    the write is in the worksheet and the cache is empty, so the next load,
    at whatever time, reads the worksheet again and cannot return an older
    table. *)
Theorem successful_write_empties_cache w :
  (forall row_data w1,
      append_data row_data w = (Ret true, w1) ->
      cache w1 = None
      /\ sheet w1 = append_row row_data (sheet w)
      /\ reads_afresh w1)
  /\ (forall rid col v w1,
      update_cell_by_referral_id rid col v w = (Ret true, w1) ->
      cache w1 = None
      /\ (exists i j, index rid (col_values 1 (sheet w)) = Some i
            /\ index col (row_values 1 (sheet w)) = Some j
            /\ sheet w1 = update_cell (i + 1) (j + 1) v (sheet w))
      /\ reads_afresh w1).
Proof.
  split.
  - intros row_data w1 E.
    destruct (append_spec row_data w) as (b & w' & E' & _ & _ & _ & Hcases & _).
    rewrite E in E'. injection E' as <- <-.
    destruct Hcases as [(H & _) | (_ & Hc & Hs)]; [discriminate|].
    auto using uncached_reads_afresh.
  - intros rid col v w1 E.
    destruct (update_spec rid col v w) as (b & w' & E' & _ & _ & _ & Hcases).
    rewrite E in E'. injection E' as <- <-.
    destruct Hcases as [(H & _) | (_ & Hc & Hs)]; [discriminate|].
    auto using uncached_reads_afresh.
Qed.

Lemma successful_write_empties_cache_witness :
  fst (load_data cached_world) = Ret (table_of [HEADERS; john_row])
  /\ exists w1,
       update_cell_by_referral_id "abc-123" COL_ACK "Yes" cached_world
         = (Ret true, w1)
       /\ cache w1 = None
       /\ exists w2,
            load_data (later 5 [] w1) = (Ret (table_of (sheet w1)), w2).
Proof.
  split; [vm_compute; reflexivity|].
  destruct (successful_write_empties_cache cached_world) as [_ Hupdate].
  exists (snd (update_cell_by_referral_id "abc-123" COL_ACK "Yes" cached_world)).
  assert (E : update_cell_by_referral_id "abc-123" COL_ACK "Yes" cached_world =
              (Ret true,
               snd (update_cell_by_referral_id "abc-123" COL_ACK "Yes"
                      cached_world)))
    by (vm_compute; reflexivity).
  destruct (Hupdate _ _ _ _ E) as (Hcache & _ & Hfresh).
  split; [exact E|]. split; [exact Hcache|].
  apply (Hfresh 5 []). reflexivity.
Defined.

(** ** Masks *)

Lemma value_eqb_eq a b : value_eqb a b = true -> a = b.
Proof.
  destruct a, b; cbn [value_eqb]; try discriminate; intros H.
  - apply String.eqb_eq in H. now subst.
  - apply Z.eqb_eq in H. now subst.
  - apply andb_true_iff in H. destruct H as (H & _).
    apply String.eqb_eq in H. now subst.
Qed.

Lemma value_eqb_text x (s : string) : value_eqb x s = true <-> x = VStr s.
Proof.
  split; [apply value_eqb_eq | intros ->; apply String.eqb_refl].
Qed.

Lemma mask_eq_In col (v : string) rows r :
  In r (mask_eq col v rows) <-> In r rows /\ dict_get col (snd r) = Some v.
Proof.
  unfold mask_eq. rewrite filter_In.
  destruct (dict_get col (snd r)) as [x|].
  - rewrite value_eqb_text. intuition congruence.
  - intuition congruence.
Qed.

Lemma mask_eq_incl col v rows r :
  In r (mask_eq col v rows) -> In r rows /\ dict_get col (snd r) = Some v.
Proof.
  unfold mask_eq. rewrite filter_In. intros (Hr & H). split; [exact Hr|].
  destruct (dict_get col (snd r)) as [x|]; [|discriminate].
  now rewrite (value_eqb_eq _ _ H).
Qed.

(** ** Round trip of a submitted record *)









Lemma combine_snoc {A B} (l : list A) (l' : list B) x y :
  length l = length l' ->
  combine (l ++ [x]) (l' ++ [y]) = combine l l' ++ [(x, y)].
Proof.
  revert l'. induction l as [|a l IH]; intros [|b l'] H; simpl in *;
    try discriminate; [reflexivity|].
  f_equal. apply IH. congruence.
Qed.






(** ** The lifecycle of the acknowledged field *)

Lemma pad_to_13 r :
  pad_to 13 r =
    [nth 0 r ""; nth 1 r ""; nth 2 r ""; nth 3 r ""; nth 4 r ""; nth 5 r "";
     nth 6 r ""; nth 7 r ""; nth 8 r ""; nth 9 r ""; nth 10 r ""; nth 11 r "";
     nth 12 r ""].
Proof. do 13 (destruct r as [|? r]; [reflexivity|]). reflexivity. Qed.

Lemma record_of_cells r :
  record_of r =
    combine HEADERS
      (map numericise
         [nth 0 r ""; nth 1 r ""; nth 2 r ""; nth 3 r ""; nth 4 r "";
          nth 5 r ""; nth 6 r ""; nth 7 r ""; nth 8 r ""; nth 9 r "";
          nth 10 r ""; nth 11 r ""; nth 12 r ""]).
Proof.
  unfold record_of. change (length HEADERS) with 13. rewrite pad_to_13.
  reflexivity.
Qed.

Lemma record_ack r :
  dict_get COL_ACK (record_of r) = Some (numericise (ack_cell r)).
Proof. rewrite record_of_cells. reflexivity. Qed.

Lemma record_id r : cell_value COL_ID (record_of r) = numericise (id_cell r).
Proof. rewrite record_of_cells. reflexivity. Qed.

Lemma numericise_No : numericise "No" = VStr "No".
Proof. reflexivity. Qed.

Lemma numericise_Yes : numericise "Yes" = VStr "Yes".
Proof. reflexivity. Qed.

Lemma eq_text_eq v s : eq_text v s = true <-> v = VStr s.
Proof.
  destruct v as [x| |]; cbn [eq_text]; try (split; discriminate).
  rewrite String.eqb_eq. split; congruence.
Qed.

Lemma index_text (x : value) l i : index x l = Some i -> exists s, x = VStr s.
Proof.
  destruct x as [s|z|t]; [eauto| |];
    (revert i; induction l as [|y l IH]; cbn [index eq_text];
     [discriminate|]; intros i; destruct (index _ l) as [k|];
     [intros _; exact (IH k eq_refl) | discriminate]).
Qed.

Lemma ack_of_headed rest i :
  ack_of (HEADERS :: rest) i =
    option_map (fun r => numericise (ack_cell r)) (nth_error rest i).
Proof.
  unfold ack_of.
  change (get_all_records (HEADERS :: rest)) with (map record_of rest).
  rewrite nth_error_map.
  destruct (nth_error rest i); simpl; [apply record_ack | reflexivity].
Qed.

Lemma table_rows_headed rest r :
  In r (df_rows (table_of (HEADERS :: rest))) ->
  exists x, In x rest /\ snd r = record_of x.
Proof.
  unfold table_of, pd_DataFrame. cbn [df_rows].
  change (get_all_records (HEADERS :: rest)) with (map record_of rest).
  destruct r as [n d]. intros H. apply in_combine_r in H.
  apply in_map_iff in H. destruct H as (x & <- & Hx). eauto.
Qed.

Lemma keys_of_record r : dict_keys (record_of r) = HEADERS.
Proof. rewrite record_of_cells. reflexivity. Qed.

Lemma columns_stay_headers rest :
  fold_left (fun acc d => fold_left add_label (dict_keys d) acc)
            (map record_of rest) HEADERS = HEADERS.
Proof.
  induction rest as [|r rest IH]; [reflexivity|].
  cbn [map fold_left]. rewrite keys_of_record.
  change (fold_left add_label HEADERS HEADERS) with HEADERS. exact IH.
Qed.

Lemma table_columns_headed r rest :
  df_columns (table_of (HEADERS :: r :: rest)) = HEADERS.
Proof.
  unfold table_of, pd_DataFrame. cbn [df_columns].
  change (get_all_records (HEADERS :: r :: rest))
    with (record_of r :: map record_of rest).
  cbn [fold_left]. rewrite keys_of_record.
  change (fold_left add_label HEADERS []) with HEADERS.
  apply columns_stay_headers.
Qed.

(** *** Writing inside a list *)

Lemma set_nth_Forall {A} (P : A -> Prop) d k x l :
  k < length l -> Forall P l -> P x -> Forall P (set_nth d k x l).
Proof.
  revert l. induction k as [|k IH]; intros [|h t] Hk Hl Hx; simpl in *;
    try lia; inversion Hl; subst; constructor; auto.
  apply IH; [lia | assumption | assumption].
Qed.

Lemma nth_error_set_nth {A} (d x : A) k l i :
  k < length l ->
  nth_error (set_nth d k x l) i = if i =? k then Some x else nth_error l i.
Proof.
  revert l i. induction k as [|k IH]; intros [|h t] [|i] Hk; simpl in *;
    try lia; try reflexivity.
  apply IH. lia.
Qed.

Lemma update_cell_headed rest k j v :
  update_cell (S k + 1) (j + 1) v (HEADERS :: rest) =
    HEADERS :: set_nth [] k (set_nth "" j v (nth k rest [])) rest.
Proof.
  unfold update_cell. rewrite !Nat.add_1_r. reflexivity.
Qed.

(** *** The relation every piece of the script keeps to *)

Section Lifecycle.

Variable P : Prop.

Lemma ack_moves_refl a : ack_moves a a.
Proof. now left. Qed.

Lemma ack_moves_trans a b c : ack_moves a b -> ack_moves b c -> ack_moves a c.
Proof.
  unfold ack_moves. intros [->|(-> & ->)] [->|(E & ->)]; auto;
    try discriminate.
Qed.

Lemma acks_move_refl g : acks_move g g.
Proof. intros i a H. exists a. split; [exact H | apply ack_moves_refl]. Qed.

Lemma acks_move_trans g1 g2 g3 :
  acks_move g1 g2 -> acks_move g2 g3 -> acks_move g1 g3.
Proof.
  intros H12 H23 i a Ha.
  destruct (H12 _ _ Ha) as (b & Hb & Hab).
  destruct (H23 _ _ Hb) as (c & Hc & Hbc).
  exists c. split; [exact Hc | eapply ack_moves_trans; eassumption].
Qed.

Lemma keeps_refl w : keeps_if P w w.
Proof.
  split; [intros rid v b H; now left|].
  intros _ H. split; [exact H | apply acks_move_refl].
Qed.

Lemma keeps_trans w1 w2 w3 : 
  keeps_if P w1 w2 -> keeps_if P w2 w3 -> keeps_if P w1 w3.
Proof.
  intros (Hy12 & Hk12) (Hy23 & Hk23). split.
  - intros rid v b H. destruct (Hy23 _ _ _ H) as [H2 | ->]; [|now right].
    exact (Hy12 _ _ _ H2).
  - intros HP Hwk. destruct (Hk12 HP Hwk) as (Hwk2 & Hm12).
    destruct (Hk23 HP Hwk2) as (Hwk3 & Hm23).
    split; [exact Hwk3 | eapply acks_move_trans; eassumption].
Qed.

Lemma keeps_ui_only w w' : ui_only w w' -> keeps_if P w w'.
Proof.
  intros (Hs & Hc & Hcalls). split.
  - intros rid v b H. left. now rewrite <- Hcalls.
  - unfold well_kept, cache_coherent. rewrite Hs, Hc. intros _ H.
    split; [exact H | apply acks_move_refl].
Qed.

Lemma respects_bind {A B} (m : M A) (k : A -> M B) :
  respects (keeps_if P) m -> (forall a, respects (keeps_if P) (k a)) ->
  respects (keeps_if P) (bind m k).
Proof.
  intros Hm Hk w out w' E. unfold bind in E.
  destruct (m w) as [o w1] eqn:Em. specialize (Hm _ _ _ Em).
  destruct o; try (injection E as <- <-; exact Hm).
  eapply keeps_trans; [exact Hm | eapply Hk; exact E].
Qed.

(** When [m] returns [a] and leaves the world alone, what follows decides. *)
Lemma respects_bind_ret {A B} (m : M A) (k : A -> M B) a :
  (forall w, m w = (Ret a, w)) -> respects (keeps_if P) (k a) ->
  respects (keeps_if P) (bind m k).
Proof.
  intros Hm Hk w out w' E. unfold bind in E. rewrite Hm in E.
  eapply Hk; exact E.
Qed.

Ltac ui_leaf :=
  let E := fresh "E" in
  intros ? ? ? E;
  unfold acknowledged_section, unacknowledged_of, acknowledged_of,
    options_of, st_dataframe_sorted, df_tolist, series_get, df_where_eq,
    iloc0, require_column, st_error, st_info, st_success, st_warning,
    st_write, st_balloons, st_rerun, st_stop, say, bind, ret, raise in E;
  repeat match type of E with
         | context [if ?b then _ else _] => destruct b
         | context [match df_rows ?x with _ => _ end] => destruct (df_rows x)
         end;
  cbv beta iota in E;
  injection E as <- <-; apply keeps_ui_only; repeat split.

Ltac walk :=
  repeat first
    [ apply respects_bind; [ | intro ]
    | match goal with
      | |- respects (keeps_if P) (if ?b then _ else _) => destruct b
      end
    | solve [ui_leaf] ].

(** *** The two writing operations *)

Lemma headed_sheet w :
  well_kept w -> exists rest, sheet w = HEADERS :: rest.
Proof.
  intros (Hhd & _). destruct (sheet w) as [|h rest]; [discriminate|].
  simpl in Hhd. subst. eauto.
Qed.

Lemma kept_unchanged w w' :
  sheet w' = sheet w -> cache w' = cache w ->
  well_kept w -> well_kept w' /\ acks_move (sheet w) (sheet w').
Proof.
  unfold well_kept, cache_coherent. intros -> ->. intros H.
  split; [exact H | apply acks_move_refl].
Qed.

Lemma index_after_label (rid : value) l i :
  rid <> COL_ID -> index rid (COL_ID :: l) = Some i ->
  exists k, i = S k /\ index rid l = Some k.
Proof.
  intros Hrid. cbn [index].
  destruct (eq_text rid COL_ID) eqn:E;
    [apply eq_text_eq in E; contradiction|].
  destruct (index rid l) as [k|]; [|discriminate].
  intros H. injection H as <-. eauto.
Qed.

Lemma update_keeps (rid : value) (col : string) v j :
  (P -> rid <> COL_ID) ->
  index col HEADERS = Some j -> j <> 0 ->
  (col = COL_ACK -> v = "Yes") -> (j = 9 -> v = "Yes") ->
  respects (keeps_if P) (update_cell_by_referral_id rid col v).
Proof.
  intros Hrid Hj Hj0 Hcol Hj9 w out w' E.
  destruct (update_spec rid col v w) as (b & w1 & E1 & Hcalls & _ & _ & Hcases).
  rewrite E in E1. injection E1 as -> ->. split.
  - intros rid' v' b' Hin. rewrite Hcalls in Hin.
    apply in_app_or in Hin. destruct Hin as [H|[H|[]]]; [now left|].
    right. injection H as _ Hc <- _. now apply Hcol.
  - intros HP Hwk. specialize (Hrid HP).
    destruct Hcases as [(_ & Hs & Hc) | (_ & Hc & i & j' & Ei & Ej & Hs)].
    + now apply kept_unchanged.
    + destruct (headed_sheet Hwk) as (rest & Eg).
      destruct Hwk as (_ & Hrows & _). rewrite Eg in *.
      cbn [tl] in Hrows.
      change (row_values 1 (HEADERS :: rest)) with HEADERS in Ej.
      assert (j' = j) by congruence. subst j'.
      change (col_values 1 (HEADERS :: rest))
        with (COL_ID :: map id_cell rest) in Ei.
      destruct (index_after_label _ Hrid Ei) as (k & -> & Ek).
      destruct (index_text _ _ Ek) as (s & ->).
      destruct (index_first _ _ Ek) as (Hk & _ & _).
      rewrite length_map in Hk.
      rewrite update_cell_headed in Hs.
      set (r := nth k rest []) in *.
      assert (Hr : nth_error rest k = Some r)
        by (now apply nth_error_nth').
      assert (Hrin : In r rest) by (eapply nth_error_In; exact Hr).
      rewrite Forall_forall in Hrows.
      destruct (Hrows _ Hrin) as (Hid & Hack).
      assert (Hid' : id_cell (set_nth "" j v r) = id_cell r).
      { unfold id_cell. apply nth_set_nth_other. congruence. }
      assert (Hack' : ack_cell (set_nth "" j v r) = ack_cell r
                      \/ (j = 9 /\ ack_cell (set_nth "" j v r) = "Yes")).
      { unfold ack_cell. destruct (Nat.eq_dec j 9) as [->|Hne].
        - right. split; [reflexivity|]. rewrite nth_set_nth_same.
          now apply Hj9.
        - left. apply nth_set_nth_other. congruence. }
      split.
      * unfold well_kept, cache_coherent. rewrite Hs, Hc. cbn [hd tl].
        split; [reflexivity|]. split; [|exact I].
        apply set_nth_Forall; [exact Hk | now apply Forall_forall |].
        rewrite Hid'. split; [exact Hid|].
        destruct Hack' as [-> | (_ & ->)]; [exact Hack | now right].
      * intros n a. rewrite Hs, !ack_of_headed.
        rewrite nth_error_set_nth by exact Hk.
        destruct (Nat.eqb_spec n k) as [->|Hn]; [|intros H; eauto using ack_moves_refl].
        rewrite Hr. cbn [option_map]. intros H. injection H as <-.
        eexists. split; [reflexivity|].
        destruct Hack' as [-> | (_ & ->)]; [apply ack_moves_refl|].
        destruct Hack as [-> | ->]; [now right | now left].
Qed.

Lemma append_keeps row_data :
  id_cell row_data <> COL_ID -> ack_cell row_data = "No" ->
  respects (keeps_if P) (append_data row_data).
Proof.
  intros Hid Hack w out w' E.
  destruct (append_spec row_data w)
    as (b & w1 & E1 & Hcalls & _ & _ & Hcases & _).
  rewrite E in E1. injection E1 as -> ->. split.
  - intros rid' v' b' Hin. rewrite Hcalls in Hin.
    apply in_app_or in Hin. destruct Hin as [H|[H|[]]]; [now left|].
    discriminate.
  - intros _ Hwk. destruct Hcases as [(_ & Hs & Hc) | (_ & Hc & Hs)].
    + now apply kept_unchanged.
    + destruct (headed_sheet Hwk) as (rest & Eg).
      destruct Hwk as (_ & Hrows & _). rewrite Eg in *.
      cbn [tl] in Hrows. unfold append_row in Hs. rewrite <- app_comm_cons in Hs.
      split.
      * unfold well_kept, cache_coherent. rewrite Hs, Hc. cbn [hd tl].
        split; [reflexivity|]. split; [|exact I].
        apply Forall_app. split; [exact Hrows|].
        constructor; [|constructor]. split; [exact Hid | now left].
      * intros n a. rewrite Hs, !ack_of_headed.
        destruct (nth_error rest n) as [r|] eqn:En; [|discriminate].
        rewrite (nth_error_app1 rest [row_data])
          by (apply nth_error_Some; congruence).
        rewrite En. intros H. exists a. split; [exact H | apply ack_moves_refl].
Qed.

(** *** The two forms *)

Lemma acknowledge_form_keeps (rid : value) name inp :
  (P -> rid <> COL_ID) -> respects (keeps_if P) (acknowledge_form rid name inp).
Proof.
  intros Hrid. unfold acknowledge_form.
  destruct (ack_submitted inp); [|ui_leaf].
  destruct (negb _); [ui_leaf|].
  apply respects_bind;
    [apply (@update_keeps rid COL_ACK "Yes" 9); auto; discriminate | intro].
  apply respects_bind;
    [apply (@update_keeps rid COL_PRESENTATION _ 10); auto; discriminate | intro].
  apply respects_bind;
    [apply (@update_keeps rid COL_ACK_BY _ 11); auto; discriminate | intro].
  apply respects_bind;
    [apply (@update_keeps rid COL_NOTES _ 12); auto; discriminate | intro].
  walk.
Qed.

Lemma phc_referral_form_keeps env inp :
  String.length (uuid4 env) = 36 ->
  respects (keeps_if P) (phc_referral_form env inp).
Proof.
  intros Huuid. unfold phc_referral_form. cbv zeta.
  apply respects_bind; [ui_leaf | intros _].
  destruct (submitted inp); [|ui_leaf].
  destruct (negb _); [ui_leaf|].
  assert (Happend : forall dob_text,
             respects (keeps_if P) (append_data (row_data_of env inp dob_text))).
  { intros dob_text. apply append_keeps; [|reflexivity].
    cbn [row_data_of id_cell nth]. intros Heq. rewrite Heq in Huuid.
    discriminate. }
  apply respects_bind; [destruct (patient_dob inp); ui_leaf | intros dob_text].
  apply respects_bind; [apply Happend | intros ok]. walk.
Qed.

Lemma nth_default_or_In {A} (l : list A) n d : nth n l d = d \/ In (nth n l d) l.
Proof.
  destruct (Nat.lt_ge_cases n (length l)) as [H|H].
  - right. now apply nth_In.
  - left. now apply nth_overflow.
Qed.

Lemma pending_section_keeps df inp :
  (P -> forall r, In r (df_rows df) -> cell_value COL_ID (snd r) <> COL_ID) ->
  respects (keeps_if P) (pending_section df inp).
Proof.
  intros Hids. unfold pending_section.
  destruct (df_empty df); [ui_leaf|].
  apply respects_bind; [ui_leaf | intros _].
  destruct (contains COL_ID (df_columns df)) eqn:Ecol.
  - apply respects_bind_ret
      with (a := VStr PLACEHOLDER
                   :: map (fun r => cell_value COL_ID (snd r)) (df_rows df)).
    { intros w. unfold options_of, df_tolist, require_column, bind, ret.
      rewrite Ecol. reflexivity. }
    cbv zeta.
    set (rid := nth (referral_choice inp) _ (VStr PLACEHOLDER)).
    destruct (eq_text rid PLACEHOLDER) eqn:Hsel; cbn [negb];
      [ui_leaf|].
    assert (Hrid : P -> rid <> COL_ID).
    { intros HP. specialize (Hids HP). destruct (nth_default_or_In
                  (VStr PLACEHOLDER
                     :: map (fun r => cell_value COL_ID (snd r)) (df_rows df))
                  (referral_choice inp) (VStr PLACEHOLDER)) as [H|[H|H]];
        fold rid in H; try (rewrite H; discriminate);
        try (rewrite <- H; discriminate).
      apply in_map_iff in H. destruct H as (r & <- & Hr). now apply Hids. }
    repeat (apply respects_bind; [ui_leaf | intro]).
    now apply acknowledge_form_keeps.
  - intros w out w' E. unfold options_of, df_tolist, require_column, bind, raise in E.
    rewrite Ecol in E. cbv beta iota in E.
    assert (w' = w) by congruence. subst w'. apply keeps_refl.
Qed.

Lemma dashboard_body_keeps df inp :
  (P -> forall r, In r (df_rows df) -> cell_value COL_ID (snd r) <> COL_ID) ->
  respects (keeps_if P) (dashboard_body df inp).
Proof.
  intros Hids. unfold dashboard_body.
  destruct (df_empty df); [ui_leaf|].
  destruct (contains COL_ACK (df_columns df)) eqn:Ecol.
  - apply respects_bind_ret
      with (a := {| df_columns := df_columns df;
                    df_rows := mask_eq COL_ACK "No" (df_rows df) |}).
    { intros w. unfold unacknowledged_of, df_where_eq, require_column, bind, ret.
      rewrite Ecol. reflexivity. }
    apply respects_bind; [ui_leaf | intros acknowledged_df].
    apply respects_bind; [|intros _; unfold acknowledged_section; walk].
    apply pending_section_keeps. cbn [df_rows]. intros HP r Hr.
    apply mask_eq_In in Hr. now apply Hids.
  - intros w out w' E.
    unfold unacknowledged_of, df_where_eq, require_column, bind, raise in E.
    rewrite Ecol in E. cbv beta iota in E.
    assert (w' = w) by congruence. subst w'. apply keeps_refl.
Qed.

Lemma get_google_sheet_client_keeps : respects (keeps_if P) get_google_sheet_client.
Proof.
  intros w out w' E.
  unfold get_google_sheet_client, st_cache_resource, try_except, bind,
    st_error, st_info, st_stop, say in E.
  destruct (client w); [|destruct (credentials w)]; injection E as <- <-;
    apply keeps_ui_only; repeat split.
Qed.

End Lifecycle.

Lemma load_data_keeps w out w1 :
  load_data w = (out, w1) ->
  keeps_if (well_kept w) w w1
  /\ (well_kept w -> forall df, out = Ret df -> df = table_of (sheet w)).
Proof.
  intros E.
  destruct (load_data_spec w) as (o & w2 & El & Hs & Hcalls & _ & _ & Hcases).
  rewrite E in El. injection El as <- <-. split; [split|].
  - intros rid v b H. left. now rewrite <- Hcalls.
  - intros _ Hwk. split; [|rewrite Hs; apply acks_move_refl].
    destruct Hwk as (Hhd & Hrows & Hcoh).
    unfold well_kept, cache_coherent. rewrite Hs.
    split; [exact Hhd|]. split; [exact Hrows|].
    destruct Hcases as [(_ & Hc) | [(_ & Hc) | (t & df & _ & _ & _ & ->)]].
    + rewrite Hc. exact Hcoh.
    + rewrite Hc. reflexivity.
    + exact Hcoh.
  - intros (_ & _ & Hcoh) df Hout.
    destruct Hcases as [(Ho & _) | [(Ho & _) | (t & df' & Hc & _ & Ho & _)]];
      rewrite Ho in Hout; try discriminate; injection Hout as <-;
      [reflexivity|].
    unfold cache_coherent in Hcoh. rewrite Hc in Hcoh. exact Hcoh.
Qed.

Lemma keeps_if_trans P w1 w2 w3 :
  keeps_if P w1 w2 -> keeps_if P w2 w3 -> keeps_if P w1 w3.
Proof. apply keeps_trans. Qed.

Lemma table_ids_not_label w df :
  well_kept w -> df = table_of (sheet w) ->
  forall r, In r (df_rows df) -> cell_value COL_ID (snd r) <> COL_ID.
Proof.
  intros Hwk -> r Hr. destruct (headed_sheet Hwk) as (rest & Eg).
  destruct Hwk as (_ & Hrows & _). rewrite Eg in *. cbn [tl] in Hrows.
  destruct (table_rows_headed _ _ Hr) as (x & Hx & ->).
  rewrite record_id. rewrite Forall_forall in Hrows.
  destruct (Hrows _ Hx) as (Hid & _). intros H.
  apply numericise_text in H. congruence.
Qed.

Lemma gbagada_dashboard_keeps inp w out w' :
  gbagada_dashboard inp w = (out, w') -> keeps_if (well_kept w) w w'.
Proof.
  intros E. unfold gbagada_dashboard, bind in E.
  destruct (load_data w) as [o w1] eqn:El.
  destruct (load_data_keeps _ El) as (Hload & Hdf).
  destruct o as [df| | |]; try (injection E as <- <-; exact Hload).
  eapply keeps_if_trans; [exact Hload|].
  eapply dashboard_body_keeps; [|exact E].
  intros Hwk. eapply table_ids_not_label; [exact Hwk | now apply Hdf].
Qed.

Lemma app_keeps env inp w :
  String.length (uuid4 env) = 36 ->
  keeps_if (well_kept w) w (snd (app env inp w)).
Proof.
  intros Huuid. unfold app, bind.
  destruct (get_google_sheet_client w) as [o w1] eqn:Eg.
  pose proof (@get_google_sheet_client_keeps (well_kept w) _ _ _ Eg) as Hg.
  destruct o as [[]| | |]; try exact Hg.
  assert (Hwk : well_kept w -> well_kept w1) by (intros H; now apply Hg).
  assert (Hrole : forall w', keeps_if (well_kept w1) w1 w' ->
                             keeps_if (well_kept w) w w').
  { intros w' (Hy & Hk). eapply keeps_if_trans; [exact Hg|].
    split; [exact Hy | intros H; apply Hk; auto]. }
  destruct (user_role inp).
  - destruct (phc_referral_form env inp w1) as [o w'] eqn:E. cbn [snd].
    apply Hrole.
    exact (@phc_referral_form_keeps (well_kept w1) env inp Huuid _ _ _ E).
  - destruct (gbagada_dashboard inp w1) as [o w'] eqn:E. cbn [snd].
    apply Hrole. exact (gbagada_dashboard_keeps _ _ E).
Qed.

Lemma step_keeps w w' :
  step w w' ->
  only_yes_written w w'
  /\ (well_kept w -> well_kept w' /\ acks_move (sheet w) (sheet w')).
Proof.
  intros [env inp w0 Huuid | t f w0].
  - destruct (@app_keeps env inp w0 Huuid) as (Hy & Hk). split; [exact Hy|].
    intros Hwk. now apply Hk.
  - split; [intros rid v b H; now left|].
    intros Hwk. split; [exact Hwk | apply acks_move_refl].
Qed.

Lemma steps_keeps w w' :
  steps w w' ->
  only_yes_written w w'
  /\ (well_kept w -> well_kept w' /\ acks_move (sheet w) (sheet w')).
Proof.
  induction 1 as [w | w1 w2 w3 _ (Hy12 & Hk12) Hstep].
  - split; [intros rid v b H; now left|].
    intros Hwk. split; [exact Hwk | apply acks_move_refl].
  - destruct (step_keeps Hstep) as (Hy23 & Hk23). split.
    + intros rid v b H. destruct (Hy23 _ _ _ H) as [H2 | ->]; [|now right].
      exact (Hy12 _ _ _ H2).
    + intros Hwk. destruct (Hk12 Hwk) as (Hwk2 & Hm12).
      destruct (Hk23 Hwk2) as (Hwk3 & Hm23).
      split; [exact Hwk3 | eapply acks_move_trans; eassumption].
Qed.

(** The select box offers the placeholder and the identifiers of records
    whose acknowledged field is "No", nothing else. *)
Lemma only_pending_offered data_df unacknowledged_df options w0 w1 w2 :
  unacknowledged_of data_df w0 = (Ret unacknowledged_df, w1) ->
  options_of unacknowledged_df w1 = (Ret options, w2) ->
  forall x, In x options ->
    x = PLACEHOLDER
    \/ exists r, In r (df_rows data_df)
         /\ dict_get COL_ACK (snd r) = Some "No"
         /\ cell_value COL_ID (snd r) = x.
Proof.
  unfold unacknowledged_of, options_of, df_tolist, df_where_eq, require_column,
    bind, ret, raise.
  destruct (contains COL_ACK (df_columns data_df)); [|discriminate].
  intros E. injection E as <- <-. cbn [df_columns df_rows].
  destruct (contains COL_ID (df_columns data_df)); [|discriminate].
  intros E. injection E as <- <-. intros x [<-|Hx]; [now left|]. right.
  apply in_map_iff in Hx. destruct Hx as (r & <- & Hr).
  apply mask_eq_In in Hr. destruct Hr as (Hr & Hack). eauto.
Qed.

(** C7: from a worksheet kept according to the contract, whatever runs of
    the script and whatever waits follow, the worksheet stays so kept, every
    record stays in the table with an acknowledged field, a field that is
    "Yes" stays "Yes", and a field that changes was "No" and becomes "Yes";
    the only text sent to the acknowledged column is "Yes", and the select
    box of the acknowledgement form offers only records whose field is
    "No". *)
Theorem acknowledged_only_moves_to_yes w w' :
  well_kept w -> steps w w' ->
  well_kept w'
  /\ (forall i a, ack_of (sheet w) i = Some a ->
                  exists b, ack_of (sheet w') i = Some b)
  /\ (forall i, ack_of (sheet w) i = Some "Yes" ->
                ack_of (sheet w') i = Some "Yes")
  /\ (forall i a b, ack_of (sheet w) i = Some a ->
                    ack_of (sheet w') i = Some b ->
                    a <> b -> a = "No" /\ b = "Yes")
  /\ (forall rid v b, In (CallUpdate rid COL_ACK v b) (calls w') ->
                      In (CallUpdate rid COL_ACK v b) (calls w) \/ v = "Yes")
  /\ (forall data_df unacknowledged_df options w0 w1 w2,
        unacknowledged_of data_df w0 = (Ret unacknowledged_df, w1) ->
        options_of unacknowledged_df w1 = (Ret options, w2) ->
        forall x, In x options ->
          x = PLACEHOLDER
          \/ exists r, In r (df_rows data_df)
               /\ dict_get COL_ACK (snd r) = Some "No"
               /\ cell_value COL_ID (snd r) = x).
Proof.
  intros Hwk Hsteps. destruct (steps_keeps Hsteps) as (Hyes & Hk).
  destruct (Hk Hwk) as (Hwk' & Hmove).
  split; [exact Hwk'|]. split; [|split; [|split; [|split]]].
  - intros i a Ha. destruct (Hmove _ _ Ha) as (b & Hb & _). eauto.
  - intros i Ha. destruct (Hmove _ _ Ha) as (b & Hb & [-> | (E & _)]);
      [exact Hb | discriminate].
  - intros i a b Ha Hb Hne. destruct (Hmove _ _ Ha) as (b' & Hb' & Hab).
    assert (b' = b) by congruence. subst b'.
    destruct Hab as [-> | Hab]; [congruence | exact Hab].
  - exact Hyes.
  - exact only_pending_offered.
Qed.

(** A table that holds its header row and nothing else is well kept. *)
Lemma new_table_well_kept f c g t u k :
  well_kept (mkWorld [HEADERS] f c g None t u k).
Proof. split; [reflexivity|]. split; [constructor | exact I]. Qed.

Lemma demo_world_well_kept : well_kept demo_world.
Proof.
  split; [reflexivity|]. split; [|exact I].
  repeat constructor; discriminate.
Defined.

Lemma acknowledged_only_moves_to_yes_witness :
  let w' := snd (app demo_env nurse_acknowledges demo_world) in
  well_kept w'
  /\ ack_of (sheet demo_world) 0 = Some "No"
  /\ ack_of (sheet w') 0 = Some "Yes"
  /\ ack_of (sheet w') 1 = Some "Yes".
Proof.
  cbv zeta.
  destruct (acknowledged_only_moves_to_yes
              (w := demo_world)
              (w' := snd (app demo_env nurse_acknowledges demo_world)))
    as (Hwk & _ & Hyes & _).
  - exact demo_world_well_kept.
  - eapply steps_next; [apply steps_refl|].
    apply step_run. reflexivity.
  - split; [exact Hwk|]. split; [reflexivity|].
    split; [vm_compute; reflexivity|].
    apply Hyes. reflexivity.
Defined.

(** ** The partition of the dashboard *)

(** C1: on every table the dashboard reads from a worksheet the system has
    kept (the contract table after any runs of the script and any waits),
    when the table has records the two masks succeed and every record is in
    exactly one of the pending and the acknowledged set: in the pending set
    exactly when its acknowledged field is "No", in the acknowledged set
    exactly when it is "Yes"; the two sets hold records of the table
    only. *)
Theorem partition_by_acknowledged w0 w data_df w1 :
  well_kept w0 -> steps w0 w ->
  load_data w = (Ret data_df, w1) ->
  df_empty data_df = false ->
  exists pending acknowledged,
    unacknowledged_of data_df w1 = (Ret pending, w1)
    /\ acknowledged_of data_df w1 = (Ret acknowledged, w1)
    /\ (forall r, In r (df_rows data_df) ->
          (In r (df_rows pending) <-> dict_get COL_ACK (snd r) = Some "No")
          /\ (In r (df_rows acknowledged)
              <-> dict_get COL_ACK (snd r) = Some "Yes")
          /\ (In r (df_rows pending) /\ ~ In r (df_rows acknowledged)
              \/ In r (df_rows acknowledged) /\ ~ In r (df_rows pending)))
    /\ (forall r, In r (df_rows pending) \/ In r (df_rows acknowledged) ->
                  In r (df_rows data_df)).
Proof.
  intros Hwk0 Hsteps Eload Hne.
  destruct (steps_keeps Hsteps) as (_ & Hk).
  destruct (Hk Hwk0) as (Hwk & _).
  destruct (load_data_keeps _ Eload) as (_ & Hdf).
  specialize (Hdf Hwk _ eq_refl). subst data_df.
  destruct (headed_sheet Hwk) as (rest & Eg).
  destruct Hwk as (_ & Hrows & _). rewrite Eg in *. cbn [tl] in Hrows.
  destruct rest as [|x0 rest]; [discriminate Hne|].
  unfold unacknowledged_of, acknowledged_of, df_where_eq, require_column, bind.
  rewrite table_columns_headed.
  change (contains COL_ACK HEADERS) with true. unfold ret.
  eexists _, _. split; [reflexivity|]. split; [reflexivity|].
  cbn [df_rows]. split.
  - intros r Hr. rewrite !mask_eq_In.
    destruct (table_rows_headed _ _ Hr) as (x & Hx & Ex).
    rewrite Forall_forall in Hrows. destruct (Hrows _ Hx) as (_ & Hack).
    rewrite Ex, record_ack.
    assert (Hn : @Some value "No" <> Some "Yes") by discriminate.
    assert (Hy : @Some value "Yes" <> Some "No") by discriminate.
    destruct Hack as [-> | ->];
      [rewrite numericise_No | rewrite numericise_Yes]; tauto.
  - intros r [H|H]; apply mask_eq_In in H; tauto.
Qed.

Lemma partition_by_acknowledged_witness :
  exists data_df w1 pending acknowledged,
    load_data demo_world = (Ret data_df, w1)
    /\ unacknowledged_of data_df w1 = (Ret pending, w1)
    /\ acknowledged_of data_df w1 = (Ret acknowledged, w1)
    /\ map fst (df_rows data_df) = [0; 1]
    /\ map fst (df_rows pending) = [0]
    /\ map fst (df_rows acknowledged) = [1].
Proof.
  assert (El : load_data demo_world =
               (Ret (table_of (sheet demo_world)), snd (load_data demo_world)))
    by (vm_compute; reflexivity).
  destruct (@partition_by_acknowledged demo_world demo_world _ _
              demo_world_well_kept (steps_refl _) El eq_refl)
    as (pending & acknowledged & Ep & Ea & _).
  exists (table_of (sheet demo_world)), (snd (load_data demo_world)),
    pending, acknowledged.
  split; [exact El|]. split; [exact Ep|]. split; [exact Ea|].
  assert (Hp : fst (unacknowledged_of (table_of (sheet demo_world))
                      (snd (load_data demo_world))) = Ret pending)
    by (rewrite Ep; reflexivity).
  assert (Ha : fst (acknowledged_of (table_of (sheet demo_world))
                      (snd (load_data demo_world))) = Ret acknowledged)
    by (rewrite Ea; reflexivity).
  vm_compute in Hp. vm_compute in Ha.
  injection Hp as <-. injection Ha as <-. repeat split.
Defined.

(** * Further properties of the script *)

(** ** Start-up and loading *)

Lemma goes_through_first_fault n w :
  goes_through n w = true <-> first_fault n (faults w) = None.
Proof.
  unfold goes_through. generalize (faults w). induction n as [|n IH];
    intros [|[e|] fs]; simpl; try tauto; try (split; discriminate).
  apply IH.
Qed.

Ltac fault_cases :=
  repeat (world_simpl; cbn [first_fault] in *;
          match goal with
          | |- context [match ?l with [] => _ | _ :: _ => _ end] =>
              is_var l; destruct l as [|[?|] ?]
          | |- context [match faults ?w with _ => _ end] =>
              is_var w; let E := fresh "Ef" in
              destruct (faults w) as [|[?|] ?] eqn:E
          | |- context [negb (contains ?x ?l)] =>
              let E := fresh "Ec" in destruct (contains x l) eqn:E; cbn [negb]
          | |- context [match index ?x ?l with _ => _ end] =>
              let E := fresh "Ei" in destruct (index x l) eqn:E
          end).

(** On a run for which no client has been made yet, unusable credentials
    make the script show the connection error and its hint and stop before
    either role does anything: no request is made, no client is kept, and
    the worksheet, the cache and the call log are untouched.  Once an
    earlier run has made the client, [st.cache_resource] hands it back and
    the credentials are not looked at again: the script goes on to the role
    that is selected. *)
Theorem bad_credentials_stop_the_app env inp w e :
  credentials w = Some e ->
  (client w = false ->
   exists w',
     app env inp w = (Stop, w')
     /\ ui w' = ui w ++ [st_error_out (msg_connect e);
                         st_info_out msg_connect_hint]
     /\ sheet w' = sheet w /\ cache w' = cache w /\ calls w' = calls w
     /\ faults w' = faults w /\ client w' = false)
  /\ (client w = true ->
      app env inp w =
        match user_role inp with
        | PrimaryHealthCare => phc_referral_form env inp w
        | GbagadaGeneralHospital => gbagada_dashboard inp w
        end).
Proof.
  intros Hc. unfold app, get_google_sheet_client, st_cache_resource,
    try_except, bind, st_error, st_info, st_stop, say.
  split; intros Hclient; rewrite Hclient;
    [|now destruct (user_role inp)]. rewrite Hc.
  eexists. split; [reflexivity|]. world_simpl.
  repeat split; [now rewrite <- app_assoc | exact Hclient].
Qed.

Lemma bad_credentials_stop_the_app_witness :
  (exists w',
     app demo_env nurse_acknowledges
       (mkWorld [HEADERS; jane_row] [] (Some (mkExn ValueError "no key"))
          false None 0 [] []) = (Stop, w')
     /\ sheet w' = [HEADERS; jane_row] /\ calls w' = [])
  /\ fst (app demo_env nurse_acknowledges
            (mkWorld [HEADERS; jane_row] []
               (Some (mkExn ValueError "no key")) true None 0 [] [])) = Rerun.
Proof.
  split.
  - destruct (@bad_credentials_stop_the_app demo_env nurse_acknowledges
                (mkWorld [HEADERS; jane_row] []
                   (Some (mkExn ValueError "no key")) false None 0 [] [])
                (mkExn ValueError "no key") eq_refl)
      as (Hfirst & _).
    destruct (Hfirst eq_refl) as (w' & E & _ & Hs & _ & Hc & _).
    exists w'. repeat split; assumption.
  - destruct (@bad_credentials_stop_the_app demo_env nurse_acknowledges
                (mkWorld [HEADERS; jane_row] []
                   (Some (mkExn ValueError "no key")) true None 0 [] [])
                (mkExn ValueError "no key") eq_refl)
      as (_ & Hcached).
    rewrite (Hcached eq_refl). reflexivity.
Defined.

Lemma load_data_body_fault w e :
  first_fault 3 (faults w) = Some e ->
  exists w',
    load_data_body w = (Stop, w')
    /\ ui w' = ui w ++ [st_error_out (load_error_message e)]
    /\ cache w' = cache w /\ sheet w' = sheet w /\ calls w' = calls w
    /\ clock w' = clock w.
Proof.
  unfold_adapter. unfold load_error_message. fault_cases;
    intros H; try discriminate; injection H as H; subst;
    match goal with
    | |- context [exn_kind_of ?x] => destruct (exn_kind_of x)
    end;
    (eexists; split; [reflexivity|]; world_simpl; repeat split).
Qed.

Lemma load_data_miss w :
  cache_misses w = true ->
  load_data w =
    match load_data_body w with
    | (Ret df, w') => (Ret df, set_cache (Some (clock w', df)) w')
    | r => r
    end.
Proof.
  unfold cache_misses, load_data, st_cache_data.
  destruct (cache w) as [[t df]|]; [|reflexivity].
  destruct (clock w <? t + TTL); [discriminate | reflexivity].
Qed.

(** When the cache has nothing to serve and one of the three requests of
    [load_data] fails, the script stops on the message that belongs to the
    exception (sheet not found, worksheet not found, or the general loading
    error); nothing is cached, and the dashboard ends there without a single
    adapter call. *)
Theorem failed_load_stops_the_dashboard inp w e :
  cache_misses w = true ->
  first_fault 3 (faults w) = Some e ->
  exists w',
    load_data w = (Stop, w')
    /\ gbagada_dashboard inp w = (Stop, w')
    /\ ui w' = ui w ++ [st_error_out (load_error_message e)]
    /\ cache w' = cache w /\ sheet w' = sheet w /\ calls w' = calls w.
Proof.
  intros Hmiss Hfault.
  destruct (load_data_body_fault w Hfault) as (w' & E & Hui & Hc & Hs & Hk & _).
  exists w'. unfold gbagada_dashboard, bind.
  rewrite (load_data_miss w Hmiss), E. repeat split; assumption.
Qed.

Lemma failed_load_stops_the_dashboard_witness :
  exists w',
    gbagada_dashboard nurse_acknowledges
      (set_faults [None; Some (mkExn WorksheetNotFound "Sheet1")] demo_world)
      = (Stop, w')
    /\ ui w' = [st_error_out msg_worksheet_not_found]
    /\ calls w' = [].
Proof.
  destruct (@failed_load_stops_the_dashboard nurse_acknowledges
              (set_faults [None; Some (mkExn WorksheetNotFound "Sheet1")]
                 demo_world)
              (mkExn WorksheetNotFound "Sheet1") eq_refl eq_refl)
    as (w' & _ & E & Hui & _ & _ & Hc).
  exists w'. repeat split; assumption.
Defined.

Lemma load_data_read w df w1 :
  cache_misses w = true ->
  load_data w = (Ret df, w1) ->
  df = table_of (sheet w) /\ sheet w1 = sheet w
  /\ cache w1 = Some (clock w, df) /\ clock w1 = clock w
  /\ calls w1 = calls w.
Proof.
  intros Hmiss E. rewrite (load_data_miss w Hmiss) in E.
  destruct (load_data_body_spec w)
    as (out & w' & Eb & Hs & _ & Hk & Hclock & _ & Hout & _).
  rewrite Eb in E. destruct Hout as [-> | ->]; [discriminate|].
  injection E as <- <-. world_simpl. rewrite Hclock. auto.
Qed.

(** Once [load_data] has read the worksheet, every load less than [TTL]
    seconds later returns that same table and leaves the world alone: no
    request is made, so neither a change made to the worksheet by someone
    else nor an unreachable service is noticed. *)
Theorem recent_read_is_served_as_it_is w df w1 t g f :
  cache_misses w = true ->
  load_data w = (Ret df, w1) ->
  t < TTL ->
  load_data (set_sheet g (later t f w1)) = (Ret df, set_sheet g (later t f w1)).
Proof.
  intros Hmiss E Ht.
  destruct (load_data_read w Hmiss E) as (_ & _ & Hc & Hclock & _).
  unfold load_data, st_cache_data. world_simpl. rewrite Hc, Hclock.
  assert (Hlt : (clock w + t <? clock w + TTL) = true)
    by (apply Nat.ltb_lt; lia).
  rewrite Hlt. reflexivity.
Qed.

Lemma recent_read_is_served_as_it_is_witness :
  fst (load_data
         (set_sheet [HEADERS]
            (later 59 [Some quota_error] (snd (load_data demo_world)))))
  = Ret (table_of [HEADERS; jane_row; john_row]).
Proof.
  rewrite (@recent_read_is_served_as_it_is demo_world
             (table_of [HEADERS; jane_row; john_row])
             (snd (load_data demo_world)) 59 [HEADERS] [Some quota_error]).
  - reflexivity.
  - reflexivity.
  - vm_compute. reflexivity.
  - unfold TTL. lia.
Defined.

(** An entry that has reached [TTL] seconds is not served: when the service
    answers, the worksheet is read again, the table of the worksheet as it
    stands is returned and stored under the present time. *)
Theorem old_entry_is_read_again w t df :
  cache w = Some (t, df) ->
  t + TTL <= clock w ->
  goes_through 3 w = true ->
  exists w',
    load_data w = (Ret (table_of (sheet w)), w')
    /\ cache w' = Some (clock w, table_of (sheet w))
    /\ sheet w' = sheet w
    /\ faults w' = skipn 3 (faults w).
Proof.
  intros Hc Hold Hgo.
  assert (Hmiss : cache_misses w = true).
  { unfold cache_misses. rewrite Hc.
    destruct (Nat.ltb_spec (clock w) (t + TTL)); [lia | reflexivity]. }
  destruct (load_data_body_spec w)
    as (out & w' & Eb & Hs & _ & _ & Hclock & _ & _ & Hthrough).
  destruct (Hthrough Hgo) as (-> & _ & Hf).
  rewrite (load_data_miss w Hmiss), Eb.
  eexists. split; [reflexivity|]. world_simpl. rewrite Hclock. auto.
Qed.

Lemma old_entry_is_read_again_witness :
  exists w',
    load_data (later 30 [] cached_world)
      = (Ret (table_of [HEADERS; john_row; jane_row]), w')
    /\ cache w' = Some (160, table_of [HEADERS; john_row; jane_row]).
Proof.
  destruct (@old_entry_is_read_again (later 30 [] cached_world) 100
              (table_of [HEADERS; john_row]))
    as (w' & E & Hc & _); [reflexivity | unfold TTL; simpl; lia | reflexivity |].
  exists w'. split; [exact E | exact Hc].
Defined.

(** ** The two writing operations, outcome by outcome *)

Lemma append_data_outcome row_data w :
  exists b w',
    append_data row_data w = (Ret b, w')
    /\ calls w' = calls w ++ [CallAppend row_data b]
    /\ match first_fault 3 (faults w) with
       | Some e =>
           b = false /\ sheet w' = sheet w /\ cache w' = cache w
           /\ ui w' = ui w ++ [st_error_out (msg_append e)]
       | None =>
           b = true /\ sheet w' = append_row row_data (sheet w)
           /\ cache w' = None /\ ui w' = ui w
       end.
Proof.
  unfold_adapter. fault_cases;
    (eexists _, _; split; [reflexivity|]; world_simpl; repeat split).
Qed.

(** [append_data] never lets an exception out and never stops the script.
    It returns [True] exactly when its three requests go through, and then
    the row is the new last row, the cache is empty and nothing is shown;
    when it returns [False] the worksheet and the cache are untouched and
    the one thing shown is the appending error with the text of the
    exception. *)
Theorem append_data_all_or_nothing row_data w :
  exists b w',
    append_data row_data w = (Ret b, w')
    /\ (b = true <-> goes_through 3 w = true)
    /\ (b = true ->
        sheet w' = append_row row_data (sheet w) /\ cache w' = None
        /\ ui w' = ui w)
    /\ (b = false ->
        sheet w' = sheet w /\ cache w' = cache w
        /\ exists e, first_fault 3 (faults w) = Some e
                     /\ ui w' = ui w ++ [st_error_out (msg_append e)]).
Proof.
  destruct (append_data_outcome row_data w) as (b & w' & E & _ & H).
  exists b, w'. split; [exact E|]. rewrite goes_through_first_fault.
  destruct (first_fault 3 (faults w)) as [e|].
  - destruct H as (-> & Hs & Hc & Hui). repeat split; try discriminate; eauto.
  - destruct H as (-> & Hs & Hc & Hui). repeat split; try discriminate; auto.
Qed.

Lemma append_data_all_or_nothing_witness :
  exists w',
    append_data jane_row (set_faults [None; None; Some quota_error] demo_world)
      = (Ret false, w')
    /\ sheet w' = sheet demo_world
    /\ ui w' = [st_error_out (msg_append quota_error)].
Proof.
  destruct (append_data_all_or_nothing jane_row
              (set_faults [None; None; Some quota_error] demo_world))
    as (b & w' & E & Hiff & _ & Hfalse).
  destruct b.
  - destruct Hiff as (Hgo & _). specialize (Hgo eq_refl). discriminate.
  - exists w'. split; [exact E|].
    destruct (Hfalse eq_refl) as (Hs & _ & e & He & Hui).
    split; [exact Hs|]. injection He as <-. exact Hui.
Defined.

Lemma update_outcome rid col v w :
  exists b w',
    update_cell_by_referral_id rid col v w = (Ret b, w')
    /\ ((b = false /\ sheet w' = sheet w /\ cache w' = cache w
         /\ exists m, ui w' = ui w ++ [st_error_out m])
        \/ (b = true /\ ui w' = ui w /\ cache w' = None
            /\ exists i j, index rid (col_values 1 (sheet w)) = Some i
                 /\ index col (row_values 1 (sheet w)) = Some j
                 /\ sheet w' = update_cell (i + 1) (j + 1) v (sheet w))).
Proof.
  unfold_adapter. fault_cases;
    try (exfalso; eapply contains_index; eassumption);
    (eexists _, _; split; [reflexivity|]; world_simpl;
     first [ left; repeat split; eexists; reflexivity
           | right; repeat split; eexists _, _; repeat split; reflexivity ]).
Qed.

(** [update_cell_by_referral_id] never lets an exception out and never
    stops the script.  When it returns [False] the worksheet and the cache
    are untouched and exactly one error is shown; when it returns [True]
    nothing is shown, the cache is empty, the id is in the first column, the
    column name is in the header row, and the worksheet differs by the one
    cell at their first positions. *)
Theorem update_is_all_or_nothing (rid : string) col v w :
  exists b w',
    update_cell_by_referral_id rid col v w = (Ret b, w')
    /\ (b = false ->
        sheet w' = sheet w /\ cache w' = cache w
        /\ exists m, ui w' = ui w ++ [st_error_out m])
    /\ (b = true ->
        ui w' = ui w /\ cache w' = None
        /\ In rid (col_values 1 (sheet w))
        /\ In col (row_values 1 (sheet w))
        /\ exists i j, index rid (col_values 1 (sheet w)) = Some i
             /\ index col (row_values 1 (sheet w)) = Some j
             /\ sheet w' = update_cell (i + 1) (j + 1) v (sheet w)).
Proof.
  destruct (update_outcome rid col v w) as (b & w' & E & H).
  exists b, w'. split; [exact E|].
  destruct H as [(-> & Hs & Hc & Hm) | (-> & Hui & Hc & i & j & Ei & Ej & Hs)].
  - split; [auto | discriminate].
  - split; [discriminate|]. intros _.
    destruct (index_first _ _ Ei) as (Hi & Hni & _).
    destruct (index_first _ _ Ej) as (Hj & Hnj & _).
    repeat split; auto.
    + rewrite <- Hni. now apply nth_In.
    + rewrite <- Hnj. now apply nth_In.
    + eauto.
Qed.

Lemma update_is_all_or_nothing_witness :
  exists w',
    update_cell_by_referral_id "def-456" COL_NOTES "Discharged" demo_world
      = (Ret true, w')
    /\ ui w' = [] /\ cache w' = None
    /\ sheet w' = update_cell 3 13 "Discharged" (sheet demo_world).
Proof.
  destruct (update_is_all_or_nothing "def-456" COL_NOTES "Discharged"
              demo_world) as (b & w' & E & _ & Htrue).
  assert (Hb : fst (update_cell_by_referral_id "def-456" COL_NOTES "Discharged"
                      demo_world) = Ret true) by (vm_compute; reflexivity).
  rewrite E in Hb. injection Hb as ->.
  destruct (Htrue eq_refl) as (Hui & Hc & _ & _ & i & j & Ei & Ej & Hs).
  injection Ei as <-. injection Ej as <-.
  exists w'. repeat split; assumption.
Defined.

(** When the id is in the first column but the column name is not in the
    header row, the call returns [False] and leaves worksheet and cache as
    they were; when the four requests before the test go through, the error
    shown is the one that says the column was not found. *)
Theorem update_unknown_column_fails rid col v w :
  In rid (col_values 1 (sheet w)) ->
  ~ In col (row_values 1 (sheet w)) ->
  exists w',
    update_cell_by_referral_id rid col v w = (Ret false, w')
    /\ sheet w' = sheet w /\ cache w' = cache w
    /\ (goes_through 4 w = true ->
        ui w' = ui w ++ [st_error_out (msg_field_not_found col)]).
Proof.
  intros Hrid Hcol. apply contains_In in Hrid. apply contains_not_In in Hcol.
  unfold_adapter. unfold goes_through.
  fault_cases; try congruence;
    try (exfalso; eapply contains_index; eassumption);
    (eexists; split; [reflexivity|]; world_simpl; repeat split;
     intros; first [discriminate | reflexivity]).
Qed.

Lemma update_unknown_column_fails_witness :
  exists w',
    update_cell_by_referral_id "abc-123" "Ward" "B2" demo_world
      = (Ret false, w')
    /\ sheet w' = sheet demo_world
    /\ ui w' = [st_error_out (msg_field_not_found "Ward")].
Proof.
  destruct (update_unknown_column_fails "abc-123" "Ward" "B2" demo_world)
    as (w' & E & Hs & _ & Hui).
  - simpl. auto.
  - simpl. intros H.
    repeat (destruct H as [H|H]; [discriminate H|]). exact H.
  - exists w'. split; [exact E|]. split; [exact Hs|]. apply Hui. reflexivity.
Defined.

(** With the id and the column both there, a fault at any of the five
    requests of the call, the write itself included, makes it return
    [False] with the updating error for that exception, and no cell is
    written. *)
Theorem failed_write_leaves_the_cell rid col v w e :
  In rid (col_values 1 (sheet w)) ->
  In col (row_values 1 (sheet w)) ->
  first_fault 5 (faults w) = Some e ->
  exists w',
    update_cell_by_referral_id rid col v w = (Ret false, w')
    /\ sheet w' = sheet w /\ cache w' = cache w
    /\ ui w' = ui w ++ [st_error_out (msg_update e)].
Proof.
  intros Hrid Hcol. apply contains_In in Hrid. apply contains_In in Hcol.
  unfold_adapter.
  fault_cases; try congruence;
    try (exfalso; eapply contains_index; [|eassumption]; eassumption);
    intros H; try discriminate; injection H as H; subst;
    (eexists; split; [reflexivity|]; world_simpl; repeat split).
Qed.

Lemma failed_write_leaves_the_cell_witness :
  exists w',
    update_cell_by_referral_id "abc-123" COL_ACK "Yes"
      (set_faults [None; None; None; None; Some quota_error] demo_world)
      = (Ret false, w')
    /\ sheet w' = sheet demo_world
    /\ ui w' = [st_error_out (msg_update quota_error)].
Proof.
  destruct (@failed_write_leaves_the_cell "abc-123" COL_ACK "Yes"
              (set_faults [None; None; None; None; Some quota_error] demo_world)
              quota_error)
    as (w' & E & Hs & _ & Hui).
  - simpl. auto.
  - simpl. auto 20.
  - reflexivity.
  - exists w'. repeat split; assumption.
Defined.

(** ** The referral form, outcome by outcome *)

Lemma valid_iff_complete inp :
  all (required_inputs inp) = true <-> complete inp.
Proof.
  unfold required_inputs, all, complete, truthy. cbn [forallb].
  rewrite !andb_true_iff, !negb_true_iff.
  repeat rewrite String.eqb_neq.
  assert (Hdob : is_some (patient_dob inp) = true <-> patient_dob inp <> None)
    by (destruct (patient_dob inp); simpl; split; congruence).
  assert (Hg : gender_text (patient_gender inp) <> "Select"
               <-> patient_gender inp <> GenderSelect)
    by (destruct (patient_gender inp); simpl; split; congruence).
  rewrite Hdob, Hg. tauto.
Qed.

Lemma snoc_differs {A} (l : list A) x : l ++ [x] <> l.
Proof.
  intros H. apply (f_equal (@length A)) in H.
  rewrite length_app in H. simpl in H. lia.
Qed.

(** The form attempts an append exactly when it was submitted with the six
    required inputs (name, date of birth, a gender other than the
    placeholder, referring centre, diagnosis, doctor); the contact number
    plays no part, and a text of blanks counts as given. *)
Theorem append_attempted_iff_complete env inp w :
  calls (snd (phc_referral_form env inp w)) <> calls w
  <-> submitted inp = true /\ complete inp.
Proof.
  rewrite <- valid_iff_complete. unfold phc_referral_form.
  unfold bind at 1. unfold st_info at 1, say at 1.
  destruct (submitted inp).
  2:{ cbn [snd ret calls show]. split; [congruence | intros (H & _); discriminate]. }
  destruct (all (required_inputs inp)) eqn:Hvalid; cbn [negb].
  2:{ unfold st_error, say. cbn [snd calls show].
      split; [congruence | intros (_ & H); discriminate]. }
  split; [auto|]. intros _.
  assert (Hdob : patient_dob inp <> None)
    by (apply valid_iff_complete in Hvalid; apply Hvalid).
  destruct (patient_dob inp) as [dob|]; [|congruence].
  destruct (append_spec (row_data_of env inp (strftime_ymd dob))
              (show (st_info_out (msg_referral_time (strftime_ymdhms (now env)))) w))
    as (ok & w1 & E & Hcalls & _).
  unfold bind, ret at 1. rewrite E.
  destruct ok; unfold st_success, st_info, st_balloons, st_error, say, bind;
    cbn [snd calls show]; rewrite Hcalls; apply snoc_differs.
Qed.

Lemma submission_runs_append env inp w dob :
  submitted inp = true -> complete inp -> patient_dob inp = Some dob ->
  phc_referral_form env inp w =
    match append_data (row_data_of env inp (strftime_ymd dob))
            (show (st_info_out (msg_referral_time (strftime_ymdhms (now env)))) w)
    with
    | (Ret true, w1) =>
        (Ret tt,
         show st_balloons_out
           (show (st_info_out (msg_your_id (uuid4 env)))
              (show (st_success_out
                       (msg_submitted (patient_name inp) (referring_phc inp)))
                    w1)))
    | (Ret false, w1) => (Ret tt, show (st_error_out msg_submit_failed) w1)
    | (Raise e, w1) => (Raise e, w1)
    | (Stop, w1) => (Stop, w1)
    | (Rerun, w1) => (Rerun, w1)
    end.
Proof.
  intros Hsub Hcomplete Hdob. apply valid_iff_complete in Hcomplete.
  unfold phc_referral_form. rewrite Hsub, Hcomplete, Hdob. cbn [negb].
  unfold bind at 1, st_info at 1, say at 1. unfold bind at 1, ret at 1.
  unfold bind at 1.
  destruct (append_data _ _) as [[[|]| | |] w1]; reflexivity.
Qed.

(** A complete submission whose three requests go through is answered with
    the success message for the patient and the centre, the generated
    referral id and balloons; the worksheet has gained the submitted row as
    its last row and the cache is empty. *)
Theorem accepted_submission_is_reported env inp w dob :
  submitted inp = true -> complete inp -> patient_dob inp = Some dob ->
  goes_through 3 w = true ->
  exists w',
    phc_referral_form env inp w = (Ret tt, w')
    /\ ui w' = ui w ++
         [st_info_out (msg_referral_time (strftime_ymdhms (now env)));
          st_success_out (msg_submitted (patient_name inp) (referring_phc inp));
          st_info_out (msg_your_id (uuid4 env));
          st_balloons_out]
    /\ sheet w' = sheet w ++ [row_data_of env inp (strftime_ymd dob)]
    /\ cache w' = None.
Proof.
  intros Hsub Hcomplete Hdob Hgo.
  rewrite (submission_runs_append env w Hsub Hcomplete Hdob).
  set (w0 := show _ w).
  destruct (append_data_outcome (row_data_of env inp (strftime_ymd dob)) w0)
    as (b & w1 & E & _ & H).
  apply goes_through_first_fault in Hgo.
  change (faults w0) with (faults w) in H. rewrite Hgo in H.
  destruct H as (-> & Hs & Hc & Hui). rewrite E.
  eexists. split; [reflexivity|]. world_simpl.
  rewrite Hui, Hs, Hc. subst w0. world_simpl.
  repeat split. now rewrite <- !app_assoc.
Qed.

Lemma accepted_submission_is_reported_witness :
  exists w',
    phc_referral_form demo_env jane_submission demo_world = (Ret tt, w')
    /\ length (sheet w') = 4 /\ length (ui w') = 4.
Proof.
  destruct (@accepted_submission_is_reported demo_env jane_submission
              demo_world (mkDate 1990 1 1))
    as (w' & E & Hui & Hs & _);
    [reflexivity | repeat split; discriminate | reflexivity | reflexivity |].
  exists w'. split; [exact E|]. rewrite Hs, Hui. split; reflexivity.
Defined.

(** A complete submission that meets a fault at one of its three requests
    is answered with the appending error for that exception followed by the
    failure message; the append was attempted once and not again, and the
    worksheet and the cache are as they were. *)
Theorem failed_submission_is_reported_once env inp w dob e :
  submitted inp = true -> complete inp -> patient_dob inp = Some dob ->
  first_fault 3 (faults w) = Some e ->
  exists w',
    phc_referral_form env inp w = (Ret tt, w')
    /\ ui w' = ui w ++
         [st_info_out (msg_referral_time (strftime_ymdhms (now env)));
          st_error_out (msg_append e);
          st_error_out msg_submit_failed]
    /\ calls w' = calls w ++
         [CallAppend (row_data_of env inp (strftime_ymd dob)) false]
    /\ sheet w' = sheet w
    /\ cache w' = cache w.
Proof.
  intros Hsub Hcomplete Hdob Hfault.
  rewrite (submission_runs_append env w Hsub Hcomplete Hdob).
  set (w0 := show _ w).
  destruct (append_data_outcome (row_data_of env inp (strftime_ymd dob)) w0)
    as (b & w1 & E & Hcalls & H).
  change (faults w0) with (faults w) in H. rewrite Hfault in H.
  destruct H as (-> & Hs & Hc & Hui). rewrite E.
  eexists. split; [reflexivity|]. world_simpl.
  rewrite Hui, Hs, Hc, Hcalls. subst w0. world_simpl.
  repeat split. now rewrite <- !app_assoc.
Qed.

Lemma failed_submission_is_reported_once_witness :
  exists w',
    phc_referral_form demo_env jane_submission
      (set_faults [Some quota_error] demo_world) = (Ret tt, w')
    /\ sheet w' = sheet demo_world
    /\ map call_result (calls w') = [false].
Proof.
  destruct (@failed_submission_is_reported_once demo_env jane_submission
              (set_faults [Some quota_error] demo_world) (mkDate 1990 1 1)
              quota_error)
    as (w' & E & _ & Hcalls & Hs & _);
    [reflexivity | repeat split; discriminate | reflexivity | reflexivity |].
  exists w'. split; [exact E|]. split; [exact Hs|]. rewrite Hcalls. reflexivity.
Defined.

(** ** The dashboard *)

Ltac ui_only_from E :=
  unfold acknowledged_section, unacknowledged_of, acknowledged_of,
    options_of, st_dataframe_sorted, df_tolist, series_get, df_where_eq,
    iloc0, require_column, st_error, st_info, st_success, st_warning,
    st_write, st_balloons, st_rerun, st_stop, say, bind, ret, raise in E;
  repeat match type of E with
         | context [if ?b then _ else _] => destruct b
         | context [match df_rows ?x with _ => _ end] => destruct (df_rows x)
         end;
  cbv beta iota in E;
  injection E as <- <-; repeat split.

Ltac ui_only_leaf :=
  let E := fresh "E" in intros ? ? ? E; ui_only_from E.

Lemma ui_only_refl w : ui_only w w.
Proof. repeat split. Qed.

Lemma ui_only_trans a b c : ui_only a b -> ui_only b c -> ui_only a c.
Proof.
  intros (H1 & H2 & H3) (H4 & H5 & H6). repeat split; congruence.
Qed.

Section Walk.

(** A relation between worlds that changes of the page alone satisfy and
    that can be extended by such changes on either side. *)
Variable R : World -> World -> Prop.
Hypothesis R_ui : forall w w', ui_only w w' -> R w w'.
Hypothesis R_pre : forall a b c, ui_only a b -> R b c -> R a c.
Hypothesis R_post : forall a b c, R a b -> ui_only b c -> R a c.

Lemma after_ui {A B} (m : M A) (k : A -> M B) :
  respects ui_only m -> (forall a, respects R (k a)) ->
  respects R (bind m k).
Proof.
  intros Hm Hk w out w' E. unfold bind in E.
  destruct (m w) as [o w1] eqn:Em. specialize (Hm _ _ _ Em).
  destruct o; try (injection E as <- <-; now apply R_ui).
  eapply R_pre; [exact Hm | eapply Hk; exact E].
Qed.

Lemma before_ui {A B} (m : M A) (k : A -> M B) :
  respects R m -> (forall a, respects ui_only (k a)) ->
  respects R (bind m k).
Proof.
  intros Hm Hk w out w' E. unfold bind in E.
  destruct (m w) as [o w1] eqn:Em. specialize (Hm _ _ _ Em).
  destruct o; try (injection E as <- <-; exact Hm).
  eapply R_post; [exact Hm | eapply Hk; exact E].
Qed.

Lemma after_ret {A B} (m : M A) (k : A -> M B) a :
  (forall w, m w = (Ret a, w)) -> respects R (k a) -> respects R (bind m k).
Proof.
  intros Hm Hk w out w' E. unfold bind in E. rewrite Hm in E.
  eapply Hk; exact E.
Qed.

Lemma pending_section_walk df inp :
  (forall name,
      selected inp (map (fun r => cell_value COL_ID (snd r)) (df_rows df))
        <> PLACEHOLDER ->
      respects R
        (acknowledge_form
           (selected inp (map (fun r => cell_value COL_ID (snd r)) (df_rows df)))
           name inp)) ->
  respects R (pending_section df inp).
Proof.
  intros Hack. unfold pending_section.
  destruct (df_empty df); [intros ? ? ? E; apply R_ui; ui_only_from E|].
  apply after_ui; [ui_only_leaf | intros _].
  destruct (contains COL_ID (df_columns df)) eqn:Ecol.
  - apply after_ret
      with (a := VStr PLACEHOLDER
                   :: map (fun r => cell_value COL_ID (snd r)) (df_rows df)).
    { intros w. unfold options_of, df_tolist, require_column, bind, ret.
      rewrite Ecol. reflexivity. }
    cbv zeta.
    fold (selected inp (map (fun r => cell_value COL_ID (snd r)) (df_rows df))).
    destruct (eq_text
                (selected inp
                   (map (fun r => cell_value COL_ID (snd r)) (df_rows df)))
                PLACEHOLDER) eqn:Hsel; cbn [negb];
      [intros ? ? ? E; apply R_ui; ui_only_from E|].
    repeat (apply after_ui; [ui_only_leaf | intro]).
    apply Hack. intros H. apply eq_text_eq in H. congruence.
  - intros w out w' E.
    unfold options_of, df_tolist, require_column, bind, raise in E.
    rewrite Ecol in E. cbv beta iota in E.
    assert (w' = w) by congruence. subst w'. apply R_ui, ui_only_refl.
Qed.

Lemma dashboard_body_walk df inp :
  (forall name,
      selected inp (pending_ids df) <> PLACEHOLDER ->
      In (selected inp (pending_ids df)) (pending_ids df) ->
      respects R (acknowledge_form (selected inp (pending_ids df)) name inp)) ->
  respects R (dashboard_body df inp).
Proof.
  intros Hack. unfold dashboard_body.
  destruct (df_empty df); [intros ? ? ? E; apply R_ui; ui_only_from E|].
  destruct (contains COL_ACK (df_columns df)) eqn:Ecol.
  - apply after_ret
      with (a := {| df_columns := df_columns df;
                    df_rows := mask_eq COL_ACK "No" (df_rows df) |}).
    { intros w. unfold unacknowledged_of, df_where_eq, require_column, bind, ret.
      rewrite Ecol. reflexivity. }
    apply after_ui; [ui_only_leaf | intros acknowledged_df].
    apply before_ui; [|intros _; ui_only_leaf].
    apply pending_section_walk. cbn [df_rows]. fold (pending_ids df).
    intros name Hsel. apply Hack; [exact Hsel|].
    unfold selected in *.
    destruct (nth_default_or_In (VStr PLACEHOLDER :: pending_ids df)
                (referral_choice inp) PLACEHOLDER) as [H|[H|H]];
      congruence || exact H.
  - intros w out w' E.
    unfold unacknowledged_of, df_where_eq, require_column, bind, raise in E.
    rewrite Ecol in E. cbv beta iota in E.
    assert (w' = w) by congruence. subst w'. apply R_ui, ui_only_refl.
Qed.

End Walk.

Lemma acknowledgement_made_ui df inp w w' :
  ui_only w w' -> acknowledgement_made df inp w w'.
Proof. intros (Hs & _ & Hc). left. split; assumption. Qed.

Lemma acknowledgement_made_pre df inp a b c :
  ui_only a b -> acknowledgement_made df inp b c ->
  acknowledgement_made df inp a c.
Proof.
  intros (Hs & _ & Hc) [(Hs' & Hc') | H].
  - left. split; congruence.
  - right. rewrite <- Hc. exact H.
Qed.

Lemma acknowledgement_made_post df inp a b c :
  acknowledgement_made df inp a b -> ui_only b c ->
  acknowledgement_made df inp a c.
Proof.
  intros [(Hs' & Hc') | H] (Hs & _ & Hc).
  - left. split; congruence.
  - right. rewrite Hc. exact H.
Qed.

Lemma acknowledge_form_made df inp name :
  selected inp (pending_ids df) <> PLACEHOLDER ->
  In (selected inp (pending_ids df)) (pending_ids df) ->
  respects (acknowledgement_made df inp)
    (acknowledge_form (selected inp (pending_ids df)) name inp).
Proof.
  intros Hsel Hin w out w' E. unfold acknowledge_form in E.
  destruct (ack_submitted inp) eqn:Hsub.
  2:{ injection E as <- <-. left. split; reflexivity. }
  destruct (truthy (time_of_presentation inp)) eqn:Ht.
  2:{ cbn in E. injection E as <- <-. left. split; reflexivity. }
  destruct (truthy (acknowledged_by inp)) eqn:Hb.
  2:{ cbn in E. injection E as <- <-. left. split; reflexivity. }
  cbn [all forallb andb negb] in E.
  four_updates (selected inp (pending_ids df)) inp w.
  unfold bind in E. rewrite E1, E2, E3, E4 in E.
  assert (Hcalls : calls w4 = calls w ++
            acknowledgement_calls (selected inp (pending_ids df)) inp
              b1 b2 b3 b4).
  { rewrite C4, C3, C2, C1. unfold acknowledgement_calls.
    now rewrite <- !app_assoc. }
  right. split; [exact Hsub|].
  split; [intros H; rewrite H in Ht; discriminate|].
  split; [intros H; rewrite H in Hb; discriminate|].
  split; [exact Hsel|]. split; [exact Hin|].
  exists b1, b2, b3, b4.
  destruct (b1 && b2 && b3 && b4);
    unfold st_success, st_error, st_rerun, say in E;
    injection E as <- <-; exact Hcalls.
Qed.

Lemma dashboard_body_made df inp :
  respects (acknowledgement_made df inp) (dashboard_body df inp).
Proof.
  apply dashboard_body_walk.
  - apply acknowledgement_made_ui.
  - apply acknowledgement_made_pre.
  - apply acknowledgement_made_post.
  - intros name. apply acknowledge_form_made.
Qed.

Lemma gbagada_dashboard_made inp w :
  quiet w (snd (gbagada_dashboard inp w))
  \/ exists df w1,
       load_data w = (Ret df, w1)
       /\ acknowledgement_made df inp w1 (snd (gbagada_dashboard inp w))
       /\ quiet w w1.
Proof.
  unfold gbagada_dashboard, bind.
  destruct (load_data_spec w) as (o & w1 & El & Hs & Hc & _).
  rewrite El. destruct o as [df| | |]; try (left; split; assumption).
  right. exists df, w1. split; [reflexivity|]. split; [|split; assumption].
  destruct (dashboard_body df inp w1) as [out w'] eqn:E.
  exact (@dashboard_body_made df inp _ _ _ E).
Qed.

Lemma dashboard_calls_helper inp w :
  calls (snd (gbagada_dashboard inp w)) = calls w
  \/ exists new,
       calls (snd (gbagada_dashboard inp w)) = calls w ++ new
       /\ Forall is_update new.
Proof.
  destruct (gbagada_dashboard_made inp w)
    as [(_ & Hc) | (df & w1 & El & Hmade & (_ & Hc1))]; [now left|].
  destruct Hmade as [(_ & Hc) | (_ & _ & _ & _ & _ & b1 & b2 & b3 & b4 & Hc)].
  - left. congruence.
  - right. eexists. split; [rewrite Hc, Hc1; reflexivity|].
    repeat constructor.
Qed.

(** Whatever the dashboard is given, its adapter calls in one run are none
    at all or the four updates of one acknowledgement, in their order, all
    for one referral id: the one the select box stands on, which is the id
    of a pending record of the table just loaded.  It never calls
    [append_data]. *)
Theorem dashboard_calls_are_one_acknowledgement inp w :
  calls (snd (gbagada_dashboard inp w)) = calls w
  \/ exists df b1 b2 b3 b4,
       fst (load_data w) = Ret df
       /\ In (selected inp (pending_ids df)) (pending_ids df)
       /\ selected inp (pending_ids df) <> PLACEHOLDER
       /\ calls (snd (gbagada_dashboard inp w)) =
            calls w ++
              acknowledgement_calls (selected inp (pending_ids df)) inp
                b1 b2 b3 b4.
Proof.
  destruct (gbagada_dashboard_made inp w)
    as [(_ & Hc) | (df & w1 & El & Hmade & (_ & Hc1))]; [now left|].
  destruct Hmade as [(_ & Hc) | (_ & _ & _ & Hsel & Hin & b1 & b2 & b3 & b4 & Hc)].
  - left. congruence.
  - right. exists df, b1, b2, b3, b4. rewrite El. repeat split; try assumption.
    rewrite Hc, Hc1. reflexivity.
Qed.

(** The dashboard leaves the worksheet and the call log alone unless the
    acknowledgement form was submitted with a time of presentation and a
    name while the select box stood on a referral: with the placeholder
    selected, the form not submitted, or one of the two texts empty, no
    adapter call is made. *)
Theorem dashboard_is_quiet_without_an_acknowledgement inp w :
  referral_choice inp = 0 \/ ack_submitted inp = false
  \/ time_of_presentation inp = "" \/ acknowledged_by inp = "" ->
  sheet (snd (gbagada_dashboard inp w)) = sheet w
  /\ calls (snd (gbagada_dashboard inp w)) = calls w.
Proof.
  intros Hno.
  destruct (gbagada_dashboard_made inp w)
    as [Hq | (df & w1 & El & Hmade & (Hs1 & Hc1))]; [exact Hq|].
  destruct Hmade as [(Hs & Hc) | (Hsub & Ht & Hb & Hsel & _)].
  - split; congruence.
  - exfalso. destruct Hno as [H0 | [H | [H | H]]]; try congruence.
    apply Hsel. unfold selected. rewrite H0. reflexivity.
Qed.

Lemma dashboard_is_quiet_without_an_acknowledgement_witness :
  sheet (snd (gbagada_dashboard
                (mkInputs GbagadaGeneralHospital "" None GenderSelect "" "" ""
                   "" false 1 "2024-01-01 10:00:00" "" "" true)
                demo_world)) = sheet demo_world.
Proof.
  apply (@dashboard_is_quiet_without_an_acknowledgement
           (mkInputs GbagadaGeneralHospital "" None GenderSelect "" "" ""
              "" false 1 "2024-01-01 10:00:00" "" "" true) demo_world).
  right. right. right. reflexivity.
Defined.

(** A run in the primary health care role makes at most one adapter call,
    an append, and never an update; a run in the hospital role makes only
    update calls. *)
Theorem each_role_keeps_to_its_operation env inp w :
  exists new,
    calls (snd (app env inp w)) = calls w ++ new
    /\ (user_role inp = PrimaryHealthCare ->
        new = [] \/ exists row_data b, new = [CallAppend row_data b])
    /\ (user_role inp = GbagadaGeneralHospital -> Forall is_update new).
Proof.
  unfold app, bind.
  destruct (get_google_sheet_client w) as [o w0] eqn:Eg.
  assert (Hc0 : calls w0 = calls w).
  { unfold get_google_sheet_client, st_cache_resource, try_except, bind,
      st_error, st_info, st_stop, say in Eg.
    destruct (client w); [|destruct (credentials w)];
      injection Eg as <- <-; reflexivity. }
  destruct o as [[]| | |];
    try (exists []; cbn [snd]; rewrite app_nil_r;
         split; [exact Hc0|]; split; [auto | constructor]).
  rewrite <- Hc0. clear Eg Hc0 w. rename w0 into w.
  destruct (user_role inp).
  - assert (H : calls (snd (phc_referral_form env inp w)) = calls w
                \/ exists row_data b,
                     calls (snd (phc_referral_form env inp w)) =
                       calls w ++ [CallAppend row_data b]).
    { destruct (submitted inp) eqn:Hsub.
      2:{ left. unfold phc_referral_form. rewrite Hsub. reflexivity. }
      destruct (all (required_inputs inp)) eqn:Hvalid.
      2:{ left. unfold phc_referral_form. rewrite Hsub, Hvalid. reflexivity. }
      apply valid_iff_complete in Hvalid.
      destruct (patient_dob inp) as [dob|] eqn:Hdob;
        [|exfalso; destruct Hvalid as (_ & Hd & _); exact (Hd Hdob)].
      rewrite (submission_runs_append env w Hsub Hvalid Hdob).
      destruct (append_spec (row_data_of env inp (strftime_ymd dob))
                  (show (st_info_out (msg_referral_time
                                        (strftime_ymdhms (now env)))) w))
        as (ok & w1 & E & Hcalls & _).
      rewrite E. right.
      exists (row_data_of env inp (strftime_ymd dob)), ok.
      destruct ok; exact Hcalls. }
    destruct H as [H | (row_data & b & H)].
    + exists []. rewrite app_nil_r. split; [exact H|]. split; [auto | discriminate].
    + exists [CallAppend row_data b]. split; [exact H|].
      split; [eauto | discriminate].
  - destruct (dashboard_calls_helper inp w) as [H | (new & H & Hall)].
    + exists []. rewrite app_nil_r. split; [exact H|].
      split; [discriminate | constructor].
    + exists new. split; [exact H|]. split; [discriminate | auto].
Qed.

Lemma each_role_keeps_to_its_operation_witness :
  exists new,
    calls (snd (app demo_env jane_submission demo_world)) =
      calls demo_world ++ new
    /\ (new = [] \/ exists row_data b, new = [CallAppend row_data b]).
Proof.
  destruct (each_role_keeps_to_its_operation demo_env jane_submission
              demo_world) as (new & E & Hphc & _).
  exists new. split; [exact E | apply Hphc; reflexivity].
Defined.

(** With no record in the worksheet (nothing at all, or the header row
    alone) the dashboard says that no referrals were found and does nothing
    else, whatever the form holds. *)
Theorem empty_table_shows_no_referrals inp w :
  cache_misses w = true ->
  goes_through 3 w = true ->
  length (sheet w) <= 1 ->
  exists w',
    gbagada_dashboard inp w = (Ret tt, w')
    /\ ui w' = ui w ++ [st_info_out "ℹ️ No referrals found yet."]
    /\ sheet w' = sheet w /\ calls w' = calls w.
Proof.
  intros Hmiss Hgo Hlen.
  destruct (load_data_body_spec w)
    as (out & w1 & Eb & Hs & _ & Hk & _ & _ & _ & Hthrough).
  destruct (Hthrough Hgo) as (-> & Hui & _).
  unfold gbagada_dashboard, bind. rewrite (load_data_miss w Hmiss), Eb.
  assert (Hempty : table_of (sheet w) = pd_DataFrame []).
  { destruct (sheet w) as [|h [|r rest]]; try reflexivity. simpl in Hlen. lia. }
  rewrite Hempty. unfold dashboard_body. cbn [df_empty pd_DataFrame df_columns
    fold_left]. unfold st_info, say.
  eexists. split; [reflexivity|]. world_simpl. rewrite Hui, Hs, Hk. auto.
Qed.

Lemma empty_table_shows_no_referrals_witness :
  exists w',
    gbagada_dashboard nurse_acknowledges (world_of [HEADERS]) = (Ret tt, w')
    /\ ui w' = [st_info_out "ℹ️ No referrals found yet."]
    /\ calls w' = [].
Proof.
  destruct (@empty_table_shows_no_referrals nurse_acknowledges
              (world_of [HEADERS])) as (w' & E & Hui & _ & Hc);
    [reflexivity | reflexivity | simpl; lia |].
  exists w'. repeat split; assumption.
Defined.

(** A table that has records but no "Gbagada Acknowledged" column makes the
    dashboard end in a [KeyError] for that label before anything is shown
    or written. *)
Theorem dashboard_needs_the_acknowledged_column df inp w :
  df_empty df = false ->
  ~ In COL_ACK (df_columns df) ->
  dashboard_body df inp w = (Raise (mkExn KeyError "'Gbagada Acknowledged'"), w).
Proof.
  intros Hne Hcol. apply contains_not_In in Hcol.
  unfold dashboard_body. rewrite Hne.
  unfold unacknowledged_of, df_where_eq, require_column, bind, raise.
  rewrite Hcol. reflexivity.
Qed.

Lemma dashboard_needs_the_acknowledged_column_witness :
  fst (gbagada_dashboard nurse_acknowledges
         (world_of [["Referral ID"; "Patient Name"]; ["abc-123"; "Jane Doe"]]))
  = Raise (mkExn KeyError "'Gbagada Acknowledged'").
Proof.
  unfold gbagada_dashboard, bind.
  assert (El : load_data
                 (world_of [["Referral ID"; "Patient Name"];
                            ["abc-123"; "Jane Doe"]]) =
               (Ret (table_of [["Referral ID"; "Patient Name"];
                               ["abc-123"; "Jane Doe"]]),
                snd (load_data
                       (world_of [["Referral ID"; "Patient Name"];
                                  ["abc-123"; "Jane Doe"]]))))
    by (vm_compute; reflexivity).
  rewrite El.
  rewrite dashboard_needs_the_acknowledged_column; [reflexivity | reflexivity |].
  vm_compute. intros [H|[H|[]]]; discriminate.
Defined.

(** ** An acknowledgement that goes through *)

Lemma index_Some_In (x : string) l i : index x l = Some i -> In x l.
Proof.
  intros H. destruct (index_first _ _ H) as (Hlt & Hn & _).
  rewrite <- Hn. now apply nth_In.
Qed.

Lemma goes_through_split a b w :
  goes_through (a + b) w = true ->
  goes_through a w = true
  /\ forall w', faults w' = skipn a (faults w) -> goes_through b w' = true.
Proof.
  unfold goes_through. generalize (faults w) as fs.
  induction a as [|a IH]; intros fs H.
  - split; [reflexivity|]. intros w' ->. exact H.
  - destruct fs as [|f fs].
    + split; [reflexivity|]. intros w' ->. now destruct b.
    + cbn [Nat.add firstn forallb] in *. apply andb_true_iff in H.
      destruct H as (Hf & H). destruct (IH _ H) as (Ha & Hb).
      rewrite Hf, Ha. split; [reflexivity|]. exact Hb.
Qed.

Lemma set_nth_twice {A} (d x y : A) k l :
  set_nth d k x (set_nth d k y l) = set_nth d k x l.
Proof.
  revert l. induction k as [|k IH]; intros [|h t]; simpl; try reflexivity;
    now rewrite IH.
Qed.

Lemma map_set_nth_same {A B} (f : A -> B) d k x l :
  k < length l -> f x = f (nth k l d) ->
  map f (set_nth d k x l) = map f l.
Proof.
  revert l. induction k as [|k IH]; intros [|h t] Hk Hx; simpl in *; try lia.
  - now rewrite Hx.
  - f_equal. apply IH; [lia | exact Hx].
Qed.

(** One update of a cell of the record under [rid], when nothing fails. *)
Lemma update_in_record (rid col v : string) j k n rest w :
  sheet w = HEADERS :: rest ->
  rid <> COL_ID ->
  index rid (map id_cell rest) = Some k ->
  index col HEADERS = Some j -> j <> 0 ->
  goes_through (5 + n) w = true ->
  exists w',
    update_cell_by_referral_id rid col v w = (Ret true, w')
    /\ sheet w' =
         HEADERS :: set_nth [] k (set_nth "" j v (nth k rest [])) rest
    /\ index rid (map id_cell (set_nth [] k (set_nth "" j v (nth k rest [])) rest))
         = Some k
    /\ cache w' = None /\ ui w' = ui w
    /\ goes_through n w' = true.
Proof.
  intros Hsheet Hrid Hk Hj Hj0 Hgo.
  destruct (goes_through_split 5 n w Hgo) as (Hgo5 & Hrest).
  assert (Hids : index rid (col_values 1 (sheet w)) = Some (S k)).
  { rewrite Hsheet.
    change (col_values 1 (HEADERS :: rest)) with (COL_ID :: map id_cell rest).
    cbn [index eq_text].
    destruct (String.eqb_spec rid COL_ID); [contradiction|].
    now rewrite Hk. }
  assert (Hhdr : index col (row_values 1 (sheet w)) = Some j)
    by (rewrite Hsheet; exact Hj).
  assert (Hc1 : contains rid (col_values 1 (sheet w)) = true)
    by (apply contains_In; eapply index_Some_In; exact Hids).
  assert (Hc2 : contains col (row_values 1 (sheet w)) = true)
    by (apply contains_In; eapply index_Some_In; exact Hhdr).
  assert (Hlen : k < length rest).
  { destruct (index_first _ _ Hk) as (H & _). now rewrite length_map in H. }
  assert (Hrun : exists w',
             update_cell_by_referral_id rid col v w = (Ret true, w')
             /\ sheet w' = update_cell (S k + 1) (j + 1) v (sheet w)
             /\ cache w' = None /\ ui w' = ui w
             /\ faults w' = skipn 5 (faults w)).
  { clear Hrest Hgo. revert Hgo5. unfold_adapter. unfold goes_through.
    fault_cases; intros Hgo5; try discriminate; try congruence;
      repeat match goal with
             | H : Some _ = Some _ |- _ => injection H as H; subst
             end;
      (eexists; split; [reflexivity|]; world_simpl; repeat split). }
  destruct Hrun as (w' & E & Hs & Hc & Hui & Hf).
  exists w'. split; [exact E|].
  rewrite Hsheet, update_cell_headed in Hs.
  split; [exact Hs|]. split.
  - rewrite map_set_nth_same; [exact Hk | exact Hlen |].
    unfold id_cell. apply nth_set_nth_other. congruence.
  - split; [exact Hc|]. split; [exact Hui|]. now apply Hrest.
Qed.

Lemma acknowledge_form_goes_through (rid : string) name inp rest k n w :
  sheet w = HEADERS :: rest ->
  rid <> COL_ID ->
  index rid (map id_cell rest) = Some k ->
  ack_submitted inp = true ->
  time_of_presentation inp <> "" ->
  acknowledged_by inp <> "" ->
  goes_through (20 + n) w = true ->
  exists w',
    acknowledge_form rid name inp w = (Rerun, w')
    /\ sheet w' =
         HEADERS :: set_nth [] k (acknowledged_row inp (nth k rest [])) rest
    /\ index rid
         (map id_cell
            (set_nth [] k (acknowledged_row inp (nth k rest [])) rest))
       = Some k
    /\ ui w' = ui w ++ [st_success_out (msg_acknowledged name)]
    /\ cache w' = None
    /\ goes_through n w' = true.
Proof.
  intros Hsheet Hrid Hk Hsub Ht Hb Hgo.
  set (r := nth k rest []).
  destruct (@update_in_record rid COL_ACK "Yes" 9 k (15 + n) rest w)
    as (w1 & E1 & S1 & I1 & _ & U1 & G1); auto; try discriminate.
  fold r in S1, I1.
  destruct (@update_in_record rid COL_PRESENTATION (time_of_presentation inp)
              10 k (10 + n) _ w1 S1)
    as (w2 & E2 & S2 & I2 & _ & U2 & G2); auto; try discriminate.
  rewrite nth_set_nth_same, set_nth_twice in S2, I2.
  destruct (@update_in_record rid COL_ACK_BY (acknowledged_by inp)
              11 k (5 + n) _ w2 S2)
    as (w3 & E3 & S3 & I3 & _ & U3 & G3); auto; try discriminate.
  rewrite nth_set_nth_same, set_nth_twice in S3, I3.
  destruct (@update_in_record rid COL_NOTES (gbagada_notes inp)
              12 k n _ w3 S3)
    as (w4 & E4 & S4 & I4 & C4 & U4 & G4); auto; try discriminate.
  rewrite nth_set_nth_same, set_nth_twice in S4, I4.
  fold (acknowledged_row inp r) in S4, I4.
  unfold acknowledge_form. rewrite Hsub, (validation_passes _ Ht Hb).
  cbn [negb]. unfold bind. rewrite E1, E2, E3, E4. cbn [andb].
  unfold st_success, st_rerun, say.
  eexists. split; [reflexivity|]. world_simpl.
  split; [exact S4|]. split; [exact I4|]. split; [congruence|].
  split; [exact C4|]. exact G4.
Qed.

(** With the header row in place, no fault, and the text [rid] (not the
    header label) first found in data row [k], a submitted acknowledgement
    with a time and a name ends in the success message and a rerun.  The
    worksheet differs in that one row only: its tenth to thirteenth cells
    hold "Yes", the time, the name and the notes as they were typed and its
    other cells are as they were; every other row, a later row under the
    same id included, is as it was, and the cache is empty. *)
Theorem acknowledgement_writes_the_record (rid : string) name inp rest k w :
  sheet w = HEADERS :: rest ->
  rid <> COL_ID ->
  index rid (map id_cell rest) = Some k ->
  ack_submitted inp = true ->
  time_of_presentation inp <> "" ->
  acknowledged_by inp <> "" ->
  goes_through 20 w = true ->
  exists w' written,
    acknowledge_form rid name inp w = (Rerun, w')
    /\ sheet w' = HEADERS :: set_nth [] k written rest
    /\ (forall j, j < 9 \/ 12 < j ->
          nth j written "" = nth j (nth k rest []) "")
    /\ nth 9 written "" = "Yes"
    /\ nth 10 written "" = time_of_presentation inp
    /\ nth 11 written "" = acknowledged_by inp
    /\ nth 12 written "" = gbagada_notes inp
    /\ (forall i, i <> k -> nth_error (tl (sheet w')) i = nth_error rest i)
    /\ ui w' = ui w ++ [st_success_out (msg_acknowledged name)]
    /\ cache w' = None.
Proof.
  intros Hsheet Hrid Hk Hsub Ht Hb Hgo.
  assert (Hlen : k < length rest).
  { destruct (index_first _ _ Hk) as (H & _). now rewrite length_map in H. }
  destruct (@acknowledge_form_goes_through rid name inp rest k 0 w)
    as (w' & E & S4 & _ & Hui & C4 & _); auto.
  exists w', (acknowledged_row inp (nth k rest [])).
  split; [exact E|]. split; [exact S4|]. unfold acknowledged_row.
  split; [|split; [|split; [|split; [|split; [|split]]]]].
  - intros j Hj. rewrite !nth_set_nth_other by lia. reflexivity.
  - rewrite !nth_set_nth_other by discriminate. apply nth_set_nth_same.
  - rewrite !nth_set_nth_other by discriminate. apply nth_set_nth_same.
  - rewrite !nth_set_nth_other by discriminate. apply nth_set_nth_same.
  - apply nth_set_nth_same.
  - intros i Hi. rewrite S4. cbn [tl].
    rewrite nth_error_set_nth by exact Hlen.
    destruct (Nat.eqb_spec i k); [contradiction | reflexivity].
  - split; [exact Hui | exact C4].
Qed.

Lemma acknowledgement_writes_the_record_witness :
  exists w',
    acknowledge_form "abc-123" "Jane Doe" nurse_acknowledges
      (world_of [HEADERS; john_row; jane_row; jane_again_row]) = (Rerun, w')
    /\ sheet w' =
         [HEADERS; john_row;
          ["abc-123"; "Jane Doe"; "1990-01-01"; "Female"; "0800 000 0001";
           "Ojota PHC"; "2024-01-01 09:00:00"; "Fever"; "Dr Ade"; "Yes";
           "2024-01-01 10:00:00"; "Nurse A"; "Stable on arrival"];
          jane_again_row].
Proof.
  destruct (@acknowledgement_writes_the_record "abc-123" "Jane Doe"
              nurse_acknowledges [john_row; jane_row; jane_again_row] 1
              (world_of [HEADERS; john_row; jane_row; jane_again_row]))
    as (w' & written & E & Hs & _).
  - reflexivity.
  - discriminate.
  - reflexivity.
  - reflexivity.
  - discriminate.
  - discriminate.
  - reflexivity.
  - exists w'. split; [exact E|].
    assert (Hsheet : sheet (snd (acknowledge_form "abc-123" "Jane Doe"
                                   nurse_acknowledges
                                   (world_of [HEADERS; john_row; jane_row;
                                              jane_again_row]))) =
                     [HEADERS; john_row;
                      ["abc-123"; "Jane Doe"; "1990-01-01"; "Female";
                       "0800 000 0001"; "Ojota PHC"; "2024-01-01 09:00:00";
                       "Fever"; "Dr Ade"; "Yes"; "2024-01-01 10:00:00";
                       "Nurse A"; "Stable on arrival"];
                      jane_again_row]) by (vm_compute; reflexivity).
    rewrite E in Hsheet. exact Hsheet.
Defined.

Lemma length_set_nth {A} (d x : A) n l :
  length (set_nth d n x l) = Nat.max (length l) (S n).
Proof.
  revert l. induction n as [|n IH]; intros [|h t]; simpl.
  - reflexivity.
  - now rewrite Nat.max_0_r.
  - now rewrite IH.
  - now rewrite IH.
Qed.

(** ** An acknowledged record and the runs that follow *)

Section LeftAlone.

Variables (k : nat) (r : row).

Lemma leaves_row_ui w w' : ui_only w w' -> leaves_row k r w w'.
Proof. intros (Hs & _) H. unfold holds_row in *. now rewrite Hs. Qed.

Lemma leaves_row_pre a b c :
  ui_only a b -> leaves_row k r b c -> leaves_row k r a c.
Proof.
  intros (Hs & _) H Ha. apply H. unfold holds_row in *. now rewrite Hs.
Qed.

Lemma leaves_row_post a b c :
  leaves_row k r a b -> ui_only b c -> leaves_row k r a c.
Proof.
  intros H (Hs & _) Ha. specialize (H Ha). unfold holds_row in *.
  now rewrite Hs.
Qed.

Lemma leaves_row_bind {A B} (m : M A) (f : A -> M B) :
  respects (leaves_row k r) m -> (forall a, respects (leaves_row k r) (f a)) ->
  respects (leaves_row k r) (bind m f).
Proof.
  intros Hm Hf w out w' E. unfold bind in E.
  destruct (m w) as [o w1] eqn:Em. specialize (Hm _ _ _ Em).
  destruct o; try (injection E as <- <-; exact Hm).
  intros H. eapply Hf; [exact E | now apply Hm].
Qed.

Ltac row_leaf :=
  let E := fresh "E" in
  intros ? ? ? E; apply leaves_row_ui; ui_only_from E.

(** An update under another identifier than the one of row [k] writes, if
    it writes, into another row. *)
Lemma update_leaves_row (v : value) (col : string) val j :
  v <> COL_ID -> v <> VStr (id_cell r) ->
  index col HEADERS = Some j ->
  respects (leaves_row k r) (update_cell_by_referral_id v col val).
Proof.
  intros Hlabel Hother Hj w out w' E.
  destruct (update_spec v col val w) as (b & w1 & E1 & _ & _ & _ & Hcases).
  rewrite E in E1. injection E1 as -> ->.
  destruct Hcases as [(_ & Hs & _) | (_ & _ & i & j' & Ei & Ej & Hs)];
    intros (Hhd & Hrow); unfold holds_row.
  - rewrite Hs. now split.
  - destruct (sheet w) as [|h rest] eqn:Eg; [discriminate|].
    cbn [hd tl] in Hhd, Hrow. subst h.
    change (col_values 1 (HEADERS :: rest))
      with (COL_ID :: map id_cell rest) in Ei.
    destruct (index_after_label _ Hlabel Ei) as (k' & -> & Ek).
    destruct (index_text _ _ Ek) as (s & ->).
    destruct (index_first _ _ Ek) as (Hk & Hnth & _).
    rewrite length_map in Hk.
    rewrite Hs, update_cell_headed. cbn [hd tl]. split; [reflexivity|].
    rewrite nth_error_set_nth by exact Hk.
    destruct (Nat.eqb_spec k k') as [<-|Hne]; [|exact Hrow].
    exfalso. apply Hother. f_equal. rewrite <- Hnth.
    change "" with (id_cell []). rewrite map_nth.
    now rewrite (nth_error_nth _ _ _ Hrow).
Qed.

Lemma acknowledge_form_leaves_row (v : value) name inp :
  v <> COL_ID -> v <> VStr (id_cell r) ->
  respects (leaves_row k r) (acknowledge_form v name inp).
Proof.
  intros Hlabel Hother. unfold acknowledge_form.
  destruct (ack_submitted inp); [|row_leaf].
  destruct (negb _); [row_leaf|].
  apply leaves_row_bind;
    [now apply (@update_leaves_row v COL_ACK "Yes" 9) | intro].
  apply leaves_row_bind;
    [now apply (@update_leaves_row v COL_PRESENTATION _ 10) | intro].
  apply leaves_row_bind;
    [now apply (@update_leaves_row v COL_ACK_BY _ 11) | intro].
  apply leaves_row_bind;
    [now apply (@update_leaves_row v COL_NOTES _ 12) | intro].
  destruct (_ && _); row_leaf.
Qed.

Lemma dashboard_body_leaves_row df inp :
  (forall x, In x (pending_ids df) -> x <> COL_ID /\ x <> VStr (id_cell r)) ->
  respects (leaves_row k r) (dashboard_body df inp).
Proof.
  intros Hids. apply dashboard_body_walk.
  - apply leaves_row_ui.
  - apply leaves_row_pre.
  - apply leaves_row_post.
  - intros name _ Hin. destruct (Hids _ Hin).
    now apply acknowledge_form_leaves_row.
Qed.

Lemma gbagada_dashboard_leaves_row inp w :
  cache w = None ->
  (forall x, In x (pending_ids (table_of (sheet w))) ->
             x <> COL_ID /\ x <> VStr (id_cell r)) ->
  leaves_row k r w (snd (gbagada_dashboard inp w)).
Proof.
  intros Hcache Hids. unfold gbagada_dashboard, bind.
  destruct (load_data_spec w) as (o & w1 & El & Hs & _ & _ & _ & Hcases).
  rewrite El.
  assert (Hload : leaves_row k r w w1)
    by (intros H; unfold holds_row in *; now rewrite Hs).
  destruct Hcases as [(-> & _) | [(-> & _) | (t & df & Hc & _)]];
    [exact Hload | | congruence].
  destruct (dashboard_body (table_of (sheet w)) inp w1) as [o' w2] eqn:Ed.
  intros H. eapply dashboard_body_leaves_row; [exact Hids | exact Ed|].
  now apply Hload.
Qed.

Lemma append_leaves_row row_data :
  respects (leaves_row k r) (append_data row_data).
Proof.
  intros w out w' E.
  destruct (append_spec row_data w) as (b & w1 & E1 & _ & _ & _ & Hcases & _).
  rewrite E in E1. injection E1 as -> ->.
  destruct Hcases as [(_ & Hs & _) | (_ & _ & Hs)];
    intros (Hhd & Hrow); unfold holds_row; rewrite Hs; [now split|].
  destruct (sheet w) as [|h rest]; [discriminate|].
  unfold append_row. rewrite <- app_comm_cons. cbn [hd tl] in *.
  split; [exact Hhd|].
  rewrite nth_error_app1 by (apply nth_error_Some; congruence). exact Hrow.
Qed.

Lemma phc_referral_form_leaves_row env inp :
  respects (leaves_row k r) (phc_referral_form env inp).
Proof.
  unfold phc_referral_form. cbv zeta.
  apply leaves_row_bind; [row_leaf | intros _].
  destruct (submitted inp); [|row_leaf].
  destruct (negb _); [row_leaf|].
  apply leaves_row_bind; [destruct (patient_dob inp); row_leaf | intros dob_text].
  apply leaves_row_bind; [apply append_leaves_row | intros ok].
  destruct ok; repeat (apply leaves_row_bind; [row_leaf | intro]); row_leaf.
Qed.

Lemma app_leaves_row env inp w :
  cache w = None ->
  (forall x, In x (pending_ids (table_of (sheet w))) ->
             x <> COL_ID /\ x <> VStr (id_cell r)) ->
  leaves_row k r w (snd (app env inp w)).
Proof.
  intros Hcache Hids. unfold app, bind.
  destruct (get_google_sheet_client w) as [o w0] eqn:Eg.
  assert (Hui : ui_only w w0).
  { unfold get_google_sheet_client, st_cache_resource, try_except, bind,
      st_error, st_info, st_stop, say in Eg.
    destruct (client w); [|destruct (credentials w)]; injection Eg as <- <-;
      repeat split. }
  destruct o as [[]| | |]; try (now apply leaves_row_ui).
  eapply leaves_row_pre; [exact Hui|].
  destruct Hui as (Hs & Hc & _).
  destruct (user_role inp).
  - destruct (phc_referral_form env inp w0) as [o' w1] eqn:Ef.
    exact (@phc_referral_form_leaves_row env inp _ _ _ Ef).
  - apply gbagada_dashboard_leaves_row; [congruence|]. now rewrite Hs.
Qed.

End LeftAlone.

Lemma ack_cell_acknowledged inp r : ack_cell (acknowledged_row inp r) = "Yes".
Proof.
  unfold ack_cell, acknowledged_row.
  rewrite !nth_set_nth_other by discriminate. apply nth_set_nth_same.
Qed.

Lemma id_cell_acknowledged inp r :
  id_cell (acknowledged_row inp r) = id_cell r.
Proof.
  unfold id_cell, acknowledged_row. now rewrite !nth_set_nth_other by discriminate.
Qed.

(** Once an acknowledgement has gone through for an id that one record
    only carries, the record is no longer offered: whatever role, selection
    and form entries a later run of the script is given, and whatever the
    worksheet service does during it, the row stays as the acknowledgement
    wrote it.  A second nurse whose page still showed the referral as
    pending cannot overwrite the time, the name or the notes of the first. *)
Theorem acknowledged_record_is_left_alone (rid : string) name inp rest k w :
  well_kept w ->
  sheet w = HEADERS :: rest ->
  index rid (map id_cell rest) = Some k ->
  (forall i r, nth_error rest i = Some r -> id_cell r = rid -> i = k) ->
  ack_submitted inp = true ->
  time_of_presentation inp <> "" ->
  acknowledged_by inp <> "" ->
  goes_through 20 w = true ->
  exists w1,
    acknowledge_form rid name inp w = (Rerun, w1)
    /\ nth_error (tl (sheet w1)) k
       = Some (acknowledged_row inp (nth k rest []))
    /\ forall env inp' t f,
         nth_error (tl (sheet (snd (app env inp' (later t f w1))))) k
         = Some (acknowledged_row inp (nth k rest [])).
Proof.
  intros Hwk Hsheet Hk Huniq Hsub Ht Hb Hgo.
  assert (Hlen : k < length rest).
  { destruct (index_first _ _ Hk) as (H & _). now rewrite length_map in H. }
  assert (Hrk : nth_error rest k = Some (nth k rest []))
    by (now apply nth_error_nth').
  assert (Hidk : id_cell (nth k rest []) = rid).
  { destruct (index_first _ _ Hk) as (_ & H & _). rewrite <- H.
    change "" with (id_cell []). now rewrite map_nth. }
  assert (Hrows : Forall (fun r => id_cell r <> COL_ID) rest).
  { destruct Hwk as (_ & H & _). rewrite Hsheet in H. cbn [tl] in H.
    eapply Forall_impl; [|exact H]. now intros a (Ha & _). }
  assert (Hrid : rid <> COL_ID).
  { rewrite <- Hidk. rewrite Forall_forall in Hrows. apply Hrows.
    eapply nth_error_In; exact Hrk. }
  destruct (@acknowledge_form_goes_through rid name inp rest k 0 w)
    as (w1 & E & S1 & _ & _ & C1 & _); auto.
  set (written := acknowledged_row inp (nth k rest [])) in *.
  assert (Hrow1 : nth_error (tl (sheet w1)) k = Some written).
  { rewrite S1. cbn [tl]. rewrite nth_error_set_nth by exact Hlen.
    now rewrite Nat.eqb_refl. }
  exists w1. split; [exact E|]. split; [exact Hrow1|].
  intros env inp' t f.
  apply (@app_leaves_row k written env inp' (later t f w1)).
  - exact C1.
  - change (sheet (later t f w1)) with (sheet w1). rewrite S1.
    intros x Hx. unfold pending_ids in Hx. apply in_map_iff in Hx.
    destruct Hx as (row & <- & Hin). apply mask_eq_In in Hin.
    destruct Hin as (Hin & Hno).
    destruct (table_rows_headed _ _ Hin) as (c & Hc & Erow).
    rewrite Erow in *. rewrite record_ack in Hno. rewrite record_id.
    injection Hno as Hno. apply numericise_text in Hno.
    destruct (In_nth_error _ _ Hc) as (i & Hi).
    rewrite nth_error_set_nth in Hi by exact Hlen.
    destruct (Nat.eq_dec i k) as [Heq|Hne].
    + rewrite Heq, Nat.eqb_refl in Hi. injection Hi as Hi.
      rewrite <- Hi in Hno. unfold written in Hno.
      rewrite ack_cell_acknowledged in Hno. discriminate.
    + pose proof Hne as Hneb. apply Nat.eqb_neq in Hneb.
      rewrite Hneb in Hi. split; intros H; apply numericise_text in H.
      * rewrite Forall_forall in Hrows.
        apply (Hrows c); [eapply nth_error_In; exact Hi | now symmetry].
      * apply Hne. apply (Huniq i c Hi).
        unfold written in H. rewrite id_cell_acknowledged in H. congruence.
  - unfold holds_row. change (sheet (later t f w1)) with (sheet w1).
    split; [now rewrite S1 | exact Hrow1].
Qed.

Lemma acknowledged_record_is_left_alone_witness :
  exists w1,
    acknowledge_form "abc-123" "Jane Doe" nurse_acknowledges demo_world
      = (Rerun, w1)
    /\ nth_error
         (tl (sheet (snd (app demo_env nurse_corrects (later 5 [] w1))))) 0
       = Some ["abc-123"; "Jane Doe"; "1990-01-01"; "Female"; "0800 000 0001";
               "Ojota PHC"; "2024-01-01 09:00:00"; "Fever"; "Dr Ade"; "Yes";
               "2024-01-01 10:00:00"; "Nurse A"; "Stable on arrival"].
Proof.
  destruct (@acknowledged_record_is_left_alone "abc-123" "Jane Doe"
              nurse_acknowledges [jane_row; john_row] 0 demo_world)
    as (w1 & E & _ & Hlater).
  - split; [reflexivity|]. split; [|exact I].
    repeat constructor; solve [discriminate | reflexivity].
  - reflexivity.
  - reflexivity.
  - intros i r H Hid.
    destruct i as [|[|i]]; [reflexivity | | destruct i; discriminate H].
    injection H as <-. vm_compute in Hid. discriminate Hid.
  - reflexivity.
  - discriminate.
  - discriminate.
  - reflexivity.
  - exists w1. split; [exact E|].
    exact (Hlater demo_env nurse_corrects 5 []).
Defined.

(** ** From the form to the dashboard *)

Lemma pending_ids_snoc rest r :
  ack_cell r = "No" ->
  pending_ids (table_of (HEADERS :: rest ++ [r])) =
    pending_ids (table_of (HEADERS :: rest)) ++ [numericise (id_cell r)].
Proof.
  intros Hack. unfold pending_ids, table_of, pd_DataFrame. cbn [df_rows].
  change (get_all_records (HEADERS :: rest ++ [r]))
    with (map record_of (rest ++ [r])).
  change (get_all_records (HEADERS :: rest)) with (map record_of rest).
  rewrite map_app, length_app, !length_map. cbn [map length].
  rewrite Nat.add_1_r, seq_S, combine_snoc
    by (now rewrite length_seq, length_map).
  unfold mask_eq. rewrite filter_app, map_app. f_equal.
  cbn [filter snd]. rewrite record_ack, Hack.
  change (value_eqb (numericise "No") "No") with true.
  cbn [map snd]. now rewrite record_id.
Qed.

(** After a complete submission that goes through, on a worksheet with its
    header row, the next load of the dashboard has the columns of the
    header row, and the select box built from it ends with the new referral
    id: the submitted referral is pending and can be acknowledged. *)
Theorem submitted_referral_is_offered env inp w dob :
  hd [] (sheet w) = HEADERS ->
  submitted inp = true -> complete inp -> patient_dob inp = Some dob ->
  goes_through 6 w = true ->
  exists w1 df w2 unacknowledged_df earlier,
    phc_referral_form env inp w = (Ret tt, w1)
    /\ load_data w1 = (Ret df, w2)
    /\ unacknowledged_of df w2 = (Ret unacknowledged_df, w2)
    /\ options_of unacknowledged_df w2
       = (Ret (PLACEHOLDER :: earlier ++ [VStr (uuid4 env)]), w2).
Proof.
  intros Hhd Hsub Hcomplete Hdob Hgo.
  destruct (goes_through_split 3 3 w Hgo) as (Hgo3 & Hrest).
  rewrite (submission_runs_append env w Hsub Hcomplete Hdob).
  set (w0 := show _ w).
  destruct (append_spec (row_data_of env inp (strftime_ymd dob)) w0)
    as (b & wa & E & _ & _ & _ & Hcases & Hthrough).
  destruct (Hthrough Hgo3) as (-> & _ & Hf).
  destruct Hcases as [(H & _) | (_ & Hc & Hs)]; [discriminate|].
  rewrite E.
  set (w1 := show st_balloons_out _).
  assert (Hs1 : sheet w1 = sheet w ++ [row_data_of env inp (strftime_ymd dob)])
    by exact Hs.
  assert (Hmiss : cache_misses w1 = true)
    by (unfold cache_misses; change (cache w1) with (cache wa);
        now rewrite Hc).
  assert (Hgo1 : goes_through 3 w1 = true) by (apply Hrest; exact Hf).
  destruct (load_data_body_spec w1)
    as (out & w2' & Eb & _ & _ & _ & _ & _ & _ & Hthrough1).
  destruct (Hthrough1 Hgo1) as (-> & _).
  destruct (sheet w) as [|h rest] eqn:Eg; [discriminate|].
  simpl in Hhd. subst h.
  pose (df := table_of (HEADERS :: rest ++
                          [row_data_of env inp (strftime_ymd dob)])).
  assert (Hcols : df_columns df = HEADERS).
  { subst df. destruct rest as [|r rest]; apply table_columns_headed. }
  exists w1, df, (set_cache (Some (clock w2', df)) w2'),
    {| df_columns := df_columns df;
       df_rows := mask_eq COL_ACK "No" (df_rows df) |},
    (pending_ids (table_of (HEADERS :: rest))).
  split; [reflexivity|]. split.
  - rewrite (load_data_miss w1 Hmiss), Eb, Hs1. reflexivity.
  - unfold unacknowledged_of, options_of, df_tolist, df_where_eq,
      require_column, bind, ret. cbn [df_columns df_rows].
    rewrite Hcols. cbn [contains existsb HEADERS String.eqb]. split.
    + reflexivity.
    + cbv beta iota. fold (pending_ids df). subst df.
      rewrite pending_ids_snoc by reflexivity.
      change (id_cell (row_data_of env inp (strftime_ymd dob)))
        with (uuid4 env).
      now rewrite uuid4_text.
Qed.

Lemma submitted_referral_is_offered_witness :
  exists w1 df w2 unacknowledged_df earlier,
    phc_referral_form demo_env jane_submission demo_world = (Ret tt, w1)
    /\ load_data w1 = (Ret df, w2)
    /\ unacknowledged_of df w2 = (Ret unacknowledged_df, w2)
    /\ options_of unacknowledged_df w2
       = (Ret (PLACEHOLDER :: earlier
                 ++ [VStr "3f2b8c1e-5d4a-4e6f-9a7b-0c1d2e3f4a5b"]), w2).
Proof.
  apply (@submitted_referral_is_offered demo_env jane_submission demo_world
           (mkDate 1990 1 1));
    [reflexivity | reflexivity | repeat split; discriminate | reflexivity
    | reflexivity].
Defined.

(** ** What the select box offers *)

Lemma pending_mask s :
  value_eqb (numericise s) "No" = (s =? "No")%string.
Proof.
  destruct (String.eqb_spec s "No") as [->|Hne]; [reflexivity|].
  destruct (numericise s) as [t|z|t] eqn:E; try reflexivity.
  apply numericise_text in E. subst t. cbn [value_eqb].
  now apply String.eqb_neq.
Qed.

Lemma pending_rows_from s rest :
  map (fun r => cell_value COL_ID (snd r))
      (mask_eq COL_ACK "No"
         (combine (seq s (length rest)) (map record_of rest)))
  = map (fun x => numericise (id_cell x))
        (filter (fun x => (ack_cell x =? "No")%string) rest).
Proof.
  revert s. induction rest as [|r rest IH]; intros s; [reflexivity|].
  cbn [length seq map combine mask_eq filter snd].
  rewrite record_ack, pending_mask. fold (mask_eq COL_ACK "No").
  destruct (ack_cell r =? "No")%string; cbn [map snd].
  - rewrite record_id. f_equal. apply IH.
  - apply IH.
Qed.

Lemma pending_ids_headed rest :
  pending_ids (table_of (HEADERS :: rest)) =
    map (fun x => numericise (id_cell x))
        (filter (fun x => (ack_cell x =? "No")%string) rest).
Proof.
  unfold pending_ids, table_of, pd_DataFrame. cbn [df_rows].
  change (get_all_records (HEADERS :: rest)) with (map record_of rest).
  rewrite length_map. apply pending_rows_from.
Qed.

(** On a worksheet with its header row and at least one record, a load
    that reads the worksheet gives the select box the placeholder followed
    by the identifiers of the rows whose acknowledged cell is "No", in the
    order of the sheet, duplicates included; each identifier is the value
    [get_all_records] made of its cell, a number if the cell reads as
    one. *)
Theorem select_box_lists_the_pending_rows r rest w :
  sheet w = HEADERS :: r :: rest ->
  cache_misses w = true ->
  goes_through 3 w = true ->
  exists df w1 unacknowledged_df,
    load_data w = (Ret df, w1)
    /\ unacknowledged_of df w1 = (Ret unacknowledged_df, w1)
    /\ options_of unacknowledged_df w1 =
         (Ret (PLACEHOLDER ::
                 map (fun x => numericise (id_cell x))
                   (filter (fun x => (ack_cell x =? "No")%string) (r :: rest))),
          w1).
Proof.
  intros Hsheet Hmiss Hgo.
  destruct (load_data_body_spec w)
    as (out & w' & Eb & _ & _ & _ & _ & _ & _ & Hthrough).
  destruct (Hthrough Hgo) as (-> & _).
  pose (df := table_of (HEADERS :: r :: rest)).
  assert (Hcols : df_columns df = HEADERS) by apply table_columns_headed.
  exists df, (set_cache (Some (clock w', df)) w'),
    {| df_columns := df_columns df;
       df_rows := mask_eq COL_ACK "No" (df_rows df) |}.
  split.
  - rewrite (load_data_miss w Hmiss), Eb, Hsheet. reflexivity.
  - unfold unacknowledged_of, options_of, df_tolist, df_where_eq,
      require_column, bind, ret. cbn [df_columns df_rows].
    rewrite Hcols. cbn [contains existsb HEADERS String.eqb]. split.
    + reflexivity.
    + cbv beta iota. fold (pending_ids df). subst df.
      now rewrite pending_ids_headed.
Qed.

Lemma select_box_lists_the_pending_rows_witness :
  exists df w1 unacknowledged_df,
    load_data (world_of [HEADERS; jane_row; john_row; jane_again_row])
      = (Ret df, w1)
    /\ unacknowledged_of df w1 = (Ret unacknowledged_df, w1)
    /\ options_of unacknowledged_df w1 =
         (Ret [PLACEHOLDER; "abc-123"; "abc-123"], w1).
Proof.
  apply (@select_box_lists_the_pending_rows jane_row [john_row; jane_again_row]
           (world_of [HEADERS; jane_row; john_row; jane_again_row]));
    reflexivity.
Defined.

(** After an acknowledgement that went through, the referral id is offered
    again by the next select box exactly when some other row carries the
    same id with "No" in its acknowledged cell: with identifiers that are
    unique the record has left the pending list, with a duplicate the later
    record stays pending and can only send further writes to the first
    row.  The select box holds an id as [get_all_records] read it, and two
    cells stand for the same id when they are read as the same value. *)
Theorem acknowledged_id_is_offered_again_iff_duplicate
  (rid : string) name inp rest k w :
  sheet w = HEADERS :: rest ->
  rid <> COL_ID ->
  index rid (map id_cell rest) = Some k ->
  ack_submitted inp = true ->
  time_of_presentation inp <> "" ->
  acknowledged_by inp <> "" ->
  goes_through 20 w = true ->
  exists w',
    acknowledge_form rid name inp w = (Rerun, w')
    /\ (In (numericise rid) (pending_ids (table_of (sheet w')))
        <-> exists i r, i <> k /\ nth_error rest i = Some r
                        /\ numericise (id_cell r) = numericise rid
                        /\ ack_cell r = "No").
Proof.
  intros Hsheet Hrid Hk Hsub Ht Hb Hgo.
  assert (Hlen : k < length rest).
  { destruct (index_first _ _ Hk) as (H & _). now rewrite length_map in H. }
  destruct (@acknowledge_form_goes_through rid name inp rest k 0 w)
    as (w' & E & S4 & _); auto.
  exists w'. split; [exact E|].
  rewrite S4, pending_ids_headed, in_map_iff. split.
  - intros (x & Hid & Hx). apply filter_In in Hx. destruct Hx as (Hx & Hp).
    apply String.eqb_eq in Hp.
    destruct (In_nth_error _ _ Hx) as (i & Hi).
    rewrite nth_error_set_nth in Hi by exact Hlen.
    destruct (Nat.eqb_spec i k) as [Heq|Hne].
    + injection Hi as <-. rewrite ack_cell_acknowledged in Hp.
      discriminate.
    + exists i, x. auto.
  - intros (i & r & Hne & Hi & Hid & Hack).
    exists r. split; [exact Hid|]. apply filter_In. split.
    + apply (nth_error_In _ i). rewrite nth_error_set_nth by exact Hlen.
      destruct (Nat.eqb_spec i k); [contradiction | exact Hi].
    + rewrite Hack. reflexivity.
Qed.

Lemma acknowledged_id_is_offered_again_iff_duplicate_witness :
  exists w',
    acknowledge_form "abc-123" "Jane Doe" nurse_acknowledges
      (world_of [HEADERS; jane_row; john_row; jane_again_row]) = (Rerun, w')
    /\ In (VStr "abc-123") (pending_ids (table_of (sheet w'))).
Proof.
  destruct (@acknowledged_id_is_offered_again_iff_duplicate "abc-123"
              "Jane Doe" nurse_acknowledges
              [jane_row; john_row; jane_again_row] 0
              (world_of [HEADERS; jane_row; john_row; jane_again_row]))
    as (w' & E & Hiff).
  - reflexivity.
  - discriminate.
  - reflexivity.
  - reflexivity.
  - discriminate.
  - discriminate.
  - reflexivity.
  - exists w'. split; [exact E|]. apply Hiff.
    exists 2, jane_again_row. repeat split. discriminate.
Defined.

(** ** The details shown for the selected referral *)

Lemma first_match {A} (p : A -> bool) rows n r :
  nth_error rows n = Some r -> p r = true ->
  exists i d rest,
    i <= n /\ nth_error rows i = Some d /\ p d = true
    /\ (forall j x, j < i -> nth_error rows j = Some x -> p x = false)
    /\ filter p rows = d :: rest.
Proof.
  revert n. induction rows as [|a rows IH]; intros [|n] H Hp;
    cbn [nth_error] in H; try discriminate.
  - injection H as ->. exists 0, r, (filter p rows). cbn [filter nth_error].
    rewrite Hp. repeat split; auto. intros j x Hj. lia.
  - destruct (p a) eqn:Ha.
    + exists 0, a, (filter p rows). cbn [filter nth_error]. rewrite Ha.
      repeat split; auto; try lia.
    + destruct (IH n H Hp) as (i & d & rest & Hi & Hd & Hpd & Hfirst & Hf).
      exists (S i), d, rest. cbn [filter nth_error]. rewrite Ha.
      repeat split; auto; try lia.
      intros [|j] x Hj Hx; cbn [nth_error] in Hx.
      * injection Hx as <-. exact Ha.
      * apply (Hfirst j); [lia | exact Hx].
Qed.

(** When the select box stands on entry [n + 1], the id of pending record
    [n], a text, and the form is not submitted, the pending section shows
    the table (its referral times being all texts or all numbers, so that
    they can be sorted), then the name, the centre and the diagnosis of the
    first pending record that carries that id, which is record [n] itself
    only when no earlier pending record has the same id; [iloc[0]] never
    fails, and nothing is written. *)
Theorem selected_details_are_the_first_pending_match
  unacknowledged_df inp w n r (rid : string) :
  Forall (fun c : string => contains c (df_columns unacknowledged_df) = true)
         PENDING_COLUMNS ->
  sortable COL_REFERRAL_TIME unacknowledged_df = true ->
  referral_choice inp = S n ->
  nth_error (df_rows unacknowledged_df) n = Some r ->
  dict_get COL_ID (snd r) = Some rid ->
  rid <> PLACEHOLDER ->
  ack_submitted inp = false ->
  exists i d w',
    i <= n
    /\ nth_error (df_rows unacknowledged_df) i = Some d
    /\ has_id rid d = true
    /\ (forall j x, j < i ->
          nth_error (df_rows unacknowledged_df) j = Some x ->
          has_id rid x = false)
    /\ pending_section unacknowledged_df inp w = (Ret tt, w')
    /\ ui w' = ui w ++
         [st_dataframe_out COL_REFERRAL_TIME unacknowledged_df;
          st_write_out "---";
          st_write_out ("**Patient Name:** " ++ cell_text COL_NAME (snd d));
          st_write_out ("**Referring PHC:** " ++ cell_text COL_PHC (snd d));
          st_write_out ("**Diagnosis:** " ++ cell_text COL_DIAGNOSIS (snd d));
          st_write_out "---"]
    /\ sheet w' = sheet w /\ calls w' = calls w /\ cache w' = cache w.
Proof.
  intros Hcols Hsort Hchoice Hn Hid Hrid Hsub.
  unfold PENDING_COLUMNS in Hcols.
  repeat match goal with
         | H : Forall _ (_ :: _) |- _ =>
             let H1 := fresh "Hc" in
             apply Forall_cons_iff in H; destruct H as (H1 & H)
         end.
  destruct (first_match (has_id rid) _ n Hn) as (i & d & rest & Hi & Hd & Hp & Hfirst & Hf).
  { unfold has_id. rewrite Hid. apply String.eqb_refl. }
  assert (Hrid' : VStr rid <> PLACEHOLDER) by congruence.
  assert (Hne : df_empty unacknowledged_df = false).
  { unfold df_empty. destruct (df_columns unacknowledged_df);
      [discriminate|].
    destruct (df_rows unacknowledged_df); [destruct n; discriminate|].
    reflexivity. }
  assert (Hsel : nth n (map (fun r => cell_value COL_ID (snd r))
                          (df_rows unacknowledged_df)) (VStr PLACEHOLDER)
                 = VStr rid).
  { apply nth_error_nth.
    rewrite (map_nth_error _ _ _ Hn). unfold cell_value. now rewrite Hid. }
  assert (Hpl : (rid =? PLACEHOLDER)%string = false)
    by now apply String.eqb_neq.
  exists i, d.
  eexists. repeat (split; [eassumption|]).
  unfold pending_section. rewrite Hne.
  unfold st_dataframe_sorted, options_of, df_tolist, df_where_eq,
    series_get, iloc0, require_column, acknowledge_form, bind, ret, say,
    st_write.
  rewrite Hc, Hsort, Hc0, Hchoice, Hsub. cbv beta iota. cbn [nth].
  rewrite Hsel. cbn [eq_text]. rewrite Hpl. cbn [negb df_rows df_columns]. cbv beta iota.
  change (mask_eq COL_ID rid (df_rows unacknowledged_df))
    with (filter (has_id rid) (df_rows unacknowledged_df)).
  rewrite Hf, Hc1, Hc2, Hc3. cbv beta iota.
  split; [reflexivity|].
  cbn [ui sheet calls cache show]. rewrite <- !app_assoc.
  repeat split.
Qed.

Lemma selected_details_are_the_first_pending_match_witness :
  exists w',
    pending_section two_janes_pending nurse_browses demo_world = (Ret tt, w')
    /\ ui w' =
         [st_dataframe_out COL_REFERRAL_TIME two_janes_pending;
          st_write_out "---";
          st_write_out "**Patient Name:** Jane Doe";
          st_write_out "**Referring PHC:** Ojota PHC";
          st_write_out "**Diagnosis:** Fever";
          st_write_out "---"].
Proof.
  destruct (@selected_details_are_the_first_pending_match
              two_janes_pending nurse_browses demo_world 1
              (2, record_of jane_again_row) "abc-123")
    as (i & d & w' & Hi & Hd & Hp & Hfirst & E & Hui & _).
  - repeat constructor.
  - reflexivity.
  - reflexivity.
  - reflexivity.
  - reflexivity.
  - discriminate.
  - reflexivity.
  - exists w'. split; [exact E|]. rewrite Hui.
    assert (Hi0 : i = 0).
    { destruct i as [|[|i]]; [reflexivity| |lia].
      discriminate (Hfirst 0 (0, record_of jane_row) (Nat.lt_0_succ 0) eq_refl). }
    subst i. injection Hd as <-. reflexivity.
Defined.

(** ** An acknowledgement that is interrupted *)

Lemma goes_through_join a b w w' :
  goes_through a w = true ->
  faults w' = skipn a (faults w) ->
  goes_through b w' = true ->
  goes_through (a + b) w = true.
Proof.
  unfold goes_through. intros Ha -> Hb. revert Ha Hb.
  generalize (faults w) as fs.
  induction a as [|a IH]; intros fs Ha Hb; [exact Hb|].
  destruct fs as [|f fs]; [reflexivity|].
  cbn [Nat.add firstn forallb skipn] in *. apply andb_true_iff in Ha.
  destruct Ha as (Hf & Ha). rewrite Hf. cbn [andb]. now apply IH.
Qed.

Lemma set_nth_nth_id {A} (d : A) k l :
  k < length l -> set_nth d k (nth k l d) l = l.
Proof.
  revert l. induction k as [|k IH]; intros [|h t] Hk; simpl in *; try lia.
  - reflexivity.
  - f_equal. apply IH. lia.
Qed.

(** One update when the id and the column are both found: it succeeds
    exactly when its five requests go through. *)
Lemma update_found_outcome (rid col v : string) i j w :
  index rid (col_values 1 (sheet w)) = Some i ->
  index col (row_values 1 (sheet w)) = Some j ->
  exists b w' shown,
    update_cell_by_referral_id rid col v w = (Ret b, w')
    /\ b = goes_through 5 w
    /\ (b = true -> faults w' = skipn 5 (faults w))
    /\ cache w' = (if b then None else cache w)
    /\ sheet w' =
         (if b then update_cell (i + 1) (j + 1) v (sheet w) else sheet w)
    /\ ui w' = ui w ++ shown.
Proof.
  intros Hids Hhdr.
  assert (Hc1 : contains rid (col_values 1 (sheet w)) = true)
    by (apply contains_In; eapply index_Some_In; exact Hids).
  assert (Hc2 : contains col (row_values 1 (sheet w)) = true)
    by (apply contains_In; eapply index_Some_In; exact Hhdr).
  unfold_adapter. unfold goes_through.
  fault_cases; try congruence;
    repeat match goal with
           | H : Some _ = Some _ |- _ => injection H as H; subst
           end;
    (eexists _, _, _; split; [reflexivity|]; world_simpl;
     repeat split;
     first [ reflexivity
           | intros H; discriminate H
           | symmetry; apply app_nil_r ]).
Qed.

(** The same on a worksheet with its header row, for the row of [rid]. *)
Lemma update_row_outcome (rid col v : string) j k rest r w :
  sheet w = HEADERS :: set_nth [] k r rest ->
  id_cell r = id_cell (nth k rest []) ->
  rid <> COL_ID ->
  index rid (map id_cell rest) = Some k ->
  index col HEADERS = Some j -> j <> 0 ->
  exists b w' shown,
    update_cell_by_referral_id rid col v w = (Ret b, w')
    /\ b = goes_through 5 w
    /\ (b = true -> faults w' = skipn 5 (faults w))
    /\ cache w' = (if b then None else cache w)
    /\ sheet w' = HEADERS :: set_nth [] k (written b j v r) rest
    /\ id_cell (written b j v r) = id_cell (nth k rest [])
    /\ ui w' = ui w ++ shown.
Proof.
  intros Hsheet Hidr Hrid Hk Hj Hj0.
  assert (Hlen : k < length rest).
  { destruct (index_first _ _ Hk) as (H & _). now rewrite length_map in H. }
  assert (Hmap : map id_cell (set_nth [] k r rest) = map id_cell rest)
    by (apply map_set_nth_same; assumption).
  assert (Hids : index rid (col_values 1 (sheet w)) = Some (S k)).
  { rewrite Hsheet.
    change (col_values 1 (HEADERS :: set_nth [] k r rest))
      with (COL_ID :: map id_cell (set_nth [] k r rest)).
    cbn [index eq_text].
    destruct (String.eqb_spec rid COL_ID); [contradiction|].
    now rewrite Hmap, Hk. }
  assert (Hhdr : index col (row_values 1 (sheet w)) = Some j)
    by (rewrite Hsheet; exact Hj).
  destruct (update_found_outcome rid col v w Hids Hhdr)
    as (b & w' & shown & E & Hb & Hf & Hc & Hs & Hui).
  exists b, w', shown. split; [exact E|]. split; [exact Hb|].
  split; [exact Hf|]. split; [exact Hc|]. split; [|split; [|exact Hui]].
  - rewrite Hs. destruct b; cbn [written]; [|exact Hsheet].
    rewrite Hsheet, update_cell_headed, nth_set_nth_same, set_nth_twice.
    reflexivity.
  - destruct b; cbn [written]; [|exact Hidr].
    rewrite <- Hidr. unfold id_cell. apply nth_set_nth_other. congruence.
Qed.

Lemma ack_cell_partly inp b2 b3 b4 r :
  ack_cell (partly_acknowledged_row inp b2 b3 b4 r) = "Yes".
Proof.
  unfold ack_cell, partly_acknowledged_row, written.
  destruct b2, b3, b4;
    rewrite ?nth_set_nth_other by (intros H; discriminate H);
    apply nth_set_nth_same.
Qed.

(** When the first update of an acknowledgement goes through and a later
    request meets a fault, the form reports the failure and does not rerun,
    but what was written stays: the record reads "Yes" and is no longer
    pending, and of the time, the name and the notes exactly those whose
    update returned [True] are in the row, at least one of them missing. *)
Theorem interrupted_acknowledgement_is_kept_in_part
  rid name inp rest k w e :
  sheet w = HEADERS :: rest ->
  rid <> COL_ID ->
  index rid (map id_cell rest) = Some k ->
  ack_submitted inp = true ->
  time_of_presentation inp <> "" ->
  acknowledged_by inp <> "" ->
  goes_through 5 w = true ->
  first_fault 20 (faults w) = Some e ->
  exists b2 b3 b4 shown w',
    acknowledge_form rid name inp w = (Ret tt, w')
    /\ b2 && b3 && b4 = false
    /\ sheet w' =
         HEADERS ::
           set_nth [] k
             (partly_acknowledged_row inp b2 b3 b4 (nth k rest [])) rest
    /\ ack_cell (partly_acknowledged_row inp b2 b3 b4 (nth k rest [])) = "Yes"
    /\ ui w' = ui w ++ shown ++ [st_error_out msg_ack_failed]
    /\ cache w' = None.
Proof.
  intros Hsheet Hrid Hk Hsub Ht Hb Hgo Hfault.
  assert (Hlen : k < length rest).
  { destruct (index_first _ _ Hk) as (H & _). now rewrite length_map in H. }
  set (r := nth k rest []).
  assert (Hsheet0 : sheet w = HEADERS :: set_nth [] k r rest)
    by (unfold r; now rewrite set_nth_nth_id).
  destruct (@update_row_outcome rid COL_ACK "Yes" 9 k rest r w Hsheet0)
    as (b1 & w1 & s1 & E1 & B1 & F1 & C1 & S1 & I1 & U1);
    auto; try discriminate.
  rewrite Hgo in B1. subst b1. specialize (F1 eq_refl).
  destruct (@update_row_outcome rid COL_PRESENTATION
              (time_of_presentation inp) 10 k rest _ w1 S1 I1)
    as (b2 & w2 & s2 & E2 & B2 & F2 & C2 & S2 & I2 & U2);
    auto; try discriminate.
  destruct (@update_row_outcome rid COL_ACK_BY (acknowledged_by inp)
              11 k rest _ w2 S2 I2)
    as (b3 & w3 & s3 & E3 & B3 & F3 & C3 & S3 & I3 & U3);
    auto; try discriminate.
  destruct (@update_row_outcome rid COL_NOTES (gbagada_notes inp)
              12 k rest _ w3 S3 I3)
    as (b4 & w4 & s4 & E4 & B4 & F4 & C4 & S4 & I4 & U4);
    auto; try discriminate.
  assert (Hsome : b2 && b3 && b4 = false).
  { destruct b2, b3, b4; try reflexivity. exfalso.
    apply goes_through_first_fault in Hgo.
    assert (H20 : goes_through (5 + (5 + (5 + 5))) w = true).
    { apply (goes_through_join 5 _ w w1);
        [now apply goes_through_first_fault | exact F1 |].
      apply (goes_through_join 5 _ w1 w2); [now symmetry | now apply F2 |].
      apply (goes_through_join 5 _ w2 w3); [now symmetry | now apply F3 |].
      now symmetry. }
    apply goes_through_first_fault in H20. cbn [Nat.add] in H20.
    congruence. }
  exists b2, b3, b4, (s1 ++ s2 ++ s3 ++ s4),
    (show (st_error_out msg_ack_failed) w4).
  unfold acknowledge_form. rewrite Hsub, (validation_passes _ Ht Hb).
  cbn [negb]. unfold bind. rewrite E1, E2, E3, E4. cbn [andb].
  rewrite Hsome. unfold st_error, say.
  split; [reflexivity|]. split; [reflexivity|]. world_simpl.
  split; [exact S4|]. split; [apply ack_cell_partly|]. split.
  - rewrite U4, U3, U2, U1, <- !app_assoc. reflexivity.
  - rewrite C4, C3, C2, C1. now destruct b2, b3, b4.
Qed.

Lemma interrupted_acknowledgement_is_kept_in_part_witness :
  exists w',
    acknowledge_form "abc-123" "Jane Doe" nurse_acknowledges interrupted_world
      = (Ret tt, w')
    /\ nth_error (sheet w') 1 =
         Some ["abc-123"; "Jane Doe"; "1990-01-01"; "Female"; "0800 000 0001";
               "Ojota PHC"; "2024-01-01 09:00:00"; "Fever"; "Dr Ade"; "Yes";
               ""; "Nurse A"; "Stable on arrival"]
    /\ last (ui w') st_balloons_out = st_error_out msg_ack_failed.
Proof.
  destruct (@interrupted_acknowledgement_is_kept_in_part "abc-123" "Jane Doe"
              nurse_acknowledges [jane_row; john_row] 0 interrupted_world
              quota_error)
    as (b2 & b3 & b4 & shown & w' & E & _).
  - reflexivity.
  - discriminate.
  - reflexivity.
  - reflexivity.
  - discriminate.
  - discriminate.
  - reflexivity.
  - reflexivity.
  - exists w'. split; [exact E|].
    vm_compute in E. injection E as <-. split; reflexivity.
Defined.

(** ** An identifier that reads as a number *)

Lemma number_in_no_texts (v : value) l : is_number v = true -> contains v l = false.
Proof.
  intros Hnum. destruct (contains v l) eqn:E; [|reflexivity].
  destruct (contains_number _ _ E) as (s & ->). discriminate.
Qed.

Lemma update_number_fails (v : value) col val w :
  is_number v = true ->
  exists w',
    update_cell_by_referral_id v col val w = (Ret false, w')
    /\ sheet w' = sheet w /\ cache w' = cache w
    /\ calls w' = calls w ++ [CallUpdate v col val false]
    /\ (goes_through 3 w = true ->
        ui w' = ui w ++ [st_error_out (msg_record_not_found v)]
        /\ faults w' = skipn 3 (faults w)).
Proof.
  intros Hnum. pose proof (fun l => number_in_no_texts v l Hnum) as Hc.
  unfold_adapter. unfold goes_through.
  crunch;
    try match goal with
        | H : contains v ?l = true |- _ => rewrite Hc in H; discriminate H
        end;
    (eexists; split; [reflexivity|]; world_simpl;
     repeat split; intros; first [discriminate | reflexivity]).
Qed.

(** The select box holds a referral id as [get_all_records] read it.  When
    that is a number, as for an id cell like 20240017 or 007, no cell of the
    identifier column, all of them texts, equals it: each of the four
    updates of the acknowledgement returns [False], no cell is written, and
    the form reports the failure; for a whole number, when the worksheet
    service answers, the four errors before it say that the record was not
    found.  Such a referral cannot be acknowledged through the dashboard. *)
Theorem number_id_cannot_be_acknowledged (v : value) name inp w :
  is_number v = true ->
  ack_submitted inp = true ->
  time_of_presentation inp <> "" ->
  acknowledged_by inp <> "" ->
  exists w',
    acknowledge_form v name inp w = (Ret tt, w')
    /\ sheet w' = sheet w /\ cache w' = cache w
    /\ calls w' =
         calls w ++ acknowledgement_calls v inp false false false false
    /\ (goes_through 12 w = true -> (exists z, v = VInt z) ->
        ui w' = ui w ++
          [st_error_out (msg_record_not_found v);
           st_error_out (msg_record_not_found v);
           st_error_out (msg_record_not_found v);
           st_error_out (msg_record_not_found v);
           st_error_out msg_ack_failed]).
Proof.
  intros Hnum Hsub Ht Hb.
  destruct (@update_number_fails v COL_ACK "Yes" w Hnum)
    as (w1 & E1 & S1 & K1 & C1 & G1).
  destruct (@update_number_fails v COL_PRESENTATION
              (time_of_presentation inp) w1 Hnum) as (w2 & E2 & S2 & K2 & C2 & G2).
  destruct (@update_number_fails v COL_ACK_BY (acknowledged_by inp) w2 Hnum)
    as (w3 & E3 & S3 & K3 & C3 & G3).
  destruct (@update_number_fails v COL_NOTES (gbagada_notes inp) w3 Hnum)
    as (w4 & E4 & S4 & K4 & C4 & G4).
  unfold acknowledge_form. rewrite Hsub, (validation_passes _ Ht Hb).
  cbn [negb]. unfold bind. rewrite E1, E2, E3, E4. cbn [andb].
  unfold st_error, say. eexists. split; [reflexivity|]. world_simpl.
  split; [congruence|]. split; [congruence|]. split.
  - rewrite C4, C3, C2, C1. unfold acknowledgement_calls.
    now rewrite <- !app_assoc.
  - intros Hgo _.
    destruct (goes_through_split 3 9 w Hgo) as (Hg1 & Hr1).
    destruct (G1 Hg1) as (U1 & F1).
    destruct (goes_through_split 3 6 w1 (Hr1 _ F1)) as (Hg2 & Hr2).
    destruct (G2 Hg2) as (U2 & F2).
    destruct (goes_through_split 3 3 w2 (Hr2 _ F2)) as (Hg3 & Hr3).
    destruct (G3 Hg3) as (U3 & F3).
    destruct (G4 (Hr3 _ F3)) as (U4 & _).
    rewrite U4, U3, U2, U1. now rewrite <- !app_assoc.
Qed.

Lemma number_id_cannot_be_acknowledged_witness :
  numericise "20240017" = VInt 20240017
  /\ exists w',
       acknowledge_form (VInt 20240017) "Mary Eze" nurse_acknowledges
         (world_of [HEADERS; numbered_row]) = (Ret tt, w')
       /\ sheet w' = [HEADERS; numbered_row]
       /\ ui w' =
            [st_error_out (msg_record_not_found (VInt 20240017));
             st_error_out (msg_record_not_found (VInt 20240017));
             st_error_out (msg_record_not_found (VInt 20240017));
             st_error_out (msg_record_not_found (VInt 20240017));
             st_error_out msg_ack_failed].
Proof.
  split; [reflexivity|].
  destruct (@number_id_cannot_be_acknowledged (VInt 20240017) "Mary Eze"
              nurse_acknowledges (world_of [HEADERS; numbered_row]))
    as (w' & E & Hs & _ & _ & Hui).
  - reflexivity.
  - reflexivity.
  - discriminate.
  - discriminate.
  - exists w'. split; [exact E|]. split; [exact Hs|].
    apply Hui; [reflexivity | now exists 20240017%Z].
Defined.
